(** * ES price-action statistics: a shallow embedding of [helper/ES_analysis.py]

    The development follows the Python class [EsPriceAnalysis].  The input
    sheet is a list of rows (pandas' default [RangeIndex], so a row label is
    its position), nullable cells are [option], and Python exceptions are the
    left injection of a sum: every analyzer lives in the error monad
    [result], and a statistic exists only when the run reaches it.

    Numbers: the percentages of the source are IEEE doubles.  In the
    analyzers a percentage [100. * k / n] is written as the rational
    [100 * k / n]; what is stated about these values (which counts a share
    divides, bounds, order, the sum of two complementary shares) is what
    the stored doubles satisfy as well.  Where the rounding of a double
    decides the matter (the rounding helper, sums of three shares) the
    operations are those of [Double]: the exact result rounded to the
    nearest binary64 number.  A value of a numeric column is a rational or
    [nan]. *)

From Stdlib Require Import String ZArith QArith Qround Qabs Qpower Lia Lqa Bool Arith List.
From ExtLib Require Import Structures.Monad Structures.MonadExc Data.Monads.EitherMonad.
Import ListNotations MonadNotation.
Local Open Scope monad_scope.
Local Open Scope Q_scope.

(* ===================================================================== *)
(** ** Python primitives used by the analyzers *)
(* ===================================================================== *)

Module Py.

(** The exceptions the statistics code can raise. *)
Inductive exn : Set :=
| ZeroDivisionError
| ValueError
| TypeError
| IndexError.

Definition result : Type -> Type := sum exn.

(** [float(len(l))] and more generally an [int] used in float arithmetic. *)
Definition of_nat (n : nat) : Q := inject_Z (Z.of_nat n).

(** Float true division [a / b]: [ZeroDivisionError] on a zero divisor. *)
Definition truediv (a b : Q) : result Q :=
  if Qeq_bool b 0 then raise ZeroDivisionError else ret (a / b).

(** [int(q)]: truncation toward zero. *)
Definition int (q : Q) : Z := Z.quot (Qnum q) (Zpos (Qden q)).

(** Number of elements of [range(start, stop, step)] for [step <> 0]. *)
Definition range_len (start stop step : Z) : nat :=
  if (0 <? step)%Z then
    if (start <? stop)%Z then Z.to_nat ((stop - start - 1) / step + 1) else 0%nat
  else
    if (stop <? start)%Z then Z.to_nat ((start - stop - 1) / (- step) + 1) else 0%nat.

(** [range(start, stop, step)] as a list; a zero step is a [ValueError]. *)
Definition range (start stop step : Z) : result (list Z) :=
  if (step =? 0)%Z then raise ValueError
  else ret (map (fun k => (start + Z.of_nat k * step)%Z)
                (seq 0 (range_len start stop step))).

(** A float read from a numeric column: [None] is [nan]. *)
Definition number : Type := option Q.

(** [i <= x] and [i > m] on floats: any comparison with [nan] is false. *)
Definition le_int (i : number) (x : Z) : bool :=
  match i with
  | Some q => Qle_bool q (inject_Z x)
  | None => false
  end.

Definition gt (i m : number) : bool :=
  match i, m with
  | Some a, Some b => negb (Qle_bool a b)
  | _, _ => false
  end.

(** [int(v)] on a float: [ValueError] on [nan]. *)
Definition int_of_number (v : number) : result Z :=
  match v with
  | Some q => ret (int q)
  | None => raise ValueError
  end.

(** [max(l)]: [ValueError] on the empty sequence, otherwise the running
    maximum (an item replaces the current one only when it is greater). *)
Definition max (l : list number) : result number :=
  match l with
  | [] => raise ValueError
  | a :: l' => ret (fold_left (fun m i => if gt i m then i else m) l' a)
  end.

(** Sum of a float sequence: [nan] is absorbing. *)
Definition fsum (l : list number) : number :=
  fold_left (fun acc i =>
               match acc, i with
               | Some a, Some b => Some (a + b)
               | _, _ => None
               end) l (Some 0).

(** [numpy.mean]: the arithmetic mean; on an empty input numpy warns and
    yields [nan]. *)
Definition mean (l : list number) : number :=
  match l, fsum l with
  | _ :: _, Some s => Some (s / of_nat (length l))
  | _, _ => None
  end.

(** A [for] loop that appends one computed value per item. *)
Fixpoint mapM {A B : Type} (f : A -> result B) (l : list A) : result (list B) :=
  match l with
  | [] => ret []
  | a :: l' => b <- f a ;; bs <- mapM f l' ;; ret (b :: bs)
  end.

(** The recurring expression [100. * k / n] on two counts. *)
Definition pct100 (k n : nat) : result Q := truediv (100 * of_nat k) (of_nat n).

End Py.

Import Py.

(* ===================================================================== *)
(** ** Binary64 arithmetic *)
(* ===================================================================== *)

(** A double is the rational it denotes.  An operation of the source on
    doubles is the exact operation followed by [RN], rounding to the
    nearest number with 53 significant bits (ties to even), with the
    subnormal spacing [2^-1074] at the bottom.  The exponent is not bounded
    above: overflow to [inf] (beyond [2^1024]) is outside the model. *)
Module Double.

(** Rounding to the nearest integer, ties to even. *)
Definition rne (q : Q) : Z :=
  let f := Qfloor q in
  match Qcompare (q - inject_Z f) (1 # 2) with
  | Lt => f
  | Gt => (f + 1)%Z
  | Eq => if Z.even f then f else (f + 1)%Z
  end.

(** [floor (log2 |q|)] of a non-zero [q]. *)
Definition ilog2 (q : Q) : Z :=
  let e0 := (Z.log2 (Z.abs (Qnum q)) - Z.log2 (Zpos (Qden q)))%Z in
  if Qle_bool (2 ^ e0) (Qabs q) then e0 else (e0 - 1)%Z.

(** The exponent of the unit in the last place of [q]. *)
Definition cexp (q : Q) : Z := Z.max (ilog2 q - 52) (-1074).

(** The double nearest to [q]. *)
Definition RN (q : Q) : Q := inject_Z (rne (q / 2 ^ cexp q)) * 2 ^ cexp q.

(** [a * b], [a + b] and [a / b] on doubles. *)
Definition mul (a b : Q) : Q := RN (a * b).

Definition add (a b : Q) : Q := RN (a + b).

Definition truediv (a b : Q) : result Q :=
  if Qeq_bool b 0 then raise ZeroDivisionError else ret (RN (a / b)).

(** [100. * k / n] on two counts, as the source stores it (a count is
    below [2^53] and converts to a double exactly). *)
Definition pct100 (k n : nat) : result Q := truediv (mul 100 (of_nat k)) (of_nat n).

End Double.

(** A nullable spreadsheet cell ([NaN] in pandas is [None]). *)
Definition cell (A : Type) : Type := option A.

Definition notnull {A : Type} (c : cell A) : bool :=
  match c with Some _ => true | None => false end.

Definition isnull {A : Type} (c : cell A) : bool := negb (notnull c).

(** [datetime.time], compared lexicographically. *)
Record time : Set := mk_time { hour : nat; minute : nat; second : nat }.

Definition time_leb (a b : time) : bool :=
  (hour a <? hour b)%nat
  || ((hour a =? hour b)%nat
      && ((minute a <? minute b)%nat
          || ((minute a =? minute b)%nat && (second a <=? second b)%nat))).

(* ===================================================================== *)
(** ** The cumulative probability function *)
(* ===================================================================== *)

Record cpf_result (X : Type) : Type := mk_cpf { cpf : list Q; x : list X }.
Arguments mk_cpf {X} _ _.
Arguments cpf {X} _.
Arguments x {X} _.

(** [sum(i <= x for i in data)] on numbers. *)
Definition count_le (data : list number) (x : Z) : nat :=
  length (filter (fun i => le_int i x) data).

(** [__calc_cpf(data, bin_max, bin_span)]. *)
Definition calc_cpf (data : list number) (bin_max bin_span : Z) : result (cpf_result Z) :=
  r <- Py.range bin_span bin_max bin_span ;;
  let x_cpf := r ++ [bin_max] in
  let n := of_nat (length data) in
  cpf <- mapM (fun x => truediv (100 * of_nat (count_le data x)) n) x_cpf ;;
  ret (mk_cpf cpf x_cpf).

(** The default [bin_span = 2] of [__calc_cpf]. *)
Definition calc_cpf_default (data : list number) (bin_max : Z) : result (cpf_result Z) :=
  calc_cpf data bin_max 2.

(** [self.__x_cpf_time]: 09:30 to 15:00 every thirty minutes. *)
Definition x_cpf_time : list time :=
  [ mk_time 9 30 0; mk_time 10 0 0; mk_time 10 30 0; mk_time 11 0 0;
    mk_time 11 30 0; mk_time 12 0 0; mk_time 12 30 0; mk_time 13 0 0;
    mk_time 13 30 0; mk_time 14 0 0; mk_time 14 30 0; mk_time 15 0 0 ].

(** [i <= x] for a cell of a time column: a null cell is a float [nan],
    which Python refuses to compare with a [datetime.time]. *)
Definition cell_le_time (i : cell time) (x : time) : result bool :=
  match i with
  | Some t => ret (time_leb t x)
  | None => raise TypeError
  end.

(** [sum(i <= x for i in data)] on a time column, evaluated left to right. *)
Fixpoint sum_le_time (data : list (cell time)) (x : time) : result nat :=
  match data with
  | [] => ret 0%nat
  | i :: data' =>
      b <- cell_le_time i x ;;
      s <- sum_le_time data' x ;;
      ret ((if b then 1 else 0) + s)%nat
  end.

(** [__calc_cpf_time(data)]. *)
Definition calc_cpf_time (data : list (cell time)) : result (cpf_result time) :=
  let n := of_nat (length data) in
  cpf <- mapM (fun x => s <- sum_le_time data x ;; truediv (100 * of_nat s) n)
              x_cpf_time ;;
  ret (mk_cpf cpf x_cpf_time).

(** [__round(n)] with [__FACTOR_ROUND = 10], on a double [n]: the product
    [n * 10] is a double, [int] truncates it, and the quotient of the two
    integers is the double nearest to it.  (Beyond [2^1020] the product
    overflows and [int] raises [OverflowError]; the statements about
    [round] stay below.) *)
Definition FACTOR_ROUND : Z := 10.

Definition round (n : Q) : Q :=
  Double.RN (inject_Z (Py.int (Double.mul n (inject_Z FACTOR_ROUND)))
             / inject_Z FACTOR_ROUND).

(* ===================================================================== *)
(** ** The session table *)
(* ===================================================================== *)

(** One row of the sheet 'ES movement'; only the columns the statistics read.
    The field comments give the column headers. *)
Record row : Type := mk_row {
  Rebound_1 : cell string;           (* "Rebound 1  08:30-11" *)
  Rebound_2 : cell string;           (* "Rebound 2 08:30-11" *)
  Pt_deep_rebound : number;          (* "Pt deep rebound" *)
  No_perfect_rebound : cell string;  (* "No perfect rebound" *)
  Trend_since_830 : cell Z;          (* "Trend since 8:30" *)
  ES_PP : cell Z;                    (* "ES & PP" *)
  New_trend : cell Z;                (* "New trend" *)
  Hour_trend_change : cell time;     (* "Hour trend change" *)
  Max_Range : number                 (* "Max Range 8:30 - 13" *)
}.

Definition dataframe : Type := list row.

(** [df[mask]]: boolean-mask selection keeps the rows in order. *)
Definition select (p : row -> bool) (df : dataframe) : dataframe := filter p df.

(** [df[mask].index.tolist()]: the labels (positions) of the selected rows. *)
Definition index_where (p : row -> bool) (df : dataframe) : list nat :=
  map fst (filter (fun ir => p (snd ir)) (combine (seq 0 (length df)) df)).

(** [df.iloc[i]]. *)
Definition iloc (df : dataframe) (i : nat) : result row :=
  match nth_error df i with
  | Some r => ret r
  | None => raise IndexError
  end.

(** [[df.iloc[i][col] for i in rows]]. *)
Definition column_at {A : Type} (df : dataframe) (col : row -> A) (rows : list nat)
  : result (list A) :=
  mapM (fun i => r <- iloc df i ;; ret (col r)) rows.

(** [[df.iloc[i][col] for i in rows if df.iloc[i][key] == point]]. *)
Fixpoint column_at_if {A : Type} (df : dataframe) (col : row -> A)
         (cond : row -> bool) (rows : list nat) : result (list A) :=
  match rows with
  | [] => ret []
  | i :: rows' =>
      r <- iloc df i ;;
      if cond r then
        r' <- iloc df i ;;
        vs <- column_at_if df col cond rows' ;;
        ret (col r' :: vs)
      else column_at_if df col cond rows'
  end.

(** [c == s] on a text cell and [c == k] on an integer cell; a null cell
    equals nothing. *)
Definition cell_eq_str (c : cell string) (s : string) : bool :=
  match c with Some v => String.eqb v s | None => false end.

Definition cell_eq_int (c : cell Z) (k : Z) : bool :=
  match c with Some v => (v =? k)%Z | None => false end.

(** [l.count(point)] on a list of text cells, and on integer cells. *)
Definition count_str (l : list (cell string)) (point : string) : nat :=
  length (filter (fun c => cell_eq_str c point) l).

Definition count_int (l : list (cell Z)) (k : Z) : nat :=
  length (filter (fun c => cell_eq_int c k) l).

(** [i in l] on row labels, and [list(set(l))].  Python leaves the order of
    a set unspecified; the analyzers only test membership in such a list,
    take its length or filter it. *)
Definition mem (i : nat) (l : list nat) : bool := existsb (Nat.eqb i) l.

Definition list_set (l : list nat) : list nat := nodup Nat.eq_dec l.

(** [[i for i in l if i not in k]]. *)
Definition not_in (l k : list nat) : list nat := filter (fun i => negb (mem i k)) l.

(** The two open-versus-pivot buckets of "ES & PP". *)
Definition es_higher_pp (r : row) : bool :=
  cell_eq_int (ES_PP r) 1 || cell_eq_int (ES_PP r) (-1).

Definition es_lower_pp (r : row) : bool :=
  cell_eq_int (ES_PP r) 0 || cell_eq_int (ES_PP r) 2.

(* ===================================================================== *)
(** ** [__analyze_pivot_points] *)
(* ===================================================================== *)

(** *** Row labels of the days with an interaction *)

Definition rows_first_rebound (df : dataframe) : list nat :=
  index_where (fun r => notnull (Rebound_1 r)) df.

Definition rows_second_rebound (df : dataframe) : list nat :=
  index_where (fun r => notnull (Rebound_2 r)) df.

Definition rows_perfect_rebound (df : dataframe) : list nat :=
  rows_first_rebound df ++ rows_second_rebound df.

Definition rows_deep_rebound (df : dataframe) : list nat :=
  index_where (fun r => notnull (Pt_deep_rebound r)) df.

Definition rows_no_perfect_rebound (df : dataframe) : list nat :=
  index_where (fun r => notnull (No_perfect_rebound r)) df.

Definition rows_no_rebound (df : dataframe) : list nat :=
  not_in (rows_no_perfect_rebound df) (rows_deep_rebound df).

(** *** The counts of ["General"] *)

Definition count_perfect_rebound (df : dataframe) : nat := length (rows_perfect_rebound df).
Definition count_deep_rebound (df : dataframe) : nat := length (rows_deep_rebound df).
Definition count_rebound (df : dataframe) : nat :=
  (count_perfect_rebound df + count_deep_rebound df)%nat.
Definition count_no_perfect_rebound (df : dataframe) : nat :=
  length (rows_no_perfect_rebound df).
Definition count_no_rebound (df : dataframe) : nat := length (rows_no_rebound df).
Definition count_points (df : dataframe) : nat :=
  (count_rebound df + count_no_rebound df)%nat.
Definition total_days (df : dataframe) : nat := length df.

(** *** The touch lists *)

Record touches : Type := mk_touches {
  point_perfect_rebound : list (cell string);
  point_deep_rebound : list (cell string);
  pt_deep_rebound : list number;
  pt_deep_rebound_pivot : list number;
  pt_deep_rebound_support : list number;
  pt_deep_rebound_resistance : list number;
  point_no_rebound : list (cell string)
}.

Definition touch_lists (df : dataframe) : result touches :=
  p1 <- column_at df Rebound_1 (rows_first_rebound df) ;;
  p2 <- column_at df Rebound_2 (rows_second_rebound df) ;;
  pd <- column_at df No_perfect_rebound (rows_deep_rebound df) ;;
  pt <- column_at df Pt_deep_rebound (rows_deep_rebound df) ;;
  ptp <- column_at_if df Pt_deep_rebound
           (fun r => cell_eq_str (No_perfect_rebound r) "PP") (rows_deep_rebound df) ;;
  pts <- column_at_if df Pt_deep_rebound
           (fun r => cell_eq_str (No_perfect_rebound r) "S") (rows_deep_rebound df) ;;
  ptr <- column_at_if df Pt_deep_rebound
           (fun r => cell_eq_str (No_perfect_rebound r) "R") (rows_deep_rebound df) ;;
  pn <- column_at df No_perfect_rebound (rows_no_rebound df) ;;
  ret (mk_touches (p1 ++ p2) pd pt ptp pts ptr pn).

(** *** The day sets *)

Definition days_with_perfect_rebound (df : dataframe) : list nat := rows_first_rebound df.
Definition days_with_deep_rebound (df : dataframe) : list nat := rows_deep_rebound df.
Definition days_with_no_rebound (df : dataframe) : list nat := rows_no_rebound df.
Definition days_with_no_perfect_rebound (df : dataframe) : list nat :=
  rows_no_perfect_rebound df.
Definition days_with_rebound (df : dataframe) : list nat :=
  list_set (days_with_perfect_rebound df ++ days_with_deep_rebound df).
Definition days_with_demark (df : dataframe) : list nat :=
  list_set (days_with_rebound df ++ days_with_no_rebound df).
Definition days_with_no_demark (df : dataframe) : list nat :=
  not_in (seq 0 (total_days df)) (days_with_demark df).

Definition demark_days_with_rebound (df : dataframe) : list nat := days_with_rebound df.
Definition demark_days_with_rebound_only (df : dataframe) : list nat :=
  not_in (days_with_rebound df) (days_with_no_rebound df).
Definition demark_days_with_perfect_rebound_only (df : dataframe) : list nat :=
  not_in (days_with_perfect_rebound df) (days_with_no_perfect_rebound df).
Definition demark_days_with_deep_rebound_only (df : dataframe) : list nat :=
  not_in (days_with_deep_rebound df) (days_with_perfect_rebound df).
Definition demark_days_with_no_rebound_only (df : dataframe) : list nat :=
  not_in (days_with_no_rebound df) (days_with_rebound df).
Definition demark_days_with_no_rebound (df : dataframe) : list nat :=
  days_with_no_rebound df.

(** *** ["Days with demark"] and the percentages of ["General"] *)

Module DaysWithDemark.
Record t : Type := mk {
  count : nat;
  with_rebound : Q;
  only_rebound : Q;
  only_perfect_rebound : Q;
  only_deep_rebound : Q;
  only_no_rebound : Q;
  with_no_rebound : Q;
  with_perfect_rebound : Q;
  with_deep_rebound : Q
}.
End DaysWithDemark.

Definition days_with_demark_stats (df : dataframe) : result DaysWithDemark.t :=
  let count := length (days_with_demark df) in
  a <- pct100 (length (demark_days_with_rebound df)) count ;;
  b <- pct100 (length (demark_days_with_rebound_only df)) count ;;
  c <- pct100 (length (demark_days_with_perfect_rebound_only df)) count ;;
  d <- pct100 (length (demark_days_with_deep_rebound_only df)) count ;;
  e <- pct100 (length (demark_days_with_no_rebound_only df)) count ;;
  f <- pct100 (length (demark_days_with_no_rebound df)) count ;;
  g <- pct100 (length (days_with_perfect_rebound df)) count ;;
  h <- pct100 (length (days_with_deep_rebound df)) count ;;
  ret (DaysWithDemark.mk count a b c d e f g h).

Module General.
Record t : Type := mk {
  pct_days_with_rebound : Q;
  pct_days_no_demark : Q;
  pct_days_with_demark : Q;
  pct_rebound : Q;
  pct_no_rebound : Q;
  pct_perfect_rebound : Q;
  pct_deep_rebound : Q;
  pct_perfect_rebound_if_rebound : Q;
  pt_deep_rebound : list number
}.
End General.

(** The two entries ["pct days no demark"] and ["pct days with demark"]. *)
Definition pct_days_no_demark (df : dataframe) : result Q :=
  pct100 (length (days_with_no_demark df)) (total_days df).

Definition pct_days_with_demark (df : dataframe) : result Q :=
  pct100 (length (days_with_demark df)) (total_days df).

Definition general_stats (df : dataframe) : result General.t :=
  a <- pct100 (length (days_with_rebound df)) (total_days df) ;;
  b <- pct_days_no_demark df ;;
  c <- pct_days_with_demark df ;;
  d <- pct100 (count_rebound df) (count_points df) ;;
  e <- pct100 (count_no_rebound df) (count_points df) ;;
  f <- pct100 (count_perfect_rebound df) (count_points df) ;;
  g <- pct100 (count_deep_rebound df) (count_points df) ;;
  h <- pct100 (count_perfect_rebound df) (count_rebound df) ;;
  pt <- column_at df Pt_deep_rebound (rows_deep_rebound df) ;;
  ret (General.mk a b c d e f g h pt).

(** *** The per-level groups ["Pivot"], ["Support"], ["Resistance"] *)

(** [__count_point]. *)
Definition count_point (point : string)
           (list_perfect_rebound list_deep_rebound list_no_rebound : list (cell string))
  : nat * nat * nat :=
  (count_str list_perfect_rebound point,
   count_str list_deep_rebound point,
   count_str list_no_rebound point).

Module Level.
Record t : Type := mk {
  pct_level_perfect_rebound : Q;   (* "pct pivot perfect rebound", ... *)
  pct_level_deep_rebound : Q;      (* "pct pivot deep rebound", ... *)
  pct_level_rebound : Q;           (* "pct pivot rebound", ... *)
  pct_level_no_rebound : Q;        (* "pct pivot no rebound", ... *)
  pct_point : Q;
  pct_perfect_rebound : Q;
  pct_deep_rebound : Q;
  pct_rebound : Q;
  pct_no_rebound : Q;
  pt_deep_rebound : list number
}.
End Level.

(** The source repeats one block for "PP", "S" and "R"; [point] is the
    literal that changes. *)
Definition level_stats (df : dataframe) (tl : touches) (point : string)
  : result Level.t :=
  let '(count_perfect, count_deep, count_no) :=
    count_point point (point_perfect_rebound tl) (point_deep_rebound tl)
                (point_no_rebound tl) in
  let count_total := (count_perfect + count_deep + count_no)%nat in
  a <- pct100 count_perfect (count_perfect_rebound df) ;;
  b <- pct100 count_deep (count_deep_rebound df) ;;
  c <- pct100 (count_perfect + count_deep) (count_rebound df) ;;
  d <- pct100 count_no (count_no_rebound df) ;;
  e <- pct100 count_total (count_points df) ;;
  f <- pct100 count_perfect count_total ;;
  g <- pct100 count_deep count_total ;;
  h <- pct100 (count_perfect + count_deep) count_total ;;
  i <- pct100 count_no count_total ;;
  pt <- column_at_if df Pt_deep_rebound
          (fun r => cell_eq_str (No_perfect_rebound r) point) (rows_deep_rebound df) ;;
  ret (Level.mk a b c d e f g h i pt).

(** The same block with the percentages as the doubles the source stores. *)
Definition level_stats_binary64 (df : dataframe) (tl : touches) (point : string)
  : result Level.t :=
  let '(count_perfect, count_deep, count_no) :=
    count_point point (point_perfect_rebound tl) (point_deep_rebound tl)
                (point_no_rebound tl) in
  let count_total := (count_perfect + count_deep + count_no)%nat in
  a <- Double.pct100 count_perfect (count_perfect_rebound df) ;;
  b <- Double.pct100 count_deep (count_deep_rebound df) ;;
  c <- Double.pct100 (count_perfect + count_deep) (count_rebound df) ;;
  d <- Double.pct100 count_no (count_no_rebound df) ;;
  e <- Double.pct100 count_total (count_points df) ;;
  f <- Double.pct100 count_perfect count_total ;;
  g <- Double.pct100 count_deep count_total ;;
  h <- Double.pct100 (count_perfect + count_deep) count_total ;;
  i <- Double.pct100 count_no count_total ;;
  pt <- column_at_if df Pt_deep_rebound
          (fun r => cell_eq_str (No_perfect_rebound r) point) (rows_deep_rebound df) ;;
  ret (Level.mk a b c d e f g h i pt).

(** *** The deep-rebound distribution *)

Module Deep.
Record t : Type := mk {
  pct_of_deep_rebounds : Q;   (* "% of deep rebounds" *)
  mean : number;
  table : list (Z * Q)        (* threshold, cumulative percentage *)
}.
End Deep.

(** [for i, x in enumerate(c["x"]): d[key(x)] = c["cpf"][i]]; both lists of
    a CPF have the same length. *)
Definition cpf_table {X : Type} (c : cpf_result X) : list (X * Q) := combine (x c) (cpf c).

Definition deep_rebound_level (tl : touches) (pt_level : list number) : result Deep.t :=
  m <- Py.max (pt_deep_rebound tl) ;;
  bin_max <- int_of_number m ;;
  cdf <- calc_cpf_default pt_level bin_max ;;
  p <- pct100 (length pt_level) (length (pt_deep_rebound tl)) ;;
  ret (Deep.mk p (Py.mean pt_level) (cpf_table cdf)).

Module DeepRebound.
Record t : Type := mk {
  General : Deep.t;
  Pivot : Deep.t;
  Support : Deep.t;
  Resistance : Deep.t
}.
End DeepRebound.

Definition deep_rebound_stats (tl : touches) : result DeepRebound.t :=
  m <- Py.max (pt_deep_rebound tl) ;;
  bin_max <- int_of_number m ;;
  cdf <- calc_cpf_default (pt_deep_rebound tl) bin_max ;;
  let general := Deep.mk 100 (Py.mean (pt_deep_rebound tl)) (cpf_table cdf) in
  pivot <- deep_rebound_level tl (pt_deep_rebound_pivot tl) ;;
  support <- deep_rebound_level tl (pt_deep_rebound_support tl) ;;
  resistance <- deep_rebound_level tl (pt_deep_rebound_resistance tl) ;;
  ret (DeepRebound.mk general pivot support resistance).

(** *** The no-rebound breakdown at the end of the method *)

Module NoRebound.
Record t : Type := mk {
  pct_uptrend : Q;
  pct_downtrend : Q;
  pct_range : Q;
  pct_es_lt_pp : Q;      (* "% es<PP (8:30)" *)
  pct_es_gt_pp : Q;      (* "% es>PP (8:30)" *)
  pct_resistance : Q;
  pct_pivot : Q;
  pct_support : Q
}.
End NoRebound.

Definition no_rebound_stats (df : dataframe) (tl : touches) : result NoRebound.t :=
  trend_no_rebound <- column_at df Trend_since_830 (rows_no_rebound df) ;;
  es_pp_no_rebound <- column_at df ES_PP (rows_no_rebound df) ;;
  let count_days_no_rebound := length (rows_no_rebound df) in
  a <- pct100 (count_int trend_no_rebound 1) count_days_no_rebound ;;
  b <- pct100 (count_int trend_no_rebound (-1)) count_days_no_rebound ;;
  c <- pct100 (count_int trend_no_rebound 0) count_days_no_rebound ;;
  d <- pct100 (count_int es_pp_no_rebound 0 + count_int es_pp_no_rebound 2)
         count_days_no_rebound ;;
  e <- pct100 (count_int es_pp_no_rebound 1 + count_int es_pp_no_rebound (-1))
         count_days_no_rebound ;;
  f <- pct100 (count_str (point_no_rebound tl) "R") count_days_no_rebound ;;
  g <- pct100 (count_str (point_no_rebound tl) "PP") count_days_no_rebound ;;
  h <- pct100 (count_str (point_no_rebound tl) "S") count_days_no_rebound ;;
  ret (NoRebound.mk a b c d e f g h).

(** *** The whole method, in source order *)

Module PivotPoints.
Record t : Type := mk {
  days : DaysWithDemark.t;
  general : General.t;
  pivot : Level.t;
  support : Level.t;
  resistance : Level.t;
  deep : DeepRebound.t;
  no_rebound : NoRebound.t
}.
End PivotPoints.

Definition analyze_pivot_points (df : dataframe) : result PivotPoints.t :=
  tl <- touch_lists df ;;
  days <- days_with_demark_stats df ;;
  general <- general_stats df ;;
  pivot <- level_stats df tl "PP" ;;
  support <- level_stats df tl "S" ;;
  resistance <- level_stats df tl "R" ;;
  deep <- deep_rebound_stats tl ;;
  no_rebound <- no_rebound_stats df tl ;;
  ret (PivotPoints.mk days general pivot support resistance deep no_rebound).

(* ===================================================================== *)
(** ** [__analyze_reversal] *)
(* ===================================================================== *)

(** [__analyze_general_reversal]: the days with a reversal hour. *)
Definition es_price_with_reversal_df (df : dataframe) : dataframe :=
  select (fun r => notnull (Hour_trend_change r)) df.

Definition count_days_with_reversal (df : dataframe) : nat :=
  length (es_price_with_reversal_df df).

Definition analyze_general_reversal (df : dataframe) : result Q :=
  pct100 (count_days_with_reversal df) (length df).

(** The three trend classes of [__analyze_reversal_each_trend]. *)
Definition es_uptrend_df (df : dataframe) : dataframe :=
  select (fun r => cell_eq_int (Trend_since_830 r) 1) df.
Definition es_downtrend_df (df : dataframe) : dataframe :=
  select (fun r => cell_eq_int (Trend_since_830 r) (-1)) df.
Definition es_range_df (df : dataframe) : dataframe :=
  select (fun r => cell_eq_int (Trend_since_830 r) 0) df.

(** The reversal cohort of each class. *)
Definition then_reversal (class_df : dataframe) : dataframe :=
  select (fun r => notnull (Hour_trend_change r)) class_df.

Definition es_uptrend_then_reversal_df (df : dataframe) : dataframe :=
  then_reversal (es_uptrend_df df).
Definition es_downtrend_then_reversal_df (df : dataframe) : dataframe :=
  then_reversal (es_downtrend_df df).
Definition es_range_then_reversal_df (df : dataframe) : dataframe :=
  then_reversal (es_range_df df).

(** [d[d["New trend"].notnull()]["Hour trend change"].values] and the like. *)
Definition hours_of_new_trend (d : dataframe) : list (cell time) :=
  map Hour_trend_change (select (fun r => notnull (New_trend r)) d).

Definition range_of (p : row -> bool) (d : dataframe) : list number :=
  map Max_Range (select p d).

Module ReversalDay.
Record t : Type := mk {
  pct_down_then_up : Q;
  pct_up_then_down : Q;
  pct_range_then_up : Q;
  pct_range_then_down : Q
}.
End ReversalDay.

Module TrendDay.
Record t : Type := mk {
  count_days : nat;
  pct_with_reversal : Q;        (* "% with reversal*" *)
  pct_reversal_es_lt_pp : Q;    (* "% reversal when ES<PP at 8:30am**" *)
  pct_reversal_es_gt_pp : Q;    (* "% reversal when ES>PP at 8:30am**" *)
  avg_range_no_reversal : number;
  avg_range_reversal : number;
  hour_cpf : cpf_result time
}.
End TrendDay.

(** The entry ["% with reversal*"] of a class: its reversal cohort against
    the class. *)
Definition pct_with_reversal (class_df : dataframe) : result Q :=
  pct100 (length (then_reversal class_df)) (length class_df).

(** The block of an uptrend or a downtrend day; [class_df] is the class and
    [class_then_reversal_df] its reversal cohort. *)
Definition trend_day (class_df : dataframe) : result TrendDay.t :=
  let class_then_reversal_df := then_reversal class_df in
  let count_class_days := length class_df in
  let range_no_reversal_days := range_of (fun r => isnull (New_trend r)) class_df in
  let range_with_reversal_days := range_of (fun r => notnull (New_trend r)) class_df in
  a <- pct_with_reversal class_df ;;
  let then_reversal_es_higher_pp := select es_higher_pp class_then_reversal_df in
  let then_reversal_es_lower_pp := select es_lower_pp class_then_reversal_df in
  b <- pct100 (length then_reversal_es_lower_pp) (length class_then_reversal_df) ;;
  c <- pct100 (length then_reversal_es_higher_pp) (length class_then_reversal_df) ;;
  cpf_hour <- calc_cpf_time (hours_of_new_trend class_df) ;;
  ret (TrendDay.mk count_class_days a b c
         (Py.mean range_no_reversal_days) (Py.mean range_with_reversal_days) cpf_hour).

Module RangeThenReversal.
Record t : Type := mk {
  count_range_with_reversal : nat;
  pct_uptrend_reversal : Q;
  pct_downtrend_reversal : Q;
  avg_pt_range_no_reversal : number;
  avg_pt_range_then_uptrend : number;
  avg_pt_range_then_downtrend : number
}.
End RangeThenReversal.

(** The first half of the range-day block: [self.__range_then_reversal]. *)
Definition range_then_reversal (df : dataframe) : result RangeThenReversal.t :=
  let range_range_no_reversal_days :=
    range_of (fun r => isnull (New_trend r)) (es_range_df df) in
  let range_range_with_reversal_days :=
    range_of (fun r => notnull (New_trend r)) (es_range_df df) in
  let count_range_with_reversal := length range_range_with_reversal_days in
  let range_then_uptrend_days_df :=
    select (fun r => cell_eq_int (New_trend r) 1) (es_range_df df) in
  let range_then_downtrend_days_df :=
    select (fun r => cell_eq_int (New_trend r) (-1)) (es_range_df df) in
  a <- pct100 (length range_then_uptrend_days_df) count_range_with_reversal ;;
  b <- pct100 (length range_then_downtrend_days_df) count_range_with_reversal ;;
  ret (RangeThenReversal.mk count_range_with_reversal a b
         (Py.mean range_range_no_reversal_days)
         (Py.mean (map Max_Range range_then_uptrend_days_df))
         (Py.mean (map Max_Range range_then_downtrend_days_df))).

(** The second half of the range-day block: [self.__stats_reversal["range day"]].
    The divisor of the ES<PP entry is the one the source writes. *)
Definition range_day (df : dataframe) : result TrendDay.t :=
  let count_range_days := length (es_range_df df) in
  let range_range_no_reversal_days :=
    range_of (fun r => isnull (New_trend r)) (es_range_df df) in
  let range_range_with_reversal_days :=
    range_of (fun r => notnull (New_trend r)) (es_range_df df) in
  a <- pct_with_reversal (es_range_df df) ;;
  let range_then_reversal_es_higher_pp :=
    select es_higher_pp (es_range_then_reversal_df df) in
  let range_then_reversal_es_lower_pp :=
    select es_lower_pp (es_range_then_reversal_df df) in
  b <- pct100 (length range_then_reversal_es_lower_pp)
         (length (es_downtrend_then_reversal_df df)) ;;
  c <- pct100 (length range_then_reversal_es_higher_pp)
         (length (es_range_then_reversal_df df)) ;;
  cpf_hour <- calc_cpf_time (hours_of_new_trend (es_range_df df)) ;;
  ret (TrendDay.mk count_range_days a b c
         (Py.mean range_range_no_reversal_days) (Py.mean range_range_with_reversal_days)
         cpf_hour).

Module Reversal.
Record t : Type := mk {
  hour_general : cpf_result time;
  pct_uptrend_then_reversal : Q;
  pct_downtrend_then_reversal : Q;
  pct_range_then_reversal : Q;
  reversal_day : ReversalDay.t;
  uptrend_day : TrendDay.t;
  downtrend_day : TrendDay.t;
  range_reversal : RangeThenReversal.t;
  range_day : TrendDay.t
}.
End Reversal.

(** [__analyze_reversal_each_trend], in source order. *)
Definition analyze_reversal_each_trend (df : dataframe) : result Reversal.t :=
  cpf_hour_reversal <- calc_cpf_time (hours_of_new_trend df) ;;
  let es_uptrend_then_downtrend_df :=
    select (fun r => cell_eq_int (New_trend r) (-1)) (es_uptrend_then_reversal_df df) in
  let es_downtrend_then_uptrend_df :=
    select (fun r => cell_eq_int (New_trend r) 1) (es_downtrend_then_reversal_df df) in
  let es_range_then_uptrend_df :=
    select (fun r => cell_eq_int (New_trend r) 1) (es_range_then_reversal_df df) in
  let es_range_then_downtrend_df :=
    select (fun r => cell_eq_int (New_trend r) (-1)) (es_range_then_reversal_df df) in
  pu <- pct_with_reversal (es_uptrend_df df) ;;
  pd <- pct_with_reversal (es_downtrend_df df) ;;
  pr <- pct_with_reversal (es_range_df df) ;;
  a <- pct100 (length es_downtrend_then_uptrend_df) (count_days_with_reversal df) ;;
  b <- pct100 (length es_uptrend_then_downtrend_df) (count_days_with_reversal df) ;;
  c <- pct100 (length es_range_then_uptrend_df) (count_days_with_reversal df) ;;
  d <- pct100 (length es_range_then_downtrend_df) (count_days_with_reversal df) ;;
  up <- trend_day (es_uptrend_df df) ;;
  down <- trend_day (es_downtrend_df df) ;;
  rr <- range_then_reversal df ;;
  rd <- range_day df ;;
  ret (Reversal.mk cpf_hour_reversal pu pd pr (ReversalDay.mk a b c d) up down rr rd).

(** [__analyze_reversal_es_start_pivot]: the two open-versus-pivot cohorts
    and their share of reversal days. *)
Definition es_higher_pp_start (df : dataframe) : dataframe := select es_higher_pp df.
Definition es_lower_pp_start (df : dataframe) : dataframe := select es_lower_pp df.

Definition analyze_reversal_es_start_pivot (df : dataframe) : result (Q * Q) :=
  a <- pct100 (length (then_reversal (es_higher_pp_start df)))
         (length (es_higher_pp_start df)) ;;
  b <- pct100 (length (then_reversal (es_lower_pp_start df)))
         (length (es_lower_pp_start df)) ;;
  ret (a, b).

(** [__analyze_reversal]. *)
Definition analyze_reversal (df : dataframe) : result (Q * Reversal.t * (Q * Q)) :=
  g <- analyze_general_reversal df ;;
  t <- analyze_reversal_each_trend df ;;
  s <- analyze_reversal_es_start_pivot df ;;
  ret (g, t, s).

(* ===================================================================== *)
(** ** [__analyze_range] *)
(* ===================================================================== *)

Definition BIN_RANGE_CPF : Z := 5.
Definition BIN_TREND_CPF : Z := 10.

Module RangeCpf.
Record t : Type := mk {
  all_days : list (Z * Q);    (* "Range", "Uptrend", "Downtrend" *)
  es_lt_pp : list (Z * Q);    (* "... ES<PP" *)
  es_gt_pp : list (Z * Q)     (* "... ES>PP" *)
}.
End RangeCpf.

(** One block of [__analyze_range]; the source repeats it for the range,
    uptrend and downtrend classes.  The local names are the source's: the
    series called [es_lower_pp] is the one that ends under the "ES<PP" key. *)
Definition range_block (class_df : dataframe) (bin_span : Z) : result RangeCpf.t :=
  let range_all_days := map Max_Range class_df in
  let range_es_lower_pp :=
    range_of (fun r => cell_eq_int (ES_PP r) 1 || cell_eq_int (ES_PP r) (-1)) class_df in
  let range_es_higher_pp :=
    range_of (fun r => cell_eq_int (ES_PP r) 0 || cell_eq_int (ES_PP r) 2) class_df in
  m <- Py.max range_all_days ;;
  bin_max <- int_of_number m ;;
  all_cpf <- calc_cpf range_all_days bin_max bin_span ;;
  m' <- Py.max range_all_days ;;
  bin_max' <- int_of_number m' ;;
  es_lower_pp_cpf <- calc_cpf range_es_lower_pp bin_max' bin_span ;;
  m'' <- Py.max range_all_days ;;
  bin_max'' <- int_of_number m'' ;;
  es_higher_pp_cpf <- calc_cpf range_es_higher_pp bin_max'' bin_span ;;
  ret (RangeCpf.mk (combine (x all_cpf) (cpf all_cpf))
                   (combine (x all_cpf) (cpf es_lower_pp_cpf))
                   (combine (x all_cpf) (cpf es_higher_pp_cpf))).

Module Range.
Record t : Type := mk {
  range : RangeCpf.t;
  uptrend : RangeCpf.t;
  downtrend : RangeCpf.t
}.
End Range.

Definition analyze_range (df : dataframe) : result Range.t :=
  r <- range_block (es_range_df df) BIN_RANGE_CPF ;;
  u <- range_block (es_uptrend_df df) BIN_TREND_CPF ;;
  d <- range_block (es_downtrend_df df) BIN_TREND_CPF ;;
  ret (Range.mk r u d).

(* ===================================================================== *)
(** ** Vocabulary of the statements *)
(* ===================================================================== *)

(** The touches of one level over the three touch lists ([count_pp_total]
    and its siblings in the source). *)
Definition count_total (tl : touches) (point : string) : nat :=
  let '(a, b, c) := count_point point (point_perfect_rebound tl)
                      (point_deep_rebound tl) (point_no_rebound tl) in
  (a + b + c)%nat.

(** Whether the row at a label satisfies a mask. *)
Definition at_label (p : row -> bool) (df : dataframe) (i : nat) : bool :=
  match nth_error df i with
  | Some r => p r
  | None => false
  end.

(** The touch lists as plain selections of the table. *)
Definition deep_rows (df : dataframe) : dataframe :=
  select (fun r => notnull (Pt_deep_rebound r)) df.

Definition failed_rows (df : dataframe) : dataframe :=
  select (fun r => notnull (No_perfect_rebound r) && negb (notnull (Pt_deep_rebound r))) df.

Definition deep_distances_at (df : dataframe) (point : string) : list number :=
  map Pt_deep_rebound
      (filter (fun r => cell_eq_str (No_perfect_rebound r) point) (deep_rows df)).

Definition touch_values (df : dataframe) : touches :=
  mk_touches
    (map Rebound_1 (select (fun r => notnull (Rebound_1 r)) df)
     ++ map Rebound_2 (select (fun r => notnull (Rebound_2 r)) df))
    (map No_perfect_rebound (deep_rows df))
    (map Pt_deep_rebound (deep_rows df))
    (deep_distances_at df "PP")
    (deep_distances_at df "S")
    (deep_distances_at df "R")
    (map No_perfect_rebound (failed_rows df)).

(** A touch value that names one of the three levels. *)
Definition is_level (c : cell string) : Prop :=
  c = Some "PP"%string \/ c = Some "S"%string \/ c = Some "R"%string.

(** The number of observations at or below a threshold, as the contract of
    the CPF words it. *)
Definition observations_le (obs : list Q) (t : Z) : nat :=
  length (filter (fun q => Qle_bool q (inject_Z t)) obs).

Definition times_le (obs : list time) (t : time) : nat :=
  length (filter (fun i => time_leb i t) obs).

(** A table of (threshold, percentage) pairs whose percentage never
    decreases when the threshold grows. *)
Definition monotone_table {X : Type} (le : X -> X -> Prop) (tab : list (X * Q)) : Prop :=
  forall t1 v1 t2 v2,
    In (t1, v1) tab -> In (t2, v2) tab -> le t1 t2 -> v1 <= v2.

(** The invariant of the data model: a new trend is recorded exactly on the
    days that have a reversal hour. *)
Definition reversal_invariant (df : dataframe) : Prop :=
  forall r, In r df -> notnull (New_trend r) = notnull (Hour_trend_change r).

(** A row with nothing recorded, and shorthands to build sample tables. *)
Definition blank : row :=
  mk_row None None None None None None None None None.

Definition session (trend : Z) (es_pp : Z) (new_trend : cell Z) (h : cell time)
           (max_range : Q) : row :=
  mk_row None None None None (Some trend) (Some es_pp) new_trend h (Some max_range).

Definition touch (r1 : cell string) (deep : number) (npr : cell string) : row :=
  mk_row r1 None deep npr None None None None None.

(** Two days: a perfect rebound at the pivot, then a day without any
    interaction. *)
Definition two_day_table : dataframe :=
  [ touch (Some "PP"%string) None None; blank ].

(** Ten sessions: three uptrend days of which one reverses to a downtrend,
    four downtrend days of which two reverse, three range days of which one
    reverses. *)
Definition session_table : dataframe :=
  [ session 1 1 (Some (-1)%Z) (Some (mk_time 10 0 0)) 20;
    session 1 0 None None 15;
    session 1 1 None None 12;
    session (-1) 0 (Some 1%Z) (Some (mk_time 11 0 0)) 30;
    session (-1) 1 (Some 1%Z) (Some (mk_time 12 0 0)) 25;
    session (-1) 1 None None 18;
    session (-1) 0 None None 22;
    session 0 0 (Some 1%Z) (Some (mk_time 13 0 0)) 4;
    session 0 1 None None 6;
    session 0 2 None None 9 ].

(** Nine days: a perfect rebound at each level, a deep rebound at the pivot
    and at the support, a failed rebound at each level, and a day without
    any interaction.  No deep rebound at the resistance. *)
Definition pivot_table : dataframe :=
  [ touch (Some "PP"%string) None None;
    touch (Some "S"%string) None None;
    touch (Some "R"%string) None None;
    touch None (Some 5) (Some "PP"%string);
    touch None (Some 7) (Some "S"%string);
    touch None None (Some "R"%string);
    touch None None (Some "PP"%string);
    touch None None (Some "S"%string);
    blank ].

(* ===================================================================== *)
(** ** [__analyze_no_rebound] *)
(* ===================================================================== *)

(** The two further columns this method reads. *)
Record crossing : Type := mk_crossing {
  Time_cross : cell time;    (* "Time cross" *)
  Body_candle : number       (* "Body candle" *)
}.

(** The sheet with these two columns beside the others. *)
Definition journal : Type := list (row * crossing).

Definition time_cross_of (rc : row * crossing) : cell time := Time_cross (snd rc).
Definition body_candle_of (rc : row * crossing) : number := Body_candle (snd rc).

(** The rows with a crossed level, no deep rebound and no rebound, and the
    ones of a level. *)
Definition no_rebounds_df (j : journal) : journal :=
  filter (fun rc => isnull (Pt_deep_rebound (fst rc))
                    && notnull (No_perfect_rebound (fst rc))) j.

Definition no_rebounds_at (point : string) (j : journal) : journal :=
  filter (fun rc => cell_eq_str (No_perfect_rebound (fst rc)) point) (no_rebounds_df j).

(** [v > 0] on a float, and [astype(int)] on a float that is not [nan]. *)
Definition positive (v : number) : bool := Py.gt v (Some 0).

Definition astype_int (v : number) : number :=
  option_map (fun q => inject_Z (Py.int q)) v.

(** [d[d["Body candle"] > 0]["Body candle"].values.astype(int)]. *)
Definition body_candles (d : journal) : list number :=
  map astype_int (map body_candle_of (filter (fun rc => positive (body_candle_of rc)) d)).

(** One call [__calc_cpf(bodies of the level, int(max(all bodies)), 5)]. *)
Definition body_cpf (j level_df : journal) : result (cpf_result Z) :=
  let data := body_candles level_df in
  m <- Py.max (map body_candle_of (no_rebounds_df j)) ;;
  bin_max <- int_of_number m ;;
  calc_cpf data bin_max 5.

Module NoReboundCpf.
Record t : Type := mk {
  time_pivot : list (time * Q);
  time_support : list (time * Q);
  time_resistance : list (time * Q);
  body_pivot : list (Z * Q);
  body_support : list (Z * Q);
  body_resistance : list (Z * Q)
}.
End NoReboundCpf.

Definition analyze_no_rebound (j : journal) : result NoReboundCpf.t :=
  let no_rebounds_pivot_df := no_rebounds_at "PP" j in
  let no_rebounds_support_df := no_rebounds_at "S" j in
  let no_rebounds_resistance_df := no_rebounds_at "R" j in
  cpf_hour_no_rebound_pivot <- calc_cpf_time (map time_cross_of no_rebounds_pivot_df) ;;
  cpf_hour_no_rebound_support <- calc_cpf_time (map time_cross_of no_rebounds_support_df) ;;
  cpf_hour_no_rebound_resistance <-
    calc_cpf_time (map time_cross_of no_rebounds_resistance_df) ;;
  cpf_body_no_rebound_pivot <- body_cpf j no_rebounds_pivot_df ;;
  cpf_body_no_rebound_support <- body_cpf j no_rebounds_support_df ;;
  cpf_body_no_rebound_resistance <- body_cpf j no_rebounds_resistance_df ;;
  ret (NoReboundCpf.mk
         (combine (x cpf_hour_no_rebound_pivot) (cpf cpf_hour_no_rebound_pivot))
         (combine (x cpf_hour_no_rebound_pivot) (cpf cpf_hour_no_rebound_support))
         (combine (x cpf_hour_no_rebound_pivot) (cpf cpf_hour_no_rebound_resistance))
         (combine (x cpf_body_no_rebound_resistance) (cpf cpf_body_no_rebound_pivot))
         (combine (x cpf_body_no_rebound_resistance) (cpf cpf_body_no_rebound_support))
         (combine (x cpf_body_no_rebound_resistance) (cpf cpf_body_no_rebound_resistance))).

(* ===================================================================== *)
(** ** Further vocabulary *)
(* ===================================================================== *)





(** Twelve days: six perfect rebounds (one at the pivot, four at the
    support, one at the resistance), a deep rebound and a failed rebound at
    each level. *)
Definition uneven_pivot_table : dataframe :=
  [ touch (Some "PP"%string) None None;
    touch (Some "S"%string) None None;
    touch (Some "S"%string) None None;
    touch (Some "S"%string) None None;
    touch (Some "S"%string) None None;
    touch (Some "R"%string) None None;
    touch None (Some 5) (Some "PP"%string);
    touch None (Some 7) (Some "S"%string);
    touch None (Some 3) (Some "R"%string);
    touch None None (Some "PP"%string);
    touch None None (Some "S"%string);
    touch None None (Some "R"%string) ].


(** A number whose product by ten is in the range of the doubles. *)
Definition roundable (n : Q) : Prop := Qabs n <= inject_Z (2 ^ 1020).

(** The double 0.8999999999999999, the one just below the double 0.9. *)
Definition just_below_nine_tenths : Q := 2026619832316723 # 2251799813685248.

(** A value that is a percentage. *)
Definition percentage (q : Q) : Prop := 0 <= q /\ q <= 100.

(** A row whose "ES & PP" code is one of 0, 1, 2, -1. *)
Definition valid_code (r : row) : bool := es_higher_pp r || es_lower_pp r.

(** A float that is not [nan], and a column without [nan]. *)
Definition numeric (v : number) : Prop := notnull v = true.

(** A class on which a block of the range analyzer can be computed: its
    first session has a maximum range, and both open-versus-pivot cohorts
    have a session. *)
Definition range_ready (class_df : dataframe) : Prop :=
  (exists a, hd_error (map Max_Range class_df) = Some (Some a)) /\
  select es_higher_pp class_df <> [] /\ select es_lower_pp class_df <> [].

(** A level on which the no-rebound CPFs can be computed: it has a failed
    rebound, each of them has a crossing time, and one of them a candle
    with a positive body. *)
Definition crossing_ready (point : string) (j : journal) : Prop :=
  no_rebounds_at point j <> [] /\
  ~ In None (map time_cross_of (no_rebounds_at point j)) /\
  body_candles (no_rebounds_at point j) <> [].

(** A day of the journal with a failed rebound at a level, the time of the
    crossing and the body of the candle. *)
Definition crossed (point : string) (t : time) (body : Q) : row * crossing :=
  (touch None None (Some point), mk_crossing (Some t) (Some body)).

(** Ten days on which every group of the pivot-point report is defined:
    a perfect rebound at each level (one of them a second rebound), a deep
    rebound at each level, a failed rebound at two levels. *)
Definition full_pivot_table : dataframe :=
  [ touch (Some "PP"%string) None None;
    mk_row (Some "S"%string) (Some "R"%string) None None None None None None None;
    touch None (Some (9 # 2)) (Some "PP"%string);
    touch None (Some 7) (Some "S"%string);
    touch None (Some 12) (Some "R"%string);
    touch None (Some 3) (Some "R"%string);
    touch None None (Some "R"%string);
    touch (Some "PP"%string) None (Some "S"%string);
    blank;
    blank ].

Definition crossing_table : journal :=
  [ crossed "PP" (mk_time 9 45 0) 3;
    crossed "S" (mk_time 10 20 0) (13 # 2);
    crossed "R" (mk_time 12 5 0) 8;
    crossed "R" (mk_time 14 40 0) 0;
    (blank, mk_crossing None None) ].

(* ===================================================================== *)
(** ** Arithmetic of counts and percentages *)
(* ===================================================================== *)

Lemma of_nat_nonneg (n : nat) : 0 <= of_nat n.
Proof.
  unfold of_nat, Qle; simpl. lia.
Qed.

Lemma of_nat_zero_iff (n : nat) : of_nat n == 0 <-> n = 0%nat.
Proof.
  unfold of_nat, Qeq; simpl. lia.
Qed.

Lemma of_nat_pos (n : nat) : n <> 0%nat -> 0 < of_nat n.
Proof.
  unfold of_nat, Qlt; simpl. lia.
Qed.

Lemma of_nat_add (a b : nat) : of_nat (a + b) == of_nat a + of_nat b.
Proof.
  unfold of_nat. rewrite Nat2Z.inj_add, inject_Z_plus. reflexivity.
Qed.

Lemma of_nat_le (a b : nat) : (a <= b)%nat -> of_nat a <= of_nat b.
Proof.
  intros H. unfold of_nat. rewrite <- Zle_Qle. lia.
Qed.

Lemma truediv_ok (a b : Q) : ~ b == 0 -> truediv a b = inr (a / b).
Proof.
  intros H. unfold truediv.
  destruct (Qeq_bool b 0) eqn:E; [ | reflexivity ].
  apply Qeq_bool_iff in E. contradiction.
Qed.

Lemma pct100_ok (k n : nat) :
  n <> 0%nat -> pct100 k n = inr (100 * of_nat k / of_nat n).
Proof.
  intros H. unfold pct100. apply truediv_ok.
  rewrite of_nat_zero_iff. exact H.
Qed.

Lemma pct100_zero (k : nat) : pct100 k 0 = inl ZeroDivisionError.
Proof. reflexivity. Qed.

Lemma pct100_inv (k n : nat) (p : Q) :
  pct100 k n = inr p -> n <> 0%nat /\ p = 100 * of_nat k / of_nat n.
Proof.
  intros H. destruct n as [ | n ].
  - rewrite pct100_zero in H. discriminate.
  - rewrite pct100_ok in H by discriminate. inversion H. split; [ discriminate | reflexivity ].
Qed.

(** Two shares of a split whole add up to a hundred, and so do three. *)
Lemma share2 (a b n : nat) :
  (a + b = n)%nat -> n <> 0%nat ->
  100 * of_nat a / of_nat n + 100 * of_nat b / of_nat n == 100.
Proof.
  intros E H. subst n.
  assert (N : ~ of_nat (a + b) == 0) by (rewrite of_nat_zero_iff; exact H).
  rewrite of_nat_add in *. field. exact N.
Qed.

Lemma share_mono (a b n : nat) :
  (a <= b)%nat -> n <> 0%nat ->
  100 * of_nat a / of_nat n <= 100 * of_nat b / of_nat n.
Proof.
  intros L H. unfold Qdiv.
  apply Qmult_le_compat_r.
  - apply Qmult_le_l; [ reflexivity | apply of_nat_le; exact L ].
  - apply Qinv_le_0_compat, of_nat_nonneg.
Qed.

Lemma share_full (n : nat) : n <> 0%nat -> 100 * of_nat n / of_nat n == 100.
Proof.
  intros H. field. rewrite of_nat_zero_iff. exact H.
Qed.

(** The loop of a CPF succeeds as soon as each step does. *)
Lemma mapM_inr {A B : Type} (f : A -> result B) (g : A -> B) (l : list A) :
  (forall a, In a l -> f a = inr (g a)) -> mapM f l = inr (map g l).
Proof.
  induction l as [ | a l IH ]; intros H; simpl.
  - reflexivity.
  - rewrite (H a (or_introl eq_refl)). rewrite IH.
    + reflexivity.
    + intros b Hb. apply H. right. exact Hb.
Qed.

(* ===================================================================== *)
(** ** The CPF calculators *)
(* ===================================================================== *)

Section PositiveStep.

Variables (w M : Z).
Hypothesis w_pos : (0 < w)%Z.

(** With a positive step, [range(w, M, w)] is [w, 2w, ...] below [M]. *)
Lemma range_step_eq :
  Py.range w M w
  = inr (map (fun k => (w + Z.of_nat k * w)%Z) (seq 0 (range_len w M w))).
Proof.
  unfold Py.range. destruct (Z.eqb_spec w 0); [ lia | reflexivity ].
Qed.

Lemma range_len_maximal :
  (M <= (Z.of_nat (range_len w M w) + 1) * w)%Z.
Proof.
  unfold range_len. destruct (Z.ltb_spec 0 w); [ | lia ].
  destruct (Z.ltb_spec w M); [ | change (Z.of_nat 0) with 0%Z; lia ].
  assert (D : (0 <= (M - w - 1) / w)%Z) by (apply Z.div_pos; lia).
  rewrite Z2Nat.id by lia.
  assert (E : (M - w - 1 < w * Z.succ ((M - w - 1) / w))%Z)
    by (apply Z.mul_succ_div_gt; lia).
  nia.
Qed.

End PositiveStep.

Lemma range_below (start stop step : Z) (r : list Z) :
  (0 < step)%Z -> Py.range start stop step = inr r ->
  forall t, In t r -> (t < stop)%Z.
Proof.
  intros P H t Ht. unfold Py.range in H.
  destruct (Z.eqb_spec step 0); [ lia | ].
  inversion H; subst r; clear H.
  apply in_map_iff in Ht. destruct Ht as (k & <- & Hk).
  apply in_seq in Hk. unfold range_len in Hk.
  destruct (Z.ltb_spec 0 step); [ | lia ].
  destruct (Z.ltb_spec start stop); [ | simpl in Hk; lia ].
  assert (D : (0 <= (stop - start - 1) / step)%Z) by (apply Z.div_pos; lia).
  assert (E : (step * ((stop - start - 1) / step) <= stop - start - 1)%Z)
    by (apply Z.mul_div_le; lia).
  nia.
Qed.

Lemma range_total (start stop step : Z) :
  step <> 0%Z -> exists r, Py.range start stop step = inr r.
Proof.
  intros H. unfold Py.range. destruct (Z.eqb_spec step 0); [ contradiction | ].
  eexists. reflexivity.
Qed.

Lemma count_le_numeric (obs : list Q) (t : Z) :
  count_le (map Some obs) t = observations_le obs t.
Proof.
  unfold count_le, observations_le.
  induction obs as [ | q obs IH ]; simpl; [ reflexivity | ].
  destruct (Qle_bool q (inject_Z t)); simpl; congruence.
Qed.

Lemma filter_length_mono {A : Type} (p q : A -> bool) (l : list A) :
  (forall a, p a = true -> q a = true) ->
  (length (filter p l) <= length (filter q l))%nat.
Proof.
  intros H. induction l as [ | a l IH ]; simpl; [ lia | ].
  destruct (p a) eqn:Ep.
  - rewrite (H a Ep). simpl. lia.
  - destruct (q a); simpl; lia.
Qed.

Lemma filter_length_all {A : Type} (p : A -> bool) (l : list A) :
  Forall (fun a => p a = true) l -> length (filter p l) = length l.
Proof.
  induction 1 as [ | a l Ha _ IH ]; simpl; [ reflexivity | ].
  rewrite Ha. simpl. congruence.
Qed.

Lemma observations_le_mono (obs : list Q) (s t : Z) :
  (s <= t)%Z -> (observations_le obs s <= observations_le obs t)%nat.
Proof.
  intros L. apply filter_length_mono. intros q Hq.
  apply Qle_bool_iff in Hq. apply Qle_bool_iff.
  eapply Qle_trans; [ exact Hq | ]. rewrite <- Zle_Qle. exact L.
Qed.

Lemma time_leb_trans (a b c : time) :
  time_leb a b = true -> time_leb b c = true -> time_leb a c = true.
Proof.
  unfold time_leb.
  rewrite !orb_true_iff, !andb_true_iff, !orb_true_iff, !andb_true_iff,
    !Nat.ltb_lt, !Nat.eqb_eq, !Nat.leb_le.
  lia.
Qed.

Lemma times_le_mono (obs : list time) (s t : time) :
  time_leb s t = true -> (times_le obs s <= times_le obs t)%nat.
Proof.
  intros L. apply filter_length_mono. intros i Hi.
  eapply time_leb_trans; eassumption.
Qed.

Lemma sum_le_time_numeric (obs : list time) (t : time) :
  sum_le_time (map Some obs) t = inr (times_le obs t).
Proof.
  unfold times_le. induction obs as [ | i obs IH ]; simpl; [ reflexivity | ].
  rewrite IH. destruct (time_leb i t); reflexivity.
Qed.

(** The value a CPF pairs with a threshold. *)
Lemma combine_map_In {A B : Type} (g : A -> B) (l : list A) (a : A) (b : B) :
  In (a, b) (combine l (map g l)) -> b = g a.
Proof.
  induction l as [ | c l IH ]; simpl; [ tauto | ].
  intros [ E | H ]; [ inversion E; reflexivity | auto ].
Qed.

Lemma Forall2_map_same {A B : Type} (R : A -> B -> Prop) (g : A -> B) (l : list A) :
  (forall a, R a (g a)) -> Forall2 R l (map g l).
Proof.
  intros H. induction l; simpl; constructor; auto.
Qed.

Lemma last_map_snoc {A B : Type} (g : A -> B) (l : list A) (a : A) (d : B) :
  last (map g (l ++ [a])) d = g a.
Proof.
  rewrite map_app. simpl. apply last_last.
Qed.

(** [__calc_cpf] returns on every non-empty cohort with a non-zero width. *)
Lemma calc_cpf_returns (data : list number) (bin_max bin_span : Z) (r : list Z) :
  data <> [] -> Py.range bin_span bin_max bin_span = inr r ->
  calc_cpf data bin_max bin_span
  = inr (mk_cpf (map (fun t => 100 * of_nat (count_le data t) / of_nat (length data))
                     (r ++ [bin_max]))
                (r ++ [bin_max])).
Proof.
  intros N H. unfold calc_cpf. rewrite H. simpl.
  rewrite (mapM_inr _ (fun t => 100 * of_nat (count_le data t) / of_nat (length data))).
  - reflexivity.
  - intros t _. apply truediv_ok. rewrite of_nat_zero_iff.
    destruct data; [ contradiction | discriminate ].
Qed.

(** On an empty cohort the first division of the loop is by zero. *)
Lemma calc_cpf_empty (bin_max bin_span : Z) :
  bin_span <> 0%Z -> calc_cpf [] bin_max bin_span = inl ZeroDivisionError.
Proof.
  intros H. unfold calc_cpf.
  destruct (range_total bin_span bin_max bin_span H) as (r & ->). simpl.
  destruct r; reflexivity.
Qed.

Lemma calc_cpf_time_returns (obs : list time) :
  obs <> [] ->
  calc_cpf_time (map Some obs)
  = inr (mk_cpf (map (fun t => 100 * of_nat (times_le obs t) / of_nat (length obs))
                     x_cpf_time)
                x_cpf_time).
Proof.
  intros N. unfold calc_cpf_time.
  rewrite (mapM_inr _ (fun t => 100 * of_nat (times_le obs t) / of_nat (length obs))).
  - reflexivity.
  - intros t _. rewrite sum_le_time_numeric. simpl. rewrite length_map.
    apply truediv_ok. rewrite of_nat_zero_iff.
    destruct obs; [ contradiction | discriminate ].
Qed.

Lemma calc_cpf_time_empty : calc_cpf_time [] = inl ZeroDivisionError.
Proof. reflexivity. Qed.

(** C1.  For a non-empty sequence of numeric observations, a maximum bin edge
    and a positive bin width, [__calc_cpf] returns the thresholds
    [bin_width, 2 * bin_width, ...] that lie below [max_edge], none missing,
    followed by [max_edge] itself (aligned to the step or not), and pairs
    each threshold [t] with [100 * (number of observations <= t) / (number
    of observations)]. *)
Theorem calc_cpf_thresholds_and_values (obs : list Q) (max_edge bin_width : Z) :
  obs <> [] -> (0 < bin_width)%Z ->
  exists pre vals,
    calc_cpf (map Some obs) max_edge bin_width = inr (mk_cpf vals (pre ++ [max_edge])) /\
    (forall i, (i < length pre)%nat ->
       nth_error pre i = Some ((Z.of_nat i + 1) * bin_width)%Z) /\
    (forall t, In t pre -> (t < max_edge)%Z) /\
    (max_edge <= (Z.of_nat (length pre) + 1) * bin_width)%Z /\
    Forall2 (fun t v => v == 100 * of_nat (observations_le obs t) / of_nat (length obs))
            (pre ++ [max_edge]) vals.
Proof.
  intros N P.
  set (pre := map (fun k => (bin_width + Z.of_nat k * bin_width)%Z)
                  (seq 0 (range_len bin_width max_edge bin_width))).
  assert (L : length pre = range_len bin_width max_edge bin_width)
    by (unfold pre; rewrite length_map, length_seq; reflexivity).
  exists pre. eexists. split; [ | split; [ | split; [ | split ] ] ].
  - apply calc_cpf_returns.
    + destruct obs; [ contradiction | discriminate ].
    + apply range_step_eq. exact P.
  - intros i Hi. unfold pre. rewrite nth_error_map, nth_error_seq.
    rewrite L in Hi. destruct (Nat.ltb_spec i (range_len bin_width max_edge bin_width));
      [ | lia ].
    simpl. f_equal. lia.
  - intros t Ht. apply (range_below bin_width max_edge bin_width pre P); [ | exact Ht ].
    apply range_step_eq. exact P.
  - rewrite L. apply range_len_maximal. exact P.
  - apply Forall2_map_same. intros t.
    rewrite count_le_numeric, length_map. reflexivity.
Qed.

Lemma calc_cpf_thresholds_and_values_witness :
  exists pre vals,
    calc_cpf (map Some [3; 7; 21 # 2]) 12 5 = inr (mk_cpf vals (pre ++ [12%Z])) /\
    (forall i, (i < length pre)%nat ->
       nth_error pre i = Some ((Z.of_nat i + 1) * 5)%Z) /\
    (forall t, In t pre -> (t < 12)%Z) /\
    (12 <= (Z.of_nat (length pre) + 1) * 5)%Z /\
    Forall2 (fun t v => v == 100 * of_nat (observations_le [3; 7; 21 # 2] t)
                             / of_nat (length [3; 7; 21 # 2]))
            (pre ++ [12%Z]) vals.
Proof.
  apply (calc_cpf_thresholds_and_values [3; 7; 21 # 2] 12 5).
  - discriminate.
  - reflexivity.
Defined.

(* ===================================================================== *)
(** ** Binary64 rounding *)
(* ===================================================================== *)

(** Some doubles, written as [float.as_integer_ratio] prints them: 0.1,
    0.9, 100/6, 400/6, 100/3, 33.3, 33.39, and the sum
    [100/6 + 400/6 + 100/6], which is 100.00000000000001. *)
Example RN_values :
  Double.RN (1 # 10) == 3602879701896397 # 36028797018963968 /\
  Double.RN (9 # 10) == 8106479329266893 # 9007199254740992 /\
  Double.RN (100 # 6) == 4691249611844267 # 281474976710656 /\
  Double.RN (400 # 6) == 4691249611844267 # 70368744177664 /\
  Double.RN (100 # 3) == 4691249611844267 # 140737488355328 /\
  Double.RN (333 # 10) == 2343279181116211 # 70368744177664 /\
  Double.RN (3339 # 100) == 2349612368092201 # 70368744177664 /\
  Double.add (Double.add (Double.RN (100 # 6)) (Double.RN (400 # 6))) (Double.RN (100 # 6))
  == 7036874417766401 # 70368744177664.
Proof. repeat split; vm_compute; reflexivity. Qed.

Lemma rne_Z (z : Z) : Double.rne (inject_Z z) = z.
Proof.
  unfold Double.rne. rewrite Qfloor_Z.
  assert (E : Qcompare (inject_Z z - inject_Z z) (1 # 2) = Lt).
  { apply -> Qlt_alt. ring_simplify. reflexivity. }
  rewrite E. reflexivity.
Qed.

Lemma rne_bounds (q : Q) : (Qfloor q <= Double.rne q <= Qfloor q + 1)%Z.
Proof.
  unfold Double.rne. destruct (Qcompare (q - inject_Z (Qfloor q)) (1 # 2)); try destruct (Z.even _); lia.
Qed.

Lemma rne_mono (p q : Q) : p <= q -> (Double.rne p <= Double.rne q)%Z.
Proof.
  intros L. pose proof (Qfloor_resp_le _ _ L) as F.
  pose proof (rne_bounds p) as Bp. pose proof (rne_bounds q) as Bq.
  destruct (Z.eq_dec (Qfloor p) (Qfloor q)) as [ E | N ]; [ | lia ].
  clear Bp Bq. unfold Double.rne. rewrite E.
  assert (L' : p - inject_Z (Qfloor q) <= q - inject_Z (Qfloor q))
    by (apply Qplus_le_l; exact L).
  destruct (Qcompare_spec (p - inject_Z (Qfloor q)) (1 # 2)) as [ Cp | Cp | Cp ];
    destruct (Qcompare_spec (q - inject_Z (Qfloor q)) (1 # 2)) as [ Cq | Cq | Cq ];
    try (destruct (Z.even (Qfloor q)); lia); try lia; exfalso.
  - rewrite Cp in L'. exact (Qlt_irrefl _ (Qle_lt_trans _ _ _ L' Cq)).
  - rewrite Cq in L'. exact (Qlt_irrefl _ (Qlt_le_trans _ _ _ Cp L')).
  - exact (Qlt_irrefl _ (Qlt_trans _ _ _ Cp (Qle_lt_trans _ _ _ L' Cq))).
Qed.

Lemma rne_opp (q : Q) : Double.rne (- q) = (- Double.rne q)%Z.
Proof.
  pose proof (Qfloor_le q) as Lo. pose proof (Qlt_floor q) as Hi.
  rewrite inject_Z_plus in Hi.
  destruct (Qeq_dec q (inject_Z (Qfloor q))) as [ I | N ].
  - assert (E : - q == inject_Z (- Qfloor q)).
    { rewrite inject_Z_opp. rewrite <- I. reflexivity. }
    unfold Double.rne at 1. rewrite (Qfloor_comp _ _ E), Qfloor_Z.
    destruct (Qcompare_spec (- q - inject_Z (- Qfloor q)) (1 # 2)) as [ C | C | C ];
      try (exfalso; lra).
    unfold Double.rne.
    destruct (Qcompare_spec (q - inject_Z (Qfloor q)) (1 # 2)) as [ C' | C' | C' ];
      try (exfalso; lra).
    reflexivity.
  - assert (F : Qfloor (- q) = (- Qfloor q - 1)%Z).
    { pose proof (Qfloor_le (- q)) as A. pose proof (Qlt_floor (- q)) as B.
      rewrite inject_Z_plus in B.
      assert (A1 : inject_Z (Qfloor (- q)) < inject_Z (- Qfloor q)).
      { rewrite inject_Z_opp. lra. }
      assert (B1 : inject_Z (- Qfloor q - 1 - 1) < inject_Z (Qfloor (- q))).
      { unfold Zminus. rewrite !inject_Z_plus, !inject_Z_opp. lra. }
      rewrite <- Zlt_Qlt in A1, B1. lia. }
    unfold Double.rne. rewrite F.
    assert (R : inject_Z (- Qfloor q - 1) == - inject_Z (Qfloor q) - 1).
    { unfold Zminus. rewrite !inject_Z_plus, !inject_Z_opp. reflexivity. }
    assert (P : Z.even (- Qfloor q - 1) = negb (Z.even (Qfloor q))).
    { replace (- Qfloor q - 1)%Z with (- (Qfloor q + 1))%Z by lia.
      rewrite Z.even_opp, Z.add_1_r, Z.even_succ, Z.negb_even. reflexivity. }
    rewrite P.
    destruct (Qcompare_spec (q - inject_Z (Qfloor q)) (1 # 2)) as [ C | C | C ];
      destruct (Qcompare_spec (- q - inject_Z (- Qfloor q - 1)) (1 # 2)) as [ C' | C' | C' ];
      rewrite R in C'; try (exfalso; lra);
      try (destruct (Z.even (Qfloor q)); simpl; lia); lia.
Qed.

Lemma pow2_pos (e : Z) : 0 < 2 ^ e.
Proof. apply Qpower_0_lt. reflexivity. Qed.

Lemma pow2_add (a b : Z) : 2 ^ (a + b) == 2 ^ a * 2 ^ b.
Proof. apply Qpower_plus. discriminate. Qed.

Lemma pow2_sub (a b : Z) : 2 ^ (a - b) == 2 ^ a / 2 ^ b.
Proof. apply Qpower_minus. discriminate. Qed.

Lemma pow2_le (a b : Z) : (a <= b)%Z -> 2 ^ a <= 2 ^ b.
Proof. intros H. apply Qpower_le_compat_l; [ exact H | discriminate ]. Qed.

Lemma pow2_lt (a b : Z) : (a < b)%Z -> 2 ^ a < 2 ^ b.
Proof. intros H. apply Qpower_lt_compat_l; [ exact H | reflexivity ]. Qed.

Lemma pow2_lt_inv (a b : Z) : 2 ^ a < 2 ^ b -> (a < b)%Z.
Proof. intros H. apply (Qpower_lt_compat_l_inv 2); [ exact H | reflexivity ]. Qed.

Lemma pow2_Z (a : Z) : (0 <= a)%Z -> 2 ^ a == inject_Z (2 ^ a).
Proof. intros H. symmetry. apply (Zpower_Qpower 2). exact H. Qed.

Lemma Qdiv_lt_cross (a b c d : Q) :
  0 < b -> 0 < d -> a * d < c * b -> a / b < c / d.
Proof.
  intros B D H. apply Qlt_shift_div_r; [ exact B | ].
  assert (E : c / d * b == c * b / d) by (field; lra).
  rewrite E. apply Qlt_shift_div_l; assumption.
Qed.

Lemma Qmult_lt_le (a b c d : Q) :
  0 < a -> 0 < d -> a < c -> b <= d -> a * b < c * d.
Proof.
  intros A D L L'. apply Qle_lt_trans with (a * d).
  - rewrite !(Qmult_comm a). apply Qmult_le_compat_r; [ exact L' | apply Qlt_le_weak; exact A ].
  - apply Qmult_lt_compat_r; assumption.
Qed.

Lemma Qmult_le_lt (a b c d : Q) :
  0 < b -> 0 < c -> a <= c -> b < d -> a * b < c * d.
Proof.
  intros B C L L'. apply Qle_lt_trans with (c * b).
  - apply Qmult_le_compat_r; [ exact L | apply Qlt_le_weak; exact B ].
  - rewrite !(Qmult_comm c). apply Qmult_lt_compat_r; assumption.
Qed.

Lemma ilog2_spec (q : Q) :
  ~ q == 0 -> 2 ^ Double.ilog2 q <= Qabs q /\ Qabs q < 2 ^ (Double.ilog2 q + 1).
Proof.
  intros N. unfold Double.ilog2.
  set (a := Z.abs (Qnum q)). set (d := Zpos (Qden q)).
  assert (Pa : (0 < a)%Z).
  { unfold a. destruct q as [ n dd ]. simpl. unfold Qeq in N. simpl in N. lia. }
  assert (Pd : (0 < d)%Z) by reflexivity.
  destruct (Z.log2_spec a Pa) as (La & Ua). destruct (Z.log2_spec d Pd) as (Ld & Ud).
  pose proof (Z.log2_nonneg a) as Na. pose proof (Z.log2_nonneg d) as Nd.
  assert (E : Qabs q == inject_Z a / inject_Z d).
  { destruct q as [ n dd ]. unfold a, d. simpl. apply Qmake_Qdiv. }
  rewrite Zle_Qle in La, Ld. rewrite Zlt_Qlt in Ua, Ud, Pa, Pd.
  rewrite <- Z.add_1_r in Ua, Ud.
  rewrite <- !pow2_Z in La, Ld, Ua, Ud by lia.
  assert (Up : Qabs q < 2 ^ (Z.log2 a - Z.log2 d + 1)).
  { rewrite E. replace (Z.log2 a - Z.log2 d + 1)%Z with (Z.log2 a + 1 - Z.log2 d)%Z by lia.
    rewrite pow2_sub. pose proof (pow2_pos (Z.log2 d)) as P.
    apply Qdiv_lt_cross; [ exact Pd | exact P | ].
    apply Qmult_lt_le; assumption. }
  assert (Lo : 2 ^ (Z.log2 a - Z.log2 d - 1) < Qabs q).
  { rewrite E. replace (Z.log2 a - Z.log2 d - 1)%Z with (Z.log2 a - (Z.log2 d + 1))%Z by lia.
    rewrite pow2_sub. pose proof (pow2_pos (Z.log2 d + 1)) as P.
    pose proof (pow2_pos (Z.log2 a)) as P'.
    apply Qdiv_lt_cross; [ exact P | exact Pd | ].
    apply Qmult_le_lt; assumption. }
  destruct (Qle_bool (2 ^ (Z.log2 a - Z.log2 d)) (Qabs q)) eqn:B.
  - apply Qle_bool_iff in B. split; assumption.
  - split; [ apply Qlt_le_weak; exact Lo | ].
    replace (Z.log2 a - Z.log2 d - 1 + 1)%Z with (Z.log2 a - Z.log2 d)%Z by lia.
    apply Qnot_le_lt. intros C. apply Qle_bool_iff in C. congruence.
Qed.

Lemma ilog2_le (p q : Q) :
  ~ p == 0 -> ~ q == 0 -> Qabs p <= Qabs q -> (Double.ilog2 p <= Double.ilog2 q)%Z.
Proof.
  intros Np Nq L.
  destruct (ilog2_spec p Np) as (A & _). destruct (ilog2_spec q Nq) as (_ & B).
  assert (H : 2 ^ Double.ilog2 p < 2 ^ (Double.ilog2 q + 1)) by lra.
  apply pow2_lt_inv in H. lia.
Qed.

Lemma rne_comp (p q : Q) : p == q -> Double.rne p = Double.rne q.
Proof.
  intros E. apply Z.le_antisymm; apply rne_mono; rewrite E; apply Qle_refl.
Qed.

Lemma ilog2_comp (p q : Q) : ~ p == 0 -> p == q -> Double.ilog2 p = Double.ilog2 q.
Proof.
  intros N E. assert (Nq : ~ q == 0) by (rewrite <- E; exact N).
  apply Z.le_antisymm; apply ilog2_le; try assumption; rewrite E; apply Qle_refl.
Qed.

Lemma ilog2_opp (q : Q) : Double.ilog2 (- q) = Double.ilog2 q.
Proof.
  destruct q as [ n d ]. unfold Double.ilog2. simpl. rewrite Z.abs_opp. reflexivity.
Qed.

Lemma cexp_opp (q : Q) : Double.cexp (- q) = Double.cexp q.
Proof. unfold Double.cexp. rewrite ilog2_opp. reflexivity. Qed.

Lemma RN_zero (q : Q) : q == 0 -> Double.RN q == 0.
Proof.
  intros E. unfold Double.RN.
  assert (Z : q / 2 ^ Double.cexp q == inject_Z 0).
  { generalize (2 ^ Double.cexp q). intros x. rewrite E. reflexivity. }
  rewrite (rne_comp _ _ Z), rne_Z. reflexivity.
Qed.

Lemma RN_comp (p q : Q) : p == q -> Double.RN p == Double.RN q.
Proof.
  intros E. destruct (Qeq_dec p 0) as [ Z | N ].
  - rewrite (RN_zero p Z), (RN_zero q); [ reflexivity | rewrite <- E; exact Z ].
  - unfold Double.RN, Double.cexp. rewrite (ilog2_comp p q N E).
    assert (D : p / 2 ^ Z.max (Double.ilog2 q - 52) (-1074) == q / 2 ^ Z.max (Double.ilog2 q - 52) (-1074))
      by (rewrite E; reflexivity).
    rewrite (rne_comp _ _ D). reflexivity.
Qed.

Lemma RN_opp (q : Q) : Double.RN (- q) == - Double.RN q.
Proof.
  unfold Double.RN. rewrite cexp_opp.
  assert (D : - q / 2 ^ Double.cexp q == - (q / 2 ^ Double.cexp q)) by (unfold Qdiv; ring).
  rewrite (rne_comp _ _ D), rne_opp, inject_Z_opp. ring.
Qed.

Lemma RN_nonneg (q : Q) : 0 <= q -> 0 <= Double.RN q.
Proof.
  intros H. unfold Double.RN. pose proof (pow2_pos (Double.cexp q)) as P.
  apply Qmult_le_0_compat; [ | apply Qlt_le_weak; exact P ].
  change 0 with (inject_Z 0). rewrite <- Zle_Qle. rewrite <- (rne_Z 0).
  apply rne_mono. apply Qle_shift_div_l; [ exact P | ].
  change (inject_Z 0) with 0. rewrite Qmult_0_l. exact H.
Qed.

Lemma RN_nonpos (q : Q) : q <= 0 -> Double.RN q <= 0.
Proof.
  intros H. assert (P : 0 <= Double.RN (- q)) by (apply RN_nonneg; lra).
  rewrite RN_opp in P. lra.
Qed.

Lemma scaled_Z (z e c : Z) :
  (c <= e)%Z -> inject_Z z * 2 ^ e / 2 ^ c == inject_Z (z * 2 ^ (e - c)).
Proof.
  intros H. rewrite inject_Z_mult, <- pow2_Z by lia. rewrite pow2_sub.
  unfold Qdiv. ring.
Qed.

Lemma RN_mono_pos (p q : Q) : 0 < p -> p <= q -> Double.RN p <= Double.RN q.
Proof.
  intros Pp L.
  assert (Np : ~ p == 0) by (intros E; rewrite E in Pp; discriminate).
  assert (Pq : 0 < q) by lra.
  assert (Nq : ~ q == 0) by (intros E; rewrite E in Pq; discriminate).
  destruct (ilog2_spec p Np) as (Lp & Up). destruct (ilog2_spec q Nq) as (Lq & Uq).
  rewrite Qabs_pos in Lp, Up, Lq, Uq by lra.
  assert (Le : (Double.ilog2 p <= Double.ilog2 q)%Z) by (apply ilog2_le; try assumption; rewrite !Qabs_pos; lra).
  unfold Double.RN. set (c1 := Double.cexp p). set (c2 := Double.cexp q).
  pose proof (pow2_pos c1) as P1. pose proof (pow2_pos c2) as P2.
  destruct (Z.eq_dec c1 c2) as [ E | N ].
  - rewrite E. apply Qmult_le_compat_r; [ | lra ].
    rewrite <- Zle_Qle. apply rne_mono.
    apply Qmult_le_compat_r; [ exact L | ]. apply Qlt_le_weak, Qinv_lt_0_compat. exact P2.
  - assert (C : (c1 < c2)%Z /\ c2 = (Double.ilog2 q - 52)%Z /\ (Double.ilog2 p + 1 <= Double.ilog2 q)%Z
                /\ (c1 <= Double.ilog2 q)%Z) by (unfold c1, c2, Double.cexp in *; lia).
    destruct C as (C1 & C2 & C3 & C4).
    apply Qle_trans with (2 ^ Double.ilog2 q).
    + assert (B : p / 2 ^ c1 <= inject_Z (2 ^ (Double.ilog2 q - c1))).
      { rewrite <- (Z.mul_1_l (2 ^ _)), <- scaled_Z by lia.
        apply Qmult_le_compat_r; [ | apply Qlt_le_weak, Qinv_lt_0_compat; exact P1 ].
        change (inject_Z 1) with 1. rewrite Qmult_1_l.
        eapply Qle_trans; [ apply Qlt_le_weak; exact Up | apply pow2_le; exact C3 ]. }
      apply rne_mono in B. rewrite rne_Z in B. rewrite Zle_Qle in B.
      rewrite <- (Z.mul_1_l (2 ^ _)), <- scaled_Z in B by lia.
      apply Qle_trans with (inject_Z 1 * 2 ^ Double.ilog2 q / 2 ^ c1 * 2 ^ c1).
      * apply Qmult_le_compat_r; [ exact B | lra ].
      * simpl inject_Z. apply Qle_lteq. right. field. lra.
    + assert (B : inject_Z (2 ^ 52) <= q / 2 ^ c2).
      { rewrite <- (Z.mul_1_l (2 ^ _)). replace 52%Z with (Double.ilog2 q - c2)%Z at 1 by lia.
        rewrite <- scaled_Z by lia.
        apply Qmult_le_compat_r; [ | apply Qlt_le_weak, Qinv_lt_0_compat; exact P2 ].
        change (inject_Z 1) with 1. rewrite Qmult_1_l. exact Lq. }
      apply rne_mono in B. rewrite rne_Z in B. rewrite Zle_Qle in B.
      apply Qle_trans with (inject_Z (2 ^ 52) * 2 ^ c2).
      * rewrite <- (pow2_Z 52) by lia. rewrite <- pow2_add.
        replace (52 + c2)%Z with (Double.ilog2 q) by lia. apply Qle_refl.
      * apply Qmult_le_compat_r; [ exact B | lra ].
Qed.

Lemma RN_mono (p q : Q) : p <= q -> Double.RN p <= Double.RN q.
Proof.
  intros L. destruct (Qlt_le_dec 0 p) as [ Pp | Np ].
  - apply RN_mono_pos; assumption.
  - destruct (Qlt_le_dec q 0) as [ Nq | Pq ].
    + assert (H : Double.RN (- q) <= Double.RN (- p)) by (apply RN_mono_pos; lra).
      rewrite !RN_opp in H. lra.
    + pose proof (RN_nonpos p Np). pose proof (RN_nonneg q Pq). lra.
Qed.

Lemma RN_Z (z : Z) : (Z.abs z < 2 ^ 53)%Z -> Double.RN (inject_Z z) == inject_Z z.
Proof.
  intros B. destruct (Z.eq_dec z 0) as [ -> | N ]; [ apply RN_zero; reflexivity | ].
  assert (Nq : ~ inject_Z z == 0).
  { intros E. apply N. unfold Qeq in E. simpl in E. lia. }
  destruct (ilog2_spec _ Nq) as (Lo & _).
  assert (A : Qabs (inject_Z z) == inject_Z (Z.abs z)) by reflexivity.
  rewrite A in Lo.
  assert (H : 2 ^ Double.ilog2 (inject_Z z) < 2 ^ 53).
  { eapply Qle_lt_trans; [ exact Lo | ]. rewrite (pow2_Z 53) by lia.
    rewrite <- Zlt_Qlt. exact B. }
  apply pow2_lt_inv in H.
  unfold Double.RN. set (c := Double.cexp (inject_Z z)).
  assert (C : (c <= 0)%Z) by (unfold c, Double.cexp; lia).
  assert (S : inject_Z z / 2 ^ c == inject_Z (z * 2 ^ (0 - c))).
  { rewrite <- scaled_Z by lia. change (2 ^ 0) with 1. unfold Qdiv. ring. }
  rewrite (rne_comp _ _ S), rne_Z, inject_Z_mult, <- pow2_Z by lia.
  rewrite pow2_sub. change (2 ^ 0) with 1. field. pose proof (pow2_pos c). lra.
Qed.

(* ===================================================================== *)
(** ** The rounding helper *)
(* ===================================================================== *)

Lemma int_nonneg_floor (q : Q) : 0 <= q -> Py.int q = Qfloor q.
Proof.
  destruct q as [n d]. unfold Qle, Py.int, Qfloor. simpl. intros H.
  apply Z.quot_div_nonneg; lia.
Qed.

Lemma int_compat (p q : Q) : p == q -> Py.int p = Py.int q.
Proof.
  destruct p as [a b], q as [c d]. unfold Qeq, Py.int. simpl. intros E.
  rewrite <- (Z.quot_mul_cancel_r a (Zpos b) (Zpos d)) by lia.
  rewrite <- (Z.quot_mul_cancel_r c (Zpos d) (Zpos b)) by lia.
  rewrite E. f_equal. lia.
Qed.

Lemma int_mono (p q : Q) : p <= q -> (Py.int p <= Py.int q)%Z.
Proof.
  destruct p as [a b], q as [c d]. unfold Qle, Py.int. simpl. intros L.
  rewrite <- (Z.quot_mul_cancel_r a (Zpos b) (Zpos d)) by lia.
  rewrite <- (Z.quot_mul_cancel_r c (Zpos d) (Zpos b)) by lia.
  replace (Zpos d * Zpos b)%Z with (Zpos b * Zpos d)%Z by lia.
  apply Z.quot_le_mono; lia.
Qed.

Lemma int_opp (q : Q) : Py.int (- q) = (- Py.int q)%Z.
Proof.
  destruct q as [a b]. unfold Py.int. simpl. apply Z.quot_opp_l. lia.
Qed.

Lemma int_inject_Z (k : Z) : Py.int (inject_Z k) = k.
Proof.
  unfold Py.int. simpl. apply Z.quot_1_r.
Qed.

Lemma round_unfold (n : Q) :
  round n = Double.RN (inject_Z (Py.int (Double.RN (n * 10))) / 10).
Proof. reflexivity. Qed.

(** The truncated product lies between the two integers around [n * 10]. *)
Lemma round_digit (n : Q) :
  0 <= n -> n <= inject_Z (2 ^ 49) ->
  (Qfloor (n * 10) <= Py.int (Double.RN (n * 10)) <= Qceiling (n * 10))%Z /\
  (Double.RN (n * 10) < inject_Z (Qfloor (n * 10) + 1) ->
   Py.int (Double.RN (n * 10)) = Qfloor (n * 10)).
Proof.
  intros P B.
  assert (P10 : 0 <= n * 10) by lra.
  assert (B10 : n * 10 <= inject_Z (10 * 2 ^ 49)).
  { rewrite inject_Z_mult. change (inject_Z 10) with 10. lra. }
  pose proof (Qfloor_le (n * 10)) as Fl. pose proof (Qle_ceiling (n * 10)) as Ce.
  assert (F0 : (0 <= Qfloor (n * 10))%Z).
  { rewrite <- (Qfloor_Z 0). apply Qfloor_resp_le. exact P10. }
  assert (C1 : (Qceiling (n * 10) <= 10 * 2 ^ 49)%Z).
  { rewrite <- (Qceiling_Z (10 * 2 ^ 49)). apply Qceiling_resp_le. exact B10. }
  pose proof (Qle_floor_ceiling (n * 10)) as FC. rewrite <- Zle_Qle in FC.
  assert (Two : (10 * 2 ^ 49 < 2 ^ 53)%Z) by reflexivity.
  assert (Rf : inject_Z (Qfloor (n * 10)) <= Double.RN (n * 10)).
  { eapply Qle_trans; [ | apply RN_mono; exact Fl ].
    apply Qle_lteq. right. symmetry. apply RN_Z. lia. }
  assert (Rc : Double.RN (n * 10) <= inject_Z (Qceiling (n * 10))).
  { eapply Qle_trans; [ apply RN_mono; exact Ce | ].
    apply Qle_lteq. right. apply RN_Z. lia. }
  assert (R0 : 0 <= Double.RN (n * 10)) by (apply RN_nonneg; exact P10).
  rewrite (int_nonneg_floor _ R0).
  split; [ split | ].
  - rewrite <- (Qfloor_Z (Qfloor (n * 10))) at 1. apply Qfloor_resp_le. exact Rf.
  - rewrite <- (Qfloor_Z (Qceiling (n * 10))). apply Qfloor_resp_le. exact Rc.
  - intros L. apply Z.le_antisymm.
    + assert (H : inject_Z (Qfloor (Double.RN (n * 10))) < inject_Z (Qfloor (n * 10) + 1)).
      { eapply Qle_lt_trans; [ apply Qfloor_le | exact L ]. }
      rewrite <- Zlt_Qlt in H. lia.
    + rewrite <- (Qfloor_Z (Qfloor (n * 10))) at 1. apply Qfloor_resp_le. exact Rf.
Qed.

(** C9.  For a non-negative double [n] (below [2^49]), [__round] returns
    the double nearest to [k / 10], where [k = int(n * 10)] truncates the
    double product: [k] is the integer below [n * 10], or the integer above
    it when the product rounds up to that integer.  Whenever the product
    stays below the next integer the helper truncates at one decimal and
    does not exceed [n]: 33.39 gives 33.3, not the nearest tenth 33.4. *)
Theorem round_tenths (n : Q) :
  0 <= n -> n <= inject_Z (2 ^ 49) -> Double.RN n == n ->
  round n = Double.RN (inject_Z (Py.int (Double.mul n 10)) / 10) /\
  (Qfloor (n * 10) <= Py.int (Double.mul n 10) <= Qceiling (n * 10))%Z /\
  (Double.mul n 10 < inject_Z (Qfloor (n * 10) + 1) ->
   Py.int (Double.mul n 10) = Qfloor (n * 10) /\
   round n == Double.RN (inject_Z (Qfloor (n * 10)) / 10) /\
   round n <= n) /\
  round (Double.RN (3339 # 100)) == Double.RN (333 # 10) /\
  ~ round (Double.RN (3339 # 100)) == Double.RN (334 # 10).
Proof.
  intros P B D. unfold Double.mul.
  destruct (round_digit n P B) as (K & T).
  split; [ reflexivity | ]. split; [ exact K | ].
  split; [ | split; [ vm_compute; reflexivity | vm_compute; discriminate ] ].
  intros L. specialize (T L). split; [ exact T | ].
  rewrite round_unfold, T. split; [ reflexivity | ].
  rewrite <- D at 2. apply RN_mono.
  apply Qle_shift_div_r; [ reflexivity | ]. apply Qfloor_le.
Qed.

Lemma round_tenths_witness :
  round (Double.RN (3339 # 100))
  = Double.RN (inject_Z (Py.int (Double.mul (Double.RN (3339 # 100)) 10)) / 10) /\
  (Qfloor (Double.RN (3339 # 100) * 10) <= Py.int (Double.mul (Double.RN (3339 # 100)) 10)
   <= Qceiling (Double.RN (3339 # 100) * 10))%Z /\
  (Double.mul (Double.RN (3339 # 100)) 10 < inject_Z (Qfloor (Double.RN (3339 # 100) * 10) + 1) ->
   Py.int (Double.mul (Double.RN (3339 # 100)) 10) = Qfloor (Double.RN (3339 # 100) * 10) /\
   round (Double.RN (3339 # 100)) == Double.RN (inject_Z (Qfloor (Double.RN (3339 # 100) * 10)) / 10) /\
   round (Double.RN (3339 # 100)) <= Double.RN (3339 # 100)) /\
  round (Double.RN (3339 # 100)) == Double.RN (333 # 10) /\
  ~ round (Double.RN (3339 # 100)) == Double.RN (334 # 10).
Proof.
  apply (round_tenths (Double.RN (3339 # 100))).
  - vm_compute. discriminate.
  - vm_compute. discriminate.
  - vm_compute. reflexivity.
Defined.

(** The double just below nine tenths is a double, its product by ten
    rounds to 9, and the helper returns the double 0.9, above its
    argument: it has rounded up to the nearest tenth, where truncating the
    exact product gives 0.8. *)
Lemma round_rounds_up :
  0 <= just_below_nine_tenths /\
  Double.RN just_below_nine_tenths == just_below_nine_tenths /\
  just_below_nine_tenths < 9 # 10 /\
  Py.int (just_below_nine_tenths * 10) = 8%Z /\
  Double.mul just_below_nine_tenths 10 == 9 /\
  round just_below_nine_tenths == Double.RN (9 # 10) /\
  just_below_nine_tenths < round just_below_nine_tenths /\
  ~ round just_below_nine_tenths == Double.RN (8 # 10).
Proof.
  repeat split; try (vm_compute; reflexivity); try (vm_compute; discriminate).
Qed.

(* ===================================================================== *)
(** ** Row labels and boolean masks *)
(* ===================================================================== *)

Section Labels.

Variable p : row -> bool.

Lemma index_from_seq (df : dataframe) (k : nat) :
  map fst (filter (fun ir => p (snd ir)) (combine (seq k (length df)) df))
  = filter (fun i => at_label p df (i - k)) (seq k (length df)).
Proof.
  revert k. induction df as [ | r df IH ]; intros k; simpl; [ reflexivity | ].
  unfold at_label at 1. rewrite Nat.sub_diag. simpl.
  assert (T : filter (fun i => at_label p (r :: df) (i - k)) (seq (S k) (length df))
              = filter (fun i => at_label p df (i - S k)) (seq (S k) (length df))).
  { apply filter_ext_in. intros i Hi. apply in_seq in Hi.
    replace (i - k)%nat with (S (i - S k)) by lia. reflexivity. }
  rewrite T, <- IH. destruct (p r); reflexivity.
Qed.

Lemma index_where_seq (df : dataframe) :
  index_where p df = filter (at_label p df) (seq 0 (length df)).
Proof.
  unfold index_where. rewrite index_from_seq.
  apply filter_ext. intros i. rewrite Nat.sub_0_r. reflexivity.
Qed.

Lemma In_index_where (df : dataframe) (i : nat) :
  In i (index_where p df) <-> exists r, nth_error df i = Some r /\ p r = true.
Proof.
  rewrite index_where_seq, filter_In, in_seq. unfold at_label. split.
  - intros (_ & H). destruct (nth_error df i) as [ r | ]; [ | discriminate ].
    exists r. auto.
  - intros (r & E & H). rewrite E. split; [ | exact H ].
    assert (i < length df)%nat by (apply nth_error_Some; congruence). lia.
Qed.

Lemma index_where_lt (df : dataframe) (i : nat) :
  In i (index_where p df) -> (i < length df)%nat.
Proof.
  rewrite index_where_seq, filter_In, in_seq. lia.
Qed.

Lemma NoDup_index_where (df : dataframe) : NoDup (index_where p df).
Proof.
  rewrite index_where_seq. apply NoDup_filter, seq_NoDup.
Qed.

Lemma length_index_from (df : dataframe) (k : nat) :
  length (map fst (filter (fun ir => p (snd ir)) (combine (seq k (length df)) df)))
  = length (select p df).
Proof.
  revert k. induction df as [ | r df IH ]; intros k; simpl; [ reflexivity | ].
  destruct (p r); simpl; rewrite IH; reflexivity.
Qed.

Lemma length_index_where (df : dataframe) :
  length (index_where p df) = length (select p df).
Proof. apply length_index_from. Qed.

(** Label by label, [iloc] finds the rows the mask selected. *)
Lemma index_from_rows (pre df : dataframe) :
  Forall2 (fun i r => nth_error (pre ++ df) i = Some r)
          (map fst (filter (fun ir => p (snd ir))
                           (combine (seq (length pre) (length df)) df)))
          (select p df).
Proof.
  revert pre. induction df as [ | r df IH ]; intros pre; simpl; [ constructor | ].
  assert (T : Forall2 (fun i r0 => nth_error (pre ++ r :: df) i = Some r0)
                (map fst (filter (fun ir => p (snd ir))
                                 (combine (seq (S (length pre)) (length df)) df)))
                (select p df)).
  { specialize (IH (pre ++ [r])).
    rewrite <- app_assoc, length_app in IH. simpl in IH.
    rewrite Nat.add_1_r in IH. exact IH. }
  destruct (p r); simpl; [ | exact T ].
  constructor; [ | exact T ].
  rewrite nth_error_app2 by lia. rewrite Nat.sub_diag. reflexivity.
Qed.

Lemma index_where_rows (df : dataframe) :
  Forall2 (fun i r => nth_error df i = Some r) (index_where p df) (select p df).
Proof. apply (index_from_rows [] df). Qed.

End Labels.

Lemma mem_In (i : nat) (l : list nat) : mem i l = true <-> In i l.
Proof.
  unfold mem. rewrite existsb_exists. split.
  - intros (j & Hj & E). apply Nat.eqb_eq in E. subst j. exact Hj.
  - intros H. exists i. split; [ exact H | apply Nat.eqb_refl ].
Qed.

Lemma mem_index_where (p : row -> bool) (df : dataframe) (i : nat) :
  mem i (index_where p df) = at_label p df i.
Proof.
  destruct (at_label p df i) eqn:E.
  - apply mem_In, In_index_where. unfold at_label in E.
    destruct (nth_error df i) as [ r | ]; [ | discriminate ]. exists r. auto.
  - destruct (mem i (index_where p df)) eqn:M; [ | reflexivity ].
    apply mem_In, In_index_where in M. destruct M as (r & Hr & Hp).
    unfold at_label in E. rewrite Hr in E. congruence.
Qed.

Lemma filter_filter {A : Type} (f g : A -> bool) (l : list A) :
  filter f (filter g l) = filter (fun a => g a && f a) l.
Proof.
  induction l as [ | a l IH ]; simpl; [ reflexivity | ].
  destruct (g a); simpl; [ destruct (f a) | ]; rewrite IH; reflexivity.
Qed.

(** [[i for i in rows(p) if i not in rows(q)]] is the mask [p and not q]. *)
Lemma not_in_index_where (p q : row -> bool) (df : dataframe) :
  not_in (index_where p df) (index_where q df)
  = index_where (fun r => p r && negb (q r)) df.
Proof.
  unfold not_in.
  rewrite (filter_ext _ (fun i => negb (at_label q df i)))
    by (intros i; rewrite mem_index_where; reflexivity).
  rewrite !index_where_seq, filter_filter.
  apply filter_ext. intros i.
  unfold at_label. destruct (nth_error df i); reflexivity.
Qed.

(** A mask splits a selection in two. *)
Lemma select_split (p q : row -> bool) (df : dataframe) :
  (length (select (fun r => p r && q r) df)
   + length (select (fun r => p r && negb (q r)) df))%nat
  = length (select p df).
Proof.
  unfold select. induction df as [ | r df IH ]; simpl; [ reflexivity | ].
  destruct (p r), (q r); simpl; lia.
Qed.

(** The comprehensions over [iloc] read the selected rows. *)
Lemma column_at_rows {A : Type} (df : dataframe) (col : row -> A)
      (rows : list nat) (rs : list row) :
  Forall2 (fun i r => nth_error df i = Some r) rows rs ->
  column_at df col rows = inr (map col rs).
Proof.
  unfold column_at.
  induction 1 as [ | i r rows rs E _ IH ]; simpl in *; [ reflexivity | ].
  unfold iloc at 1. rewrite E. simpl. rewrite IH. reflexivity.
Qed.

Lemma column_at_if_rows {A : Type} (df : dataframe) (col : row -> A)
      (cond : row -> bool) (rows : list nat) (rs : list row) :
  Forall2 (fun i r => nth_error df i = Some r) rows rs ->
  column_at_if df col cond rows = inr (map col (filter cond rs)).
Proof.
  induction 1 as [ | i r rows rs E _ IH ]; simpl in *; [ reflexivity | ].
  unfold iloc. rewrite E. simpl. destruct (cond r); simpl.
  - rewrite IH. reflexivity.
  - exact IH.
Qed.

Lemma column_at_index {A : Type} (df : dataframe) (col : row -> A) (p : row -> bool) :
  column_at df col (index_where p df) = inr (map col (select p df)).
Proof. apply column_at_rows, index_where_rows. Qed.

Lemma column_at_if_index {A : Type} (df : dataframe) (col : row -> A)
      (cond p : row -> bool) :
  column_at_if df col cond (index_where p df)
  = inr (map col (filter cond (select p df))).
Proof. apply column_at_if_rows, index_where_rows. Qed.

(* ===================================================================== *)
(** ** The pivot-point analyzer *)
(* ===================================================================== *)

(** One step of a [do] block that is known to have returned. *)
Ltac returned H :=
  cbn [bind ret Monad_either] in H;
  repeat match type of H with
         | match ?c with inl _ => _ | inr _ => _ end = inr _ =>
             let E := fresh "E" in
             destruct c eqn:E; [ discriminate H | cbn [bind ret Monad_either] in H ]
         end.

Lemma rows_no_rebound_mask (df : dataframe) :
  rows_no_rebound df
  = index_where (fun r => notnull (No_perfect_rebound r)
                          && negb (notnull (Pt_deep_rebound r))) df.
Proof.
  unfold rows_no_rebound, rows_no_perfect_rebound, rows_deep_rebound.
  apply not_in_index_where.
Qed.

(** C6.  A row is classified as a failed (no) rebound exactly when its
    'No perfect rebound' cell is non-null and it is not in the deep-rebound
    row set, i.e. its 'Pt deep rebound' cell is null; hence the failed-rebound
    count is the number of rows with a non-null 'No perfect rebound' cell
    minus the number of those that also carry a deep-rebound distance. *)
Theorem no_rebound_classification (df : dataframe) :
  (forall i,
      In i (rows_no_rebound df) <->
      exists r, nth_error df i = Some r /\
                notnull (No_perfect_rebound r) = true /\
                ~ In i (rows_deep_rebound df)) /\
  (forall i,
      In i (rows_deep_rebound df) <->
      exists r, nth_error df i = Some r /\ notnull (Pt_deep_rebound r) = true) /\
  count_no_rebound df
  = (length (select (fun r => notnull (No_perfect_rebound r)) df)
     - length (select (fun r => notnull (No_perfect_rebound r)
                                && notnull (Pt_deep_rebound r)) df))%nat /\
  (length (select (fun r => notnull (No_perfect_rebound r)
                            && notnull (Pt_deep_rebound r)) df)
   <= length (select (fun r => notnull (No_perfect_rebound r)) df))%nat.
Proof.
  assert (D : forall i,
             In i (rows_deep_rebound df) <->
             exists r, nth_error df i = Some r /\ notnull (Pt_deep_rebound r) = true).
  { intros i. unfold rows_deep_rebound. apply In_index_where. }
  assert (S := select_split (fun r => notnull (No_perfect_rebound r))
                            (fun r => notnull (Pt_deep_rebound r)) df).
  cbv beta in S.
  split; [ | split; [ exact D | split ] ].
  - intros i. rewrite rows_no_rebound_mask, In_index_where. split.
    + intros (r & E & H). apply andb_true_iff in H. destruct H as (H1 & H2).
      exists r. split; [ exact E | split; [ exact H1 | ] ].
      rewrite D. intros (r' & E' & H'). rewrite E in E'. inversion E'; subst r'.
      rewrite H' in H2. discriminate.
    + intros (r & E & H1 & H2). exists r. split; [ exact E | ].
      rewrite H1. simpl. destruct (notnull (Pt_deep_rebound r)) eqn:N; [ | reflexivity ].
      exfalso. apply H2. apply D. exists r. auto.
  - unfold count_no_rebound. rewrite rows_no_rebound_mask, length_index_where. lia.
  - lia.
Qed.

(** The labels of the days with an interaction are positions of the table. *)
Lemma days_with_demark_lt (df : dataframe) (i : nat) :
  In i (days_with_demark df) -> (i < total_days df)%nat.
Proof.
  unfold days_with_demark, days_with_rebound, list_set, total_days.
  rewrite nodup_In, in_app_iff, nodup_In, in_app_iff.
  unfold days_with_perfect_rebound, days_with_deep_rebound, days_with_no_rebound,
    rows_first_rebound, rows_deep_rebound.
  rewrite rows_no_rebound_mask.
  intros [ [ H | H ] | H ]; eapply index_where_lt; exact H.
Qed.

Lemma not_in_length (l k : list nat) :
  NoDup l -> NoDup k -> incl k l ->
  (length k + length (not_in l k) = length l)%nat.
Proof.
  intros Nl Nk I.
  assert (E : length (filter (fun i => mem i k) l) = length k).
  { apply Nat.le_antisymm.
    - apply NoDup_incl_length; [ apply NoDup_filter; exact Nl | ].
      intros i Hi. apply filter_In in Hi. apply mem_In. apply Hi.
    - apply NoDup_incl_length; [ exact Nk | ].
      intros i Hi. apply filter_In. split; [ apply I; exact Hi | apply mem_In; exact Hi ]. }
  unfold not_in. rewrite <- E. apply filter_length.
Qed.

(** C10.  On a table with at least one row, 'days with demark' and 'days
    without demark' are duplicate-free, disjoint, and together are exactly
    the row labels; the two entries 'pct days with demark' and 'pct days no
    demark' are defined and add up to 100, also as fields of the ["General"]
    group whenever that group is computed. *)
Theorem demark_days_partition (df : dataframe) :
  df <> [] ->
  NoDup (days_with_demark df) /\
  NoDup (days_with_no_demark df) /\
  (forall i, ~ (In i (days_with_demark df) /\ In i (days_with_no_demark df))) /\
  (forall i, (i < total_days df)%nat <->
             In i (days_with_demark df) \/ In i (days_with_no_demark df)) /\
  (length (days_with_demark df) + length (days_with_no_demark df) = total_days df)%nat /\
  (exists p q,
      pct_days_with_demark df = inr p /\ pct_days_no_demark df = inr q /\
      p + q == 100) /\
  (forall g, general_stats df = inr g ->
             General.pct_days_with_demark g + General.pct_days_no_demark g == 100).
Proof.
  intros N.
  assert (T : total_days df <> 0%nat)
    by (unfold total_days; destruct df; [ contradiction | discriminate ]).
  assert (ND : NoDup (days_with_demark df)) by apply NoDup_nodup.
  assert (NN : NoDup (days_with_no_demark df))
    by (apply NoDup_filter, seq_NoDup).
  assert (L : (length (days_with_demark df) + length (days_with_no_demark df)
               = total_days df)%nat).
  { unfold days_with_no_demark. rewrite not_in_length.
    - apply length_seq.
    - apply seq_NoDup.
    - exact ND.
    - intros i Hi. apply in_seq. apply days_with_demark_lt in Hi. lia. }
  assert (S : 100 * of_nat (length (days_with_demark df)) / of_nat (total_days df)
              + 100 * of_nat (length (days_with_no_demark df)) / of_nat (total_days df)
              == 100) by (apply share2; assumption).
  split; [ exact ND | split; [ exact NN | split; [ | split; [ | split; [ exact L | split ] ] ] ] ].
  - intros i (H1 & H2). unfold days_with_no_demark, not_in in H2.
    apply filter_In in H2. destruct H2 as (_ & H2).
    apply mem_In in H1. rewrite H1 in H2. discriminate.
  - intros i. split.
    + intros Hi. destruct (mem i (days_with_demark df)) eqn:M.
      * left. apply mem_In. exact M.
      * right. unfold days_with_no_demark, not_in. apply filter_In.
        split; [ apply in_seq; lia | rewrite M; reflexivity ].
    + intros [ H | H ].
      * apply days_with_demark_lt. exact H.
      * unfold days_with_no_demark, not_in in H. apply filter_In in H.
        destruct H as (H & _). apply in_seq in H. lia.
  - unfold pct_days_with_demark, pct_days_no_demark.
    rewrite !pct100_ok by exact T. eexists. eexists.
    split; [ reflexivity | split; [ reflexivity | exact S ] ].
  - intros g H. unfold general_stats in H. returned H.
    inversion H; subst g; clear H. cbn [General.pct_days_with_demark General.pct_days_no_demark].
    unfold pct_days_with_demark, pct_days_no_demark in *.
    rewrite pct100_ok in E0, E1 by exact T.
    inversion E0; inversion E1; subst. exact S.
Qed.

Lemma demark_days_partition_witness :
  NoDup (days_with_demark two_day_table) /\
  NoDup (days_with_no_demark two_day_table) /\
  (forall i, ~ (In i (days_with_demark two_day_table)
                /\ In i (days_with_no_demark two_day_table))) /\
  (forall i, (i < total_days two_day_table)%nat <->
             In i (days_with_demark two_day_table)
             \/ In i (days_with_no_demark two_day_table)) /\
  (length (days_with_demark two_day_table) + length (days_with_no_demark two_day_table)
   = total_days two_day_table)%nat /\
  (exists p q,
      pct_days_with_demark two_day_table = inr p /\
      pct_days_no_demark two_day_table = inr q /\
      p + q == 100) /\
  (forall g, general_stats two_day_table = inr g ->
             General.pct_days_with_demark g + General.pct_days_no_demark g == 100).
Proof.
  apply (demark_days_partition two_day_table). discriminate.
Defined.

(** The ["General"] group is computed on [two_day_table] and on
    [pivot_table]; a table without any interaction stops earlier, at the
    first percentage of ["Days with demark"]. *)
Example general_stats_runs :
  (exists g, general_stats two_day_table = inr g) /\
  (exists g, general_stats pivot_table = inr g) /\
  days_with_demark_stats [blank] = inl ZeroDivisionError.
Proof.
  split; [ eexists; vm_compute; reflexivity | ].
  split; [ eexists; vm_compute; reflexivity | reflexivity ].
Qed.

(** The touch lists never fail: every label comes from the table itself. *)
Lemma touch_lists_eq (df : dataframe) : touch_lists df = inr (touch_values df).
Proof.
  unfold touch_lists, rows_first_rebound, rows_second_rebound, rows_deep_rebound.
  rewrite rows_no_rebound_mask.
  rewrite !column_at_index, !column_at_if_index. reflexivity.
Qed.

Lemma touch_lengths (df : dataframe) (tl : touches) :
  touch_lists df = inr tl ->
  length (point_perfect_rebound tl) = count_perfect_rebound df /\
  length (point_deep_rebound tl) = count_deep_rebound df /\
  length (point_no_rebound tl) = count_no_rebound df.
Proof.
  rewrite touch_lists_eq. intros H. inversion H; subst tl; clear H.
  unfold touch_values, count_perfect_rebound, count_deep_rebound, count_no_rebound,
    rows_perfect_rebound, rows_first_rebound, rows_second_rebound, rows_deep_rebound.
  rewrite rows_no_rebound_mask. cbn [point_perfect_rebound point_deep_rebound point_no_rebound].
  rewrite !length_app, !length_map, !length_index_where.
  unfold deep_rows, failed_rows. auto.
Qed.

(** Touch values that all name a level are counted once, at their level. *)
Lemma count_levels (l : list (cell string)) :
  Forall is_level l ->
  (count_str l "PP" + count_str l "S" + count_str l "R" = length l)%nat.
Proof.
  unfold count_str.
  induction 1 as [ | c l Hc _ IH ]; [ reflexivity | ].
  destruct Hc as [ -> | [ -> | -> ] ]; simpl in *; lia.
Qed.

(** The block of one level returns as soon as its five divisors are not
    zero, with the entries the source computes. *)
Lemma level_stats_eq (df : dataframe) (tl : touches) (point : string) :
  count_perfect_rebound df <> 0%nat ->
  count_deep_rebound df <> 0%nat ->
  count_no_rebound df <> 0%nat ->
  count_total tl point <> 0%nat ->
  level_stats df tl point
  = inr (Level.mk
           (100 * of_nat (count_str (point_perfect_rebound tl) point)
            / of_nat (count_perfect_rebound df))
           (100 * of_nat (count_str (point_deep_rebound tl) point)
            / of_nat (count_deep_rebound df))
           (100 * of_nat (count_str (point_perfect_rebound tl) point
                          + count_str (point_deep_rebound tl) point)
            / of_nat (count_rebound df))
           (100 * of_nat (count_str (point_no_rebound tl) point)
            / of_nat (count_no_rebound df))
           (100 * of_nat (count_total tl point) / of_nat (count_points df))
           (100 * of_nat (count_str (point_perfect_rebound tl) point)
            / of_nat (count_total tl point))
           (100 * of_nat (count_str (point_deep_rebound tl) point)
            / of_nat (count_total tl point))
           (100 * of_nat (count_str (point_perfect_rebound tl) point
                          + count_str (point_deep_rebound tl) point)
            / of_nat (count_total tl point))
           (100 * of_nat (count_str (point_no_rebound tl) point)
            / of_nat (count_total tl point))
           (deep_distances_at df point)).
Proof.
  intros Hp Hd Hn Ht.
  unfold level_stats, count_total, count_point in *.
  cbn beta iota zeta in *.
  rewrite !pct100_ok by (try assumption; unfold count_points, count_rebound; lia).
  unfold rows_deep_rebound. rewrite column_at_if_index. reflexivity.
Qed.

(** C7.  When every value in the three touch lists is one of PP, S, R and
    none of the touch counts used as a divisor is zero (the three kinds and
    the three per-level totals), the three level blocks are computed; a
    touch is counted at one level only, so the per-level counts add up to
    the count of each kind and to the count of all points; and each share
    is 100 * (count at the level) / (count of the kind), resp. / (count of
    all points) for 'pct point'. *)
Theorem level_counts_add_up (df : dataframe) (tl : touches) :
  touch_lists df = inr tl ->
  Forall is_level (point_perfect_rebound tl) ->
  Forall is_level (point_deep_rebound tl) ->
  Forall is_level (point_no_rebound tl) ->
  count_perfect_rebound df <> 0%nat ->
  count_deep_rebound df <> 0%nat ->
  count_no_rebound df <> 0%nat ->
  count_total tl "PP" <> 0%nat ->
  count_total tl "S" <> 0%nat ->
  count_total tl "R" <> 0%nat ->
  exists pv su re,
    level_stats df tl "PP" = inr pv /\
    level_stats df tl "S" = inr su /\
    level_stats df tl "R" = inr re /\
    (forall point st,
        In (point, st) [ ("PP"%string, pv); ("S"%string, su); ("R"%string, re) ] ->
        Level.pct_point st
        == 100 * of_nat (count_total tl point) / of_nat (count_points df) /\
        Level.pct_level_perfect_rebound st
        == 100 * of_nat (count_str (point_perfect_rebound tl) point)
           / of_nat (count_perfect_rebound df) /\
        Level.pct_level_deep_rebound st
        == 100 * of_nat (count_str (point_deep_rebound tl) point)
           / of_nat (count_deep_rebound df) /\
        Level.pct_level_no_rebound st
        == 100 * of_nat (count_str (point_no_rebound tl) point)
           / of_nat (count_no_rebound df)) /\
    (count_total tl "PP" + count_total tl "S" + count_total tl "R"
     = count_points df)%nat /\
    (count_str (point_perfect_rebound tl) "PP" + count_str (point_perfect_rebound tl) "S"
     + count_str (point_perfect_rebound tl) "R" = count_perfect_rebound df)%nat /\
    (count_str (point_deep_rebound tl) "PP" + count_str (point_deep_rebound tl) "S"
     + count_str (point_deep_rebound tl) "R" = count_deep_rebound df)%nat /\
    (count_str (point_no_rebound tl) "PP" + count_str (point_no_rebound tl) "S"
     + count_str (point_no_rebound tl) "R" = count_no_rebound df)%nat.
Proof.
  intros Htl Fp Fd Fn Hp Hd Hn Tp Ts Tr.
  destruct (touch_lengths df tl Htl) as (Lp & Ld & Ln).
  apply count_levels in Fp, Fd, Fn.
  rewrite Lp in Fp. rewrite Ld in Fd. rewrite Ln in Fn.
  do 3 eexists.
  split; [ apply level_stats_eq; assumption | ].
  split; [ apply level_stats_eq; assumption | ].
  split; [ apply level_stats_eq; assumption | ].
  split.
  - intros point st H. simpl in H.
    destruct H as [ E | [ E | [ E | [] ] ] ]; inversion E; subst point st;
      cbn [Level.pct_point Level.pct_level_perfect_rebound Level.pct_level_deep_rebound
           Level.pct_level_no_rebound];
      repeat split; reflexivity.
  - split; [ | split; [ exact Fp | split; [ exact Fd | exact Fn ] ] ].
    unfold count_total, count_point, count_points, count_rebound.
    cbn beta iota zeta. lia.
Qed.

Lemma level_counts_add_up_witness :
  exists pv su re,
    level_stats uneven_pivot_table (touch_values uneven_pivot_table) "PP" = inr pv /\
    level_stats uneven_pivot_table (touch_values uneven_pivot_table) "S" = inr su /\
    level_stats uneven_pivot_table (touch_values uneven_pivot_table) "R" = inr re /\
    (forall point st,
        In (point, st) [ ("PP"%string, pv); ("S"%string, su); ("R"%string, re) ] ->
        Level.pct_point st
        == 100 * of_nat (count_total (touch_values uneven_pivot_table) point)
           / of_nat (count_points uneven_pivot_table) /\
        Level.pct_level_perfect_rebound st
        == 100 * of_nat (count_str (point_perfect_rebound (touch_values uneven_pivot_table))
                                   point)
           / of_nat (count_perfect_rebound uneven_pivot_table) /\
        Level.pct_level_deep_rebound st
        == 100 * of_nat (count_str (point_deep_rebound (touch_values uneven_pivot_table))
                                   point)
           / of_nat (count_deep_rebound uneven_pivot_table) /\
        Level.pct_level_no_rebound st
        == 100 * of_nat (count_str (point_no_rebound (touch_values uneven_pivot_table))
                                   point)
           / of_nat (count_no_rebound uneven_pivot_table)) /\
    (count_total (touch_values uneven_pivot_table) "PP"
     + count_total (touch_values uneven_pivot_table) "S"
     + count_total (touch_values uneven_pivot_table) "R"
     = count_points uneven_pivot_table)%nat /\
    (count_str (point_perfect_rebound (touch_values uneven_pivot_table)) "PP"
     + count_str (point_perfect_rebound (touch_values uneven_pivot_table)) "S"
     + count_str (point_perfect_rebound (touch_values uneven_pivot_table)) "R"
     = count_perfect_rebound uneven_pivot_table)%nat /\
    (count_str (point_deep_rebound (touch_values uneven_pivot_table)) "PP"
     + count_str (point_deep_rebound (touch_values uneven_pivot_table)) "S"
     + count_str (point_deep_rebound (touch_values uneven_pivot_table)) "R"
     = count_deep_rebound uneven_pivot_table)%nat /\
    (count_str (point_no_rebound (touch_values uneven_pivot_table)) "PP"
     + count_str (point_no_rebound (touch_values uneven_pivot_table)) "S"
     + count_str (point_no_rebound (touch_values uneven_pivot_table)) "R"
     = count_no_rebound uneven_pivot_table)%nat.
Proof.
  apply (level_counts_add_up uneven_pivot_table (touch_values uneven_pivot_table)).
  - apply touch_lists_eq.
  - repeat (apply Forall_cons; [ unfold is_level; auto | ]). apply Forall_nil.
  - repeat (apply Forall_cons; [ unfold is_level; auto | ]). apply Forall_nil.
  - repeat (apply Forall_cons; [ unfold is_level; auto | ]). apply Forall_nil.
  - discriminate.
  - discriminate.
  - discriminate.
  - discriminate.
  - discriminate.
  - discriminate.
Defined.

(** On [uneven_pivot_table] every touch names a level and no divisor is
    zero.  The three stored shares of the perfect rebounds are the doubles
    nearest to 100/6, 400/6 and 100/6; their sum exceeds 100, whether it is
    taken exactly or as the source would add them. *)
Lemma level_shares_exceed_100 :
  touch_lists uneven_pivot_table = inr (touch_values uneven_pivot_table) /\
  Forall is_level (point_perfect_rebound (touch_values uneven_pivot_table)) /\
  Forall is_level (point_deep_rebound (touch_values uneven_pivot_table)) /\
  Forall is_level (point_no_rebound (touch_values uneven_pivot_table)) /\
  count_perfect_rebound uneven_pivot_table = 6%nat /\
  count_deep_rebound uneven_pivot_table = 3%nat /\
  count_no_rebound uneven_pivot_table = 3%nat /\
  count_total (touch_values uneven_pivot_table) "PP" = 3%nat /\
  count_total (touch_values uneven_pivot_table) "S" = 6%nat /\
  count_total (touch_values uneven_pivot_table) "R" = 3%nat /\
  exists pv su re,
    level_stats_binary64 uneven_pivot_table (touch_values uneven_pivot_table) "PP"
    = inr pv /\
    level_stats_binary64 uneven_pivot_table (touch_values uneven_pivot_table) "S"
    = inr su /\
    level_stats_binary64 uneven_pivot_table (touch_values uneven_pivot_table) "R"
    = inr re /\
    Level.pct_level_perfect_rebound pv == Double.RN (100 # 6) /\
    Level.pct_level_perfect_rebound su == Double.RN (400 # 6) /\
    Level.pct_level_perfect_rebound re == Double.RN (100 # 6) /\
    100 < Level.pct_level_perfect_rebound pv + Level.pct_level_perfect_rebound su
          + Level.pct_level_perfect_rebound re /\
    100 < Double.add (Double.add (Level.pct_level_perfect_rebound pv)
                                 (Level.pct_level_perfect_rebound su))
                     (Level.pct_level_perfect_rebound re) /\
    ~ Level.pct_level_perfect_rebound pv + Level.pct_level_perfect_rebound su
      + Level.pct_level_perfect_rebound re == 100.
Proof.
  split; [ apply touch_lists_eq | ].
  split; [ repeat (apply Forall_cons; [ unfold is_level; auto | ]); apply Forall_nil | ].
  split; [ repeat (apply Forall_cons; [ unfold is_level; auto | ]); apply Forall_nil | ].
  split; [ repeat (apply Forall_cons; [ unfold is_level; auto | ]); apply Forall_nil | ].
  do 6 (split; [ reflexivity | ]).
  do 3 eexists.
  do 3 (split; [ vm_compute; reflexivity | ]).
  cbn [Level.pct_level_perfect_rebound].
  repeat split; try (vm_compute; reflexivity); vm_compute; discriminate.
Qed.


(* ===================================================================== *)
(** ** Empty cohorts *)
(* ===================================================================== *)

Lemma mapM_inl {A B : Type} (f : A -> result B) (l : list A) (e : exn) :
  mapM f l = inl e -> exists a, In a l /\ f a = inl e.
Proof.
  induction l as [ | a l IH ]; simpl; [ discriminate | ].
  destruct (f a) as [ e' | b ] eqn:E.
  - intros H. inversion H; subst e'. exists a. auto.
  - destruct (mapM f l) as [ e' | bs ]; [ | discriminate ].
    intros H. inversion H; subst e'.
    destruct (IH eq_refl) as (a' & Ha & Ea). exists a'. auto.
Qed.

Lemma truediv_inl (a b : Q) (e : exn) : truediv a b = inl e -> e = ZeroDivisionError.
Proof.
  unfold truediv. destruct (Qeq_bool b 0); simpl; intros H; inversion H. reflexivity.
Qed.

Lemma calc_cpf_inl (data : list number) (bin_max bin_span : Z) (e : exn) :
  calc_cpf data bin_max bin_span = inl e -> e = ZeroDivisionError \/ e = ValueError.
Proof.
  unfold calc_cpf, Py.range.
  destruct (bin_span =? 0)%Z; simpl.
  - intros H. inversion H. auto.
  - match goal with
    | |- context [ mapM ?f ?l ] => destruct (mapM f l) as [ e' | v ] eqn:E
    end; [ | discriminate ].
    intros H. inversion H; subst e'.
    apply mapM_inl in E. destruct E as (t & _ & E).
    apply truediv_inl in E. auto.
Qed.

Lemma max_inl (l : list number) (e : exn) : Py.max l = inl e -> e = ValueError.
Proof.
  destruct l; simpl; intros H; inversion H. reflexivity.
Qed.

Lemma int_of_number_inl (v : number) (e : exn) :
  int_of_number v = inl e -> e = ValueError.
Proof.
  destruct v; simpl; intros H; inversion H. reflexivity.
Qed.

Lemma pct100_inl (k n : nat) (e : exn) : pct100 k n = inl e -> e = ZeroDivisionError.
Proof. apply truediv_inl. Qed.

Lemma deep_rebound_level_inl (tl : touches) (pt_level : list number) (e : exn) :
  deep_rebound_level tl pt_level = inl e -> e = ZeroDivisionError \/ e = ValueError.
Proof.
  unfold deep_rebound_level, calc_cpf_default. cbn [bind ret Monad_either].
  destruct (Py.max (pt_deep_rebound tl)) as [ e1 | m ] eqn:E1.
  { intros H. inversion H; subst. apply max_inl in E1. auto. }
  destruct (int_of_number m) as [ e2 | bm ] eqn:E2.
  { intros H. inversion H; subst. apply int_of_number_inl in E2. auto. }
  destruct (calc_cpf pt_level bm 2) as [ e3 | c ] eqn:E3.
  { intros H. inversion H; subst. apply calc_cpf_inl in E3. exact E3. }
  destruct (pct100 (length pt_level) (length (pt_deep_rebound tl))) as [ e4 | p ] eqn:E4.
  { intros H. inversion H; subst. apply pct100_inl in E4. auto. }
  discriminate.
Qed.

(** C2, as the code has it.  No guard exists: on an empty cohort
    [__calc_cpf] (non-zero width) and [__calc_cpf_time] raise
    [ZeroDivisionError], and so does a percentage whose divisor is the size
    of the cohort; only [numpy.mean] yields [nan].  With an empty
    deep-rebound cohort for the Resistance level the deep-rebound section
    never reports anything: the Resistance block raises
    [ZeroDivisionError] once a bin edge exists, and the section ends in
    [ZeroDivisionError] or, when an earlier [max]/[int] fails, in
    [ValueError]. *)
Theorem empty_cohort_raises (tl : touches) (bin_max bin_span : Z) (k : nat) :
  bin_span <> 0%Z ->
  pt_deep_rebound_resistance tl = [] ->
  calc_cpf [] bin_max bin_span = inl ZeroDivisionError /\
  calc_cpf_time [] = inl ZeroDivisionError /\
  pct100 k (length (pt_deep_rebound_resistance tl)) = inl ZeroDivisionError /\
  Py.mean (pt_deep_rebound_resistance tl) = None /\
  (forall m bm,
      Py.max (pt_deep_rebound tl) = inr m -> int_of_number m = inr bm ->
      deep_rebound_level tl (pt_deep_rebound_resistance tl) = inl ZeroDivisionError) /\
  (exists e, deep_rebound_stats tl = inl e /\ (e = ZeroDivisionError \/ e = ValueError)).
Proof.
  intros W R.
  assert (L : forall m bm,
             Py.max (pt_deep_rebound tl) = inr m -> int_of_number m = inr bm ->
             deep_rebound_level tl (pt_deep_rebound_resistance tl)
             = inl ZeroDivisionError).
  { intros m bm E1 E2. unfold deep_rebound_level, calc_cpf_default.
    rewrite E1. cbn [bind ret Monad_either]. rewrite E2, R.
    rewrite calc_cpf_empty by discriminate. reflexivity. }
  split; [ apply calc_cpf_empty; exact W | ].
  split; [ reflexivity | ].
  split; [ rewrite R; reflexivity | ].
  split; [ rewrite R; reflexivity | ].
  split; [ exact L | ].
  unfold deep_rebound_stats, calc_cpf_default. cbn [bind ret Monad_either].
  destruct (Py.max (pt_deep_rebound tl)) as [ e1 | m ] eqn:E1.
  { exists e1. split; [ reflexivity | ]. apply max_inl in E1. auto. }
  destruct (int_of_number m) as [ e2 | bm ] eqn:E2.
  { exists e2. split; [ reflexivity | ]. apply int_of_number_inl in E2. auto. }
  destruct (calc_cpf (pt_deep_rebound tl) bm 2) as [ e3 | c ] eqn:E3.
  { exists e3. split; [ reflexivity | ]. apply calc_cpf_inl in E3. exact E3. }
  destruct (deep_rebound_level tl (pt_deep_rebound_pivot tl)) as [ e4 | p ] eqn:E4.
  { exists e4. split; [ reflexivity | ]. apply deep_rebound_level_inl in E4. exact E4. }
  destruct (deep_rebound_level tl (pt_deep_rebound_support tl)) as [ e5 | s ] eqn:E5.
  { exists e5. split; [ reflexivity | ]. apply deep_rebound_level_inl in E5. exact E5. }
  rewrite (L m bm eq_refl E2). exists ZeroDivisionError. auto.
Qed.

Lemma empty_cohort_raises_witness :
  calc_cpf [] 7 2 = inl ZeroDivisionError /\
  calc_cpf_time [] = inl ZeroDivisionError /\
  pct100 1 (length (pt_deep_rebound_resistance (touch_values pivot_table)))
  = inl ZeroDivisionError /\
  Py.mean (pt_deep_rebound_resistance (touch_values pivot_table)) = None /\
  (forall m bm,
      Py.max (pt_deep_rebound (touch_values pivot_table)) = inr m ->
      int_of_number m = inr bm ->
      deep_rebound_level (touch_values pivot_table)
                         (pt_deep_rebound_resistance (touch_values pivot_table))
      = inl ZeroDivisionError) /\
  (exists e, deep_rebound_stats (touch_values pivot_table) = inl e
             /\ (e = ZeroDivisionError \/ e = ValueError)).
Proof.
  apply (empty_cohort_raises (touch_values pivot_table) 7 2 1).
  - discriminate.
  - reflexivity.
Defined.

(** The run on [pivot_table]: every statistic before the deep-rebound
    section is computed, the Resistance level has touches but no deep
    rebound, and the analyzer ends in a division by zero instead of
    reporting a marker. *)
Lemma empty_resistance_cohort_not_guarded :
  touch_lists pivot_table = inr (touch_values pivot_table) /\
  pt_deep_rebound_resistance (touch_values pivot_table) = [] /\
  (exists d, days_with_demark_stats pivot_table = inr d) /\
  (exists g, general_stats pivot_table = inr g) /\
  (exists pv, level_stats pivot_table (touch_values pivot_table) "PP" = inr pv) /\
  (exists su, level_stats pivot_table (touch_values pivot_table) "S" = inr su) /\
  (exists re, level_stats pivot_table (touch_values pivot_table) "R" = inr re) /\
  calc_cpf (pt_deep_rebound_resistance (touch_values pivot_table)) 7 2
  = inl ZeroDivisionError /\
  deep_rebound_stats (touch_values pivot_table) = inl ZeroDivisionError /\
  analyze_pivot_points pivot_table = inl ZeroDivisionError.
Proof.
  split; [ apply touch_lists_eq | ].
  split; [ reflexivity | ].
  split; [ eexists; vm_compute; reflexivity | ].
  split; [ eexists; vm_compute; reflexivity | ].
  split; [ eexists; vm_compute; reflexivity | ].
  split; [ eexists; vm_compute; reflexivity | ].
  split; [ eexists; vm_compute; reflexivity | ].
  split; [ vm_compute; reflexivity | ].
  split; vm_compute; reflexivity.
Qed.

(* ===================================================================== *)
(** ** The trend-reversal analyzer *)
(* ===================================================================== *)

(** Under the invariant, the days with a new trend are the days with a
    reversal hour, in every class. *)
Lemma new_trend_is_reversal (df : dataframe) (p : row -> bool) :
  reversal_invariant df ->
  select (fun r => notnull (New_trend r)) (select p df)
  = select (fun r => notnull (Hour_trend_change r)) (select p df).
Proof.
  intros I. unfold select. apply filter_ext_in. intros r Hr.
  apply filter_In in Hr. apply I. apply Hr.
Qed.



Lemma range_day_entry (df : dataframe) (t : TrendDay.t) :
  range_day df = inr t ->
  pct_with_reversal (es_range_df df) = inr (TrendDay.pct_with_reversal t) /\
  pct100 (length (select es_lower_pp (es_range_then_reversal_df df)))
         (length (es_downtrend_then_reversal_df df))
  = inr (TrendDay.pct_reversal_es_lt_pp t).
Proof.
  intros H. unfold range_day in H. returned H.
  inversion H; subst t; clear H. split; reflexivity.
Qed.

Lemma session_table_invariant : reversal_invariant session_table.
Proof.
  intros r H. simpl in H.
  repeat (destruct H as [ <- | H ]; [ reflexivity | ]).
  contradiction.
Defined.

(** C4, what the code computes.  On [session_table] the analyzer completes;
    the range-day cohort with a reversal has one session, whose open is
    below the pivot, so the same-cohort percentage is 100; the stored
    '% reversal when ES<PP at 8:30am' of the range day is 50, because the
    divisor is the size of the downtrend reversal cohort (two sessions). *)
Lemma range_day_es_lt_pp_wrong_divisor :
  exists st,
    analyze_reversal_each_trend session_table = inr st /\
    length (es_range_then_reversal_df session_table) = 1%nat /\
    length (select es_lower_pp (es_range_then_reversal_df session_table)) = 1%nat /\
    length (es_downtrend_then_reversal_df session_table) = 2%nat /\
    TrendDay.pct_reversal_es_lt_pp (Reversal.range_day st) == 50 /\
    ~ TrendDay.pct_reversal_es_lt_pp (Reversal.range_day st)
      == 100 * of_nat (length (select es_lower_pp (es_range_then_reversal_df session_table)))
         / of_nat (length (es_range_then_reversal_df session_table)) /\
    TrendDay.pct_reversal_es_gt_pp (Reversal.range_day st)
    == 100 * of_nat (length (select es_higher_pp (es_range_then_reversal_df session_table)))
       / of_nat (length (es_range_then_reversal_df session_table)).
Proof.
  eexists. split; [ vm_compute; reflexivity | ].
  repeat split; try reflexivity.
  vm_compute. discriminate.
Qed.

(* ===================================================================== *)
(** ** The range distribution analyzer *)
(* ===================================================================== *)

(** Whatever the class, the series stored under the "ES<PP" key is the one
    of the sessions with code 1 or -1, and the series under "ES>PP" the one
    of the sessions with code 0 or 2. *)
Lemma range_block_labels (class_df : dataframe) (bin_span : Z) (st : RangeCpf.t) :
  range_block class_df bin_span = inr st ->
  exists bin_max all above below,
    calc_cpf (map Max_Range class_df) bin_max bin_span = inr all /\
    calc_cpf (range_of es_higher_pp class_df) bin_max bin_span = inr above /\
    calc_cpf (range_of es_lower_pp class_df) bin_max bin_span = inr below /\
    RangeCpf.all_days st = combine (x all) (cpf all) /\
    RangeCpf.es_lt_pp st = combine (x all) (cpf above) /\
    RangeCpf.es_gt_pp st = combine (x all) (cpf below).
Proof.
  intros H. unfold range_block in H.
  cbn [bind ret Monad_either] in H.
  destruct (Py.max (map Max_Range class_df)) as [ e | m ]; [ discriminate | ].
  cbn [bind ret Monad_either] in H.
  destruct (int_of_number m) as [ e | bin_max ]; [ discriminate | ].
  returned H. inversion H; subst st; clear H.
  exists bin_max. do 3 eexists.
  repeat split; eassumption.
Qed.

(** C5, what the code computes.  On [session_table] the range class has one
    session that opens above the pivot (code 1, range 6) and two that open
    below it (codes 0 and 2, ranges 4 and 9).  The CPF stored under
    'Range ES<PP' is the one of the sessions with code in {1, -1}: 0% at 5
    points; the CPF of the sessions with code in {0, 2}, 50% at 5 points, is
    stored under 'Range ES>PP'. *)
Lemma range_cpf_labels_swapped :
  exists st above below,
    analyze_range session_table = inr st /\
    range_of es_higher_pp (es_range_df session_table) = [Some 6] /\
    range_of es_lower_pp (es_range_df session_table) = [Some 4; Some 9] /\
    calc_cpf (range_of es_higher_pp (es_range_df session_table)) 9 BIN_RANGE_CPF
    = inr above /\
    calc_cpf (range_of es_lower_pp (es_range_df session_table)) 9 BIN_RANGE_CPF
    = inr below /\
    RangeCpf.es_lt_pp (Range.range st) = cpf_table above /\
    RangeCpf.es_gt_pp (Range.range st) = cpf_table below /\
    map fst (cpf_table above) = [5%Z; 9%Z] /\
    Forall2 Qeq (map snd (cpf_table above)) [0; 100] /\
    Forall2 Qeq (map snd (cpf_table below)) [50; 100] /\
    RangeCpf.es_lt_pp (Range.range st) <> cpf_table below.
Proof.
  do 3 eexists.
  split; [ vm_compute; reflexivity | ].
  split; [ reflexivity | ].
  split; [ reflexivity | ].
  split; [ vm_compute; reflexivity | ].
  split; [ vm_compute; reflexivity | ].
  split; [ vm_compute; reflexivity | ].
  split; [ vm_compute; reflexivity | ].
  split; [ reflexivity | ].
  split; [ repeat constructor | ].
  split; [ repeat constructor | ].
  vm_compute. discriminate.
Qed.

(* ===================================================================== *)
(** ** Further facts on percentages *)
(* ===================================================================== *)

Lemma pct_bounds (k n : nat) :
  (k <= n)%nat -> n <> 0%nat -> percentage (100 * of_nat k / of_nat n).
Proof.
  intros L N. split.
  - apply Qle_shift_div_l; [ apply of_nat_pos; exact N | ].
    rewrite Qmult_0_l. apply Qmult_le_0_compat; [ discriminate | apply of_nat_nonneg ].
  - eapply Qle_trans; [ apply (share_mono k n n L N) | ].
    rewrite (share_full n N). apply Qle_refl.
Qed.

Lemma share_eq_100 (k n : nat) :
  n <> 0%nat -> 100 * of_nat k / of_nat n == 100 -> k = n.
Proof.
  intros N H.
  assert (P : 0 < of_nat n) by (apply of_nat_pos; exact N).
  assert (E : 100 * of_nat k == 100 * of_nat n).
  { transitivity (100 * of_nat k / of_nat n * of_nat n).
    - field. intros Z. rewrite Z in P. discriminate.
    - rewrite H. reflexivity. }
  apply Qmult_inj_l in E; [ | discriminate ].
  unfold of_nat in E. rewrite inject_Z_injective in E. lia.
Qed.

Lemma share_add (a b n : nat) :
  n <> 0%nat ->
  100 * of_nat a / of_nat n + 100 * of_nat b / of_nat n
  == 100 * of_nat (a + b) / of_nat n.
Proof.
  intros N. rewrite of_nat_add. field. rewrite of_nat_zero_iff. exact N.
Qed.

(* ===================================================================== *)
(** ** More on the CPF calculators *)
(* ===================================================================== *)

Lemma range_not_stop (start stop step : Z) (r : list Z) :
  Py.range start stop step = inr r -> ~ In stop r.
Proof.
  unfold Py.range. destruct (Z.eqb_spec step 0); [ discriminate | ].
  intros H. inversion H; subst r; clear H.
  intros I. apply in_map_iff in I. destruct I as (k & E & Hk).
  apply in_seq in Hk. unfold range_len in Hk.
  destruct (Z.ltb_spec 0 step).
  - destruct (Z.ltb_spec start stop); [ | simpl in Hk; lia ].
    assert (D : (0 <= (stop - start - 1) / step)%Z) by (apply Z.div_pos; lia).
    assert (M : (step * ((stop - start - 1) / step) <= stop - start - 1)%Z)
      by (apply Z.mul_div_le; lia).
    nia.
  - destruct (Z.ltb_spec stop start); [ | simpl in Hk; lia ].
    assert (D : (0 <= (start - stop - 1) / (- step))%Z) by (apply Z.div_pos; lia).
    assert (M : ((- step) * ((start - stop - 1) / (- step)) <= start - stop - 1)%Z)
      by (apply Z.mul_div_le; lia).
    nia.
Qed.

Lemma range_NoDup (start stop step : Z) (r : list Z) :
  Py.range start stop step = inr r -> NoDup r.
Proof.
  unfold Py.range. destruct (Z.eqb_spec step 0); [ discriminate | ].
  intros H. inversion H; subst r; clear H.
  generalize (range_len start stop step). intros len.
  assert (G : forall s, NoDup (map (fun k => (start + Z.of_nat k * step)%Z) (seq s len))).
  { induction len as [ | len IH ]; intros s; simpl; constructor.
    - intros I. apply in_map_iff in I. destruct I as (k & E & Hk).
      apply in_seq in Hk. nia.
    - apply IH. }
  apply G.
Qed.

Lemma count_le_bound (data : list number) (t : Z) :
  (count_le data t <= length data)%nat.
Proof. apply filter_length_le. Qed.

(** X1.  The outcomes of [__calc_cpf]: a zero width is a [ValueError] even
    on an empty cohort; with a non-zero width an empty cohort is a
    [ZeroDivisionError]; otherwise the call returns as many values as
    thresholds, the thresholds are pairwise distinct (no key of the report
    is written twice) and end with [bin_max], and every value is a
    percentage. *)
Theorem calc_cpf_outcomes (data : list number) (bin_max bin_span : Z) :
  (bin_span = 0%Z -> calc_cpf data bin_max bin_span = inl ValueError) /\
  (bin_span <> 0%Z -> data = [] ->
   calc_cpf data bin_max bin_span = inl ZeroDivisionError) /\
  (bin_span <> 0%Z -> data <> [] ->
   exists r,
     calc_cpf data bin_max bin_span = inr r /\
     length (cpf r) = length (x r) /\
     NoDup (x r) /\
     last (x r) 0%Z = bin_max /\
     Forall percentage (cpf r)).
Proof.
  split; [ | split ].
  - intros ->. reflexivity.
  - intros W ->. apply calc_cpf_empty. exact W.
  - intros W N.
    destruct (range_total bin_span bin_max bin_span W) as (r & Hr).
    eexists. split; [ apply calc_cpf_returns; eassumption | ].
    cbn [cpf x]. split; [ apply length_map | ].
    split; [ | split ].
    + apply NoDup_app.
      * eapply range_NoDup. exact Hr.
      * repeat constructor. intros [].
      * intros t Ht [ <- | [] ]. eapply range_not_stop; eassumption.
    + apply last_last.
    + apply Forall_forall. intros v Hv. apply in_map_iff in Hv.
      destruct Hv as (t & <- & _). apply pct_bounds.
      * apply count_le_bound.
      * destruct data; [ contradiction | discriminate ].
Qed.

(** A time column without a null cell is a list of times. *)
Lemma cells_all_some {A : Type} (data : list (cell A)) :
  ~ In None data -> exists obs, data = map Some obs.
Proof.
  induction data as [ | c data IH ]; intros H.
  - exists []. reflexivity.
  - destruct c as [ a | ]; [ | exfalso; apply H; left; reflexivity ].
    destruct IH as (obs & ->); [ intros I; apply H; right; exact I | ].
    exists (a :: obs). reflexivity.
Qed.

Lemma sum_le_time_null (data : list (cell time)) (t : time) :
  In None data -> sum_le_time data t = inl TypeError.
Proof.
  induction data as [ | c data IH ]; intros H; [ destruct H | ].
  simpl. destruct c as [ a | ]; [ | reflexivity ].
  destruct H as [ H | H ]; [ discriminate | ].
  simpl. rewrite (IH H). reflexivity.
Qed.

Lemma times_le_bound (obs : list time) (t : time) :
  (times_le obs t <= length obs)%nat.
Proof. apply filter_length_le. Qed.

(** X2.  The outcomes of [__calc_cpf_time]: an empty column is a
    [ZeroDivisionError]; a non-empty column with a null cell is a
    [TypeError] (a [nan] is compared with a time); otherwise the call
    returns one percentage for each of the twelve thresholds. *)
Theorem calc_cpf_time_outcomes (data : list (cell time)) :
  (data = [] -> calc_cpf_time data = inl ZeroDivisionError) /\
  (In None data -> calc_cpf_time data = inl TypeError) /\
  (data <> [] -> ~ In None data ->
   exists r,
     calc_cpf_time data = inr r /\
     x r = x_cpf_time /\
     length (cpf r) = 12%nat /\
     Forall percentage (cpf r)).
Proof.
  split; [ | split ].
  - intros ->. reflexivity.
  - intros H. unfold calc_cpf_time, x_cpf_time. cbn [mapM].
    rewrite (sum_le_time_null data _ H). reflexivity.
  - intros N H. destruct (cells_all_some data H) as (obs & ->).
    assert (No : obs <> []) by (intros ->; apply N; reflexivity).
    eexists. split; [ apply calc_cpf_time_returns; exact No | ].
    cbn [cpf x]. split; [ reflexivity | split; [ reflexivity | ] ].
    apply Forall_forall. intros v Hv. apply in_map_iff in Hv.
    destruct Hv as (t & <- & _). apply pct_bounds.
    + apply times_le_bound.
    + destruct obs; [ contradiction | discriminate ].
Qed.

(** [max] on numbers without [nan] is their greatest element. *)
Lemma count_le_mono (data : list number) (s t : Z) :
  (s <= t)%Z -> (count_le data s <= count_le data t)%nat.
Proof.
  intros L. apply filter_length_mono. intros [ q | ] Hq; [ | discriminate ].
  simpl in *. apply Qle_bool_iff in Hq. apply Qle_bool_iff.
  eapply Qle_trans; [ exact Hq | ]. rewrite <- Zle_Qle. exact L.
Qed.

(** The last value of a CPF is 100 exactly when every observation is
    counted at the last threshold. *)
Lemma share_complete (data : list number) (t : Z) :
  data <> [] ->
  (100 * of_nat (count_le data t) / of_nat (length data) == 100
   <-> Forall (fun v => le_int v t = true) data) /\
  (~ Forall (fun v => le_int v t = true) data ->
   100 * of_nat (count_le data t) / of_nat (length data) < 100).
Proof.
  intros N.
  assert (Nn : length data <> 0%nat) by (destruct data; [ contradiction | discriminate ]).
  assert (I : 100 * of_nat (count_le data t) / of_nat (length data) == 100
              <-> Forall (fun v => le_int v t = true) data).
  { split.
    - intros H. apply share_eq_100 in H; [ | exact Nn ].
      unfold count_le in H. apply filter_length_forallb in H.
      apply Forall_forall. apply forallb_forall. exact H.
    - intros H. unfold count_le. rewrite filter_length_all by exact H.
      apply share_full. exact Nn. }
  split; [ exact I | ]. intros NF.
  destruct (pct_bounds (count_le data t) (length data)) as (_ & B);
    [ apply filter_length_le | exact Nn | ].
  apply Qle_lteq in B. destruct B as [ B | B ]; [ exact B | ].
  exfalso. apply NF. apply I. exact B.
Qed.

(** C3.  On a non-empty sequence of observations every CPF that
    [__calc_cpf] (any non-zero width) or [__calc_cpf_time] computes is
    non-decreasing in its threshold.  The last value of [__calc_cpf] is 100
    exactly when every observation is a number at or below the maximum bin
    edge: a [nan] among the observations is part of the divisor and of no
    count, and keeps the last value below 100.  A time CPF exists only for
    a column without a null cell, and its last value is 100 as soon as no
    time is later than 15:00. *)
Theorem cpf_monotone_and_complete
        (data : list number) (times : list time) (max_edge bin_width : Z) :
  data <> [] -> times <> [] -> bin_width <> 0%Z ->
  (exists r,
      calc_cpf data max_edge bin_width = inr r /\
      monotone_table Z.le (cpf_table r) /\
      (last (cpf r) 0 == 100 <-> Forall (fun v => le_int v max_edge = true) data) /\
      (In None data -> last (cpf r) 0 < 100)) /\
  (exists r,
      calc_cpf_time (map Some times) = inr r /\
      monotone_table (fun a b => time_leb a b = true) (cpf_table r) /\
      (Forall (fun t => time_leb t (mk_time 15 0 0) = true) times ->
       last (cpf r) 0 == 100)) /\
  (forall cells, In None cells -> calc_cpf_time cells = inl TypeError).
Proof.
  intros No Nt W. split; [ | split ].
  - destruct (range_total bin_width max_edge bin_width W) as (pre & Hpre).
    assert (Nn : length data <> 0%nat) by (destruct data; [ contradiction | discriminate ]).
    destruct (share_complete data max_edge No) as (I & B).
    eexists. split; [ | split; [ | split ] ].
    + apply calc_cpf_returns; eassumption.
    + intros t1 v1 t2 v2 H1 H2 L. unfold cpf_table in H1, H2. simpl in H1, H2.
      apply combine_map_In in H1, H2. subst v1 v2.
      apply share_mono; [ apply count_le_mono; exact L | exact Nn ].
    + cbn [cpf]. rewrite last_map_snoc. exact I.
    + intros Hn. cbn [cpf]. rewrite last_map_snoc. apply B.
      intros F. rewrite Forall_forall in F. specialize (F None Hn). discriminate.
  - eexists. split; [ | split ].
    + apply calc_cpf_time_returns. exact Nt.
    + intros t1 v1 t2 v2 H1 H2 L. unfold cpf_table in H1, H2.
      cbn [x cpf] in H1, H2.
      apply combine_map_In in H1, H2. subst v1 v2.
      apply share_mono.
      * apply times_le_mono. exact L.
      * destruct times; [ contradiction | discriminate ].
    + intros A. cbn [cpf].
      change x_cpf_time with
        (firstn 11 x_cpf_time ++ [mk_time 15 0 0]).
      rewrite last_map_snoc.
      unfold times_le. rewrite filter_length_all by exact A.
      apply share_full. destruct times; [ contradiction | discriminate ].
  - intros cells H. unfold calc_cpf_time, x_cpf_time. cbn [mapM].
    rewrite (sum_le_time_null cells _ H). reflexivity.
Qed.

Lemma cpf_monotone_and_complete_witness :
  (exists r,
      calc_cpf [Some 3; Some 7; Some (21 # 2)] 12 5 = inr r /\
      monotone_table Z.le (cpf_table r) /\
      (last (cpf r) 0 == 100
       <-> Forall (fun v => le_int v 12 = true) [Some 3; Some 7; Some (21 # 2)]) /\
      (In None [Some 3; Some 7; Some (21 # 2)] -> last (cpf r) 0 < 100)) /\
  (exists r,
      calc_cpf_time (map Some [mk_time 10 15 0; mk_time 14 0 0]) = inr r /\
      monotone_table (fun a b => time_leb a b = true) (cpf_table r) /\
      (Forall (fun t => time_leb t (mk_time 15 0 0) = true)
              [mk_time 10 15 0; mk_time 14 0 0] ->
       last (cpf r) 0 == 100)) /\
  (forall cells, In None cells -> calc_cpf_time cells = inl TypeError).
Proof.
  apply (cpf_monotone_and_complete [Some 3; Some 7; Some (21 # 2)]
           [mk_time 10 15 0; mk_time 14 0 0] 12 5);
    discriminate.
Defined.

(** Both CPFs end at 100 on these inputs. *)
Example cpf_last_value_100 :
  (exists r, calc_cpf [Some 3; Some 7; Some (21 # 2)] 12 5 = inr r
             /\ last (cpf r) 0 == 100) /\
  (exists r, calc_cpf_time (map Some [mk_time 10 15 0; mk_time 14 0 0]) = inr r
             /\ last (cpf r) 0 == 100).
Proof.
  split; eexists; (split; [ vm_compute; reflexivity | reflexivity ]).
Qed.

(** Four observations, the second of them [nan]: the greatest observation
    is 9, the maximum bin edge is 9, and the CPF ends at 75. *)
Lemma cpf_with_nan_ends_below_100 :
  Py.max [Some 4; None; Some 9; Some 6] = inr (Some 9) /\
  exists r,
    calc_cpf [Some 4; None; Some 9; Some 6] 9 5 = inr r /\
    x r = [5; 9]%Z /\
    last (cpf r) 0 == 75 /\
    ~ last (cpf r) 0 == 100.
Proof.
  split; [ reflexivity | ]. eexists.
  split; [ vm_compute; reflexivity | ].
  split; [ reflexivity | ]. split; [ reflexivity | discriminate ].
Qed.

Lemma fold_max_numeric (obs : list Q) (a : Q) :
  exists m,
    fold_left (fun m i => if Py.gt i m then i else m) (map Some obs) (Some a) = Some m /\
    In m (a :: obs) /\
    forall q, In q (a :: obs) -> q <= m.
Proof.
  revert a. induction obs as [ | b obs IH ]; intros a.
  - exists a. simpl. split; [ reflexivity | split; [ auto | ] ].
    intros q [ <- | [] ]. apply Qle_refl.
  - simpl. destruct (Qle_bool b a) eqn:E; simpl.
    + destruct (IH a) as (m & Hm & Im & Um). exists m.
      split; [ exact Hm | split ].
      * destruct Im as [ <- | Im ]; simpl; auto.
      * intros q [ <- | [ <- | Hq ] ].
        -- apply Um. left. reflexivity.
        -- apply Qle_bool_iff in E. eapply Qle_trans; [ exact E | ].
           apply Um. left. reflexivity.
        -- apply Um. right. exact Hq.
    + destruct (IH b) as (m & Hm & Im & Um). exists m.
      split; [ exact Hm | split ].
      * destruct Im as [ <- | Im ]; simpl; auto.
      * assert (L : a <= b).
        { apply Qlt_le_weak. apply Qnot_le_lt. intros C.
          apply Qle_bool_iff in C. congruence. }
        intros q [ <- | [ <- | Hq ] ].
        -- eapply Qle_trans; [ exact L | ]. apply Um. left. reflexivity.
        -- apply Um. left. reflexivity.
        -- apply Um. right. exact Hq.
Qed.

Lemma max_numeric (obs : list Q) :
  obs <> [] ->
  exists m, Py.max (map Some obs) = inr (Some m) /\ In m obs /\
            forall q, In q obs -> q <= m.
Proof.
  destruct obs as [ | a obs ]; [ contradiction | ]. intros _.
  destruct (fold_max_numeric obs a) as (m & Hm & Im & Um).
  exists m. simpl. rewrite Hm. auto.
Qed.

(* ===================================================================== *)
(** ** More on the rounding helper *)
(* ===================================================================== *)

Lemma round_comp (n m : Q) : n == m -> round n == round m.
Proof.
  intros E. rewrite !round_unfold.
  assert (E10 : n * 10 == m * 10) by (rewrite E; reflexivity).
  rewrite (int_compat _ _ (RN_comp _ _ E10)). reflexivity.
Qed.

Lemma round_mono (n m : Q) : n <= m -> round n <= round m.
Proof.
  intros L. rewrite !round_unfold. apply RN_mono.
  apply Qmult_le_compat_r; [ | discriminate ].
  rewrite <- Zle_Qle. apply int_mono. apply RN_mono. lra.
Qed.

Lemma round_opp (n : Q) : round (- n) == - round n.
Proof.
  rewrite !round_unfold.
  assert (E : Double.RN (- n * 10) == - Double.RN (n * 10)).
  { rewrite <- RN_opp. apply RN_comp. ring. }
  rewrite (int_compat _ _ E), int_opp, <- RN_opp. apply RN_comp.
  rewrite inject_Z_opp. field.
Qed.

Lemma round_nonneg (n : Q) :
  0 <= n -> 0 <= round n /\ round n <= Double.RN (Double.mul n 10 / 10).
Proof.
  intros P. rewrite round_unfold. unfold Double.mul.
  assert (R0 : 0 <= Double.RN (n * 10)) by (apply RN_nonneg; lra).
  rewrite (int_nonneg_floor _ R0).
  assert (F0 : (0 <= Qfloor (Double.RN (n * 10)))%Z).
  { rewrite <- (Qfloor_Z 0). apply Qfloor_resp_le. exact R0. }
  rewrite Zle_Qle in F0. change (inject_Z 0) with 0 in F0.
  pose proof (Qfloor_le (Double.RN (n * 10))) as Fl.
  split.
  - apply RN_nonneg. apply Qle_shift_div_l; [ reflexivity | ]. lra.
  - apply RN_mono. apply Qmult_le_compat_r; [ exact Fl | discriminate ].
Qed.

(** X4.  [__round] on doubles whose product by ten does not overflow: it is
    monotone and odd, it gives equal results on equal numbers, it keeps the
    sign, and it truncates the double product [n * 10] toward zero, so that
    the result lies between zero and the double nearest to a tenth of that
    product. *)
Theorem round_algebra :
  (forall n m, roundable n -> roundable m -> n == m -> round n == round m) /\
  (forall n m, roundable n -> roundable m -> n <= m -> round n <= round m) /\
  (forall n, roundable n -> round (- n) == - round n) /\
  (forall n, roundable n -> 0 <= n ->
             0 <= round n /\ round n <= Double.RN (Double.mul n 10 / 10)) /\
  (forall n, roundable n -> n <= 0 ->
             Double.RN (Double.mul n 10 / 10) <= round n /\ round n <= 0).
Proof.
  split; [ intros n m _ _; apply round_comp | ].
  split; [ intros n m _ _; apply round_mono | ].
  split; [ intros n _; apply round_opp | ].
  split; [ intros n _; apply round_nonneg | ].
  intros n _ N. destruct (round_nonneg (- n)) as (A & B); [ lra | ].
  rewrite round_opp in A, B.
  assert (E : Double.RN (Double.mul (- n) 10 / 10) == - Double.RN (Double.mul n 10 / 10)).
  { unfold Double.mul. rewrite <- RN_opp. apply RN_comp.
    assert (E' : Double.RN (- n * 10) == - Double.RN (n * 10)).
    { rewrite <- RN_opp. apply RN_comp. ring. }
    rewrite E'. field. }
  rewrite E in B. split; lra.
Qed.

(* ===================================================================== *)
(** ** The day rollups of the pivot-point analyzer *)
(* ===================================================================== *)

Lemma not_in_NoDup (l k : list nat) : NoDup l -> NoDup (not_in l k).
Proof. apply NoDup_filter. Qed.

Lemma In_not_in (l k : list nat) (i : nat) :
  In i (not_in l k) <-> In i l /\ ~ In i k.
Proof.
  unfold not_in. rewrite filter_In, negb_true_iff.
  destruct (mem i k) eqn:M.
  - apply mem_In in M. split; [ intros (_ & H); discriminate | tauto ].
  - split; [ | tauto ]. intros (H & _). split; [ exact H | ].
    intros I. apply mem_In in I. congruence.
Qed.

(** The size of a union of two duplicate-free label lists. *)
Lemma union_length (a b u : list nat) :
  NoDup a -> NoDup b -> NoDup u ->
  (forall i, In i u <-> In i a \/ In i b) ->
  length u = (length a + length (not_in b a))%nat.
Proof.
  intros Na Nb Nu U. rewrite <- length_app.
  assert (Nab : NoDup (a ++ not_in b a)).
  { apply NoDup_app; [ exact Na | apply not_in_NoDup; exact Nb | ].
    intros i Hi Hn. apply In_not_in in Hn. tauto. }
  apply Nat.le_antisymm; apply NoDup_incl_length; try assumption.
  - intros i Hi. apply in_app_iff. rewrite In_not_in.
    apply U in Hi. destruct (in_dec Nat.eq_dec i a); tauto.
  - intros i Hi. apply in_app_iff in Hi. rewrite In_not_in in Hi.
    apply U. tauto.
Qed.

Lemma rows_no_rebound_NoDup (df : dataframe) : NoDup (rows_no_rebound df).
Proof.
  unfold rows_no_rebound. apply not_in_NoDup, NoDup_index_where.
Qed.

Lemma In_days_with_rebound (df : dataframe) (i : nat) :
  In i (days_with_rebound df)
  <-> In i (rows_first_rebound df) \/ In i (rows_deep_rebound df).
Proof.
  unfold days_with_rebound, list_set, days_with_perfect_rebound, days_with_deep_rebound.
  rewrite nodup_In, in_app_iff. reflexivity.
Qed.

Lemma In_days_with_demark (df : dataframe) (i : nat) :
  In i (days_with_demark df)
  <-> In i (days_with_rebound df) \/ In i (rows_no_rebound df).
Proof.
  unfold days_with_demark, list_set, days_with_no_rebound.
  rewrite nodup_In, in_app_iff. reflexivity.
Qed.

(** X5.  ["Days with demark"]: without any day that has an interaction the
    first percentage divides by zero; otherwise the eight entries are
    percentages of the days with an interaction, and they are tied by two
    identities: 'with rebound' + 'only no rebound' = 100 and
    'only rebound' + 'with no rebound' = 100. *)
Theorem days_with_demark_shares (df : dataframe) :
  (days_with_demark df = [] -> days_with_demark_stats df = inl ZeroDivisionError) /\
  (days_with_demark df <> [] ->
   exists st,
     days_with_demark_stats df = inr st /\
     DaysWithDemark.count st = length (days_with_demark df) /\
     DaysWithDemark.with_rebound st + DaysWithDemark.only_no_rebound st == 100 /\
     DaysWithDemark.only_rebound st + DaysWithDemark.with_no_rebound st == 100 /\
     Forall percentage
       [ DaysWithDemark.with_rebound st; DaysWithDemark.only_rebound st;
         DaysWithDemark.only_perfect_rebound st; DaysWithDemark.only_deep_rebound st;
         DaysWithDemark.only_no_rebound st; DaysWithDemark.with_no_rebound st;
         DaysWithDemark.with_perfect_rebound st; DaysWithDemark.with_deep_rebound st ]).
Proof.
  split.
  - intros E. unfold days_with_demark_stats. rewrite E. reflexivity.
  - intros N.
    assert (C : length (days_with_demark df) <> 0%nat)
      by (destruct (days_with_demark df); [ contradiction | discriminate ]).
    assert (NR : NoDup (days_with_rebound df)) by apply NoDup_nodup.
    assert (NN : NoDup (rows_no_rebound df)) by apply rows_no_rebound_NoDup.
    assert (ND : NoDup (days_with_demark df)) by apply NoDup_nodup.
    assert (NF : NoDup (rows_first_rebound df)) by apply NoDup_index_where.
    assert (NP : NoDup (rows_deep_rebound df)) by apply NoDup_index_where.
    assert (U1 : length (days_with_demark df)
                 = (length (days_with_rebound df)
                    + length (not_in (rows_no_rebound df) (days_with_rebound df)))%nat).
    { apply union_length; try assumption. apply In_days_with_demark. }
    assert (U2 : length (days_with_demark df)
                 = (length (rows_no_rebound df)
                    + length (not_in (days_with_rebound df) (rows_no_rebound df)))%nat).
    { apply union_length; try assumption.
      intros i. rewrite In_days_with_demark. tauto. }
    assert (IR : incl (days_with_rebound df) (days_with_demark df)).
    { intros i Hi. apply In_days_with_demark. auto. }
    assert (IN : incl (rows_no_rebound df) (days_with_demark df)).
    { intros i Hi. apply In_days_with_demark. auto. }
    assert (IF : incl (rows_first_rebound df) (days_with_demark df)).
    { intros i Hi. apply IR, In_days_with_rebound. auto. }
    assert (IP : incl (rows_deep_rebound df) (days_with_demark df)).
    { intros i Hi. apply IR, In_days_with_rebound. auto. }
    assert (B : forall l, NoDup l -> incl l (days_with_demark df) ->
                          percentage (100 * of_nat (length l)
                                      / of_nat (length (days_with_demark df)))).
    { intros l Nl Il. apply pct_bounds; [ | exact C ].
      apply NoDup_incl_length; assumption. }
    assert (S : forall l k, incl l (days_with_demark df) ->
                            incl (not_in l k) (days_with_demark df)).
    { intros l k Il i Hi. apply Il. apply In_not_in in Hi. apply Hi. }
    unfold days_with_demark_stats. cbn zeta.
    rewrite !pct100_ok by exact C.
    eexists. split; [ reflexivity | ].
    cbn [DaysWithDemark.count DaysWithDemark.with_rebound DaysWithDemark.only_rebound
         DaysWithDemark.only_perfect_rebound DaysWithDemark.only_deep_rebound
         DaysWithDemark.only_no_rebound DaysWithDemark.with_no_rebound
         DaysWithDemark.with_perfect_rebound DaysWithDemark.with_deep_rebound].
    unfold demark_days_with_rebound, demark_days_with_rebound_only,
      demark_days_with_perfect_rebound_only, demark_days_with_deep_rebound_only,
      demark_days_with_no_rebound_only, demark_days_with_no_rebound,
      days_with_perfect_rebound, days_with_deep_rebound, days_with_no_rebound,
      days_with_no_perfect_rebound.
    split; [ reflexivity | ].
    split; [ apply share2; [ symmetry; exact U1 | exact C ] | ].
    split; [ apply share2; [ rewrite Nat.add_comm; symmetry; exact U2 | exact C ] | ].
    repeat (apply Forall_cons; [ apply B; auto using not_in_NoDup | ]).
    apply Forall_nil.
Qed.

(* ===================================================================== *)
(** ** The other groups of the pivot-point analyzer *)
(* ===================================================================== *)

(** The failing step of a [do] block that is known to have raised. *)
Ltac failed H :=
  cbn [bind ret Monad_either] in H;
  repeat match type of H with
         | match ?c with inl _ => _ | inr _ => _ end = inl _ =>
             let E := fresh "E" in
             destruct c eqn:E;
             [ inversion H; subst; clear H | cbn [bind ret Monad_either] in H ]
         end;
  try discriminate.

Lemma count_rebound_table (df : dataframe) :
  count_rebound df <> 0%nat -> total_days df <> 0%nat /\ count_points df <> 0%nat.
Proof.
  intros H. split.
  - destruct df; [ exfalso; apply H; reflexivity | discriminate ].
  - unfold count_points. lia.
Qed.

Lemma general_stats_inl (df : dataframe) (e : exn) :
  general_stats df = inl e -> e = ZeroDivisionError.
Proof.
  unfold general_stats, pct_days_no_demark, pct_days_with_demark, rows_deep_rebound.
  rewrite column_at_index. intros H. failed H; eapply pct100_inl; eassumption.
Qed.

Lemma general_stats_inr (df : dataframe) (g : General.t) :
  general_stats df = inr g -> count_rebound df <> 0%nat.
Proof.
  unfold general_stats. intros H. returned H.
  match goal with
  | E : pct100 _ (count_rebound df) = inr _ |- _ => apply pct100_inv in E; apply E
  end.
Qed.

(** Counting a value in a column of selected rows. *)
Lemma count_str_map {A : Type} (col : A -> cell string) (rows : list A) (point : string) :
  count_str (map col rows) point
  = length (filter (fun r => cell_eq_str (col r) point) rows).
Proof.
  unfold count_str. induction rows as [ | r rows IH ]; simpl; [ reflexivity | ].
  destruct (cell_eq_str (col r) point); simpl; congruence.
Qed.

Lemma count_int_map {A : Type} (col : A -> cell Z) (rows : list A) (k : Z) :
  count_int (map col rows) k
  = length (filter (fun r => cell_eq_int (col r) k) rows).
Proof.
  unfold count_int. induction rows as [ | r rows IH ]; simpl; [ reflexivity | ].
  destruct (cell_eq_int (col r) k); simpl; congruence.
Qed.

Lemma count_str_bound (l : list (cell string)) (point : string) :
  (count_str l point <= length l)%nat.
Proof. apply filter_length_le. Qed.

(** X7.  The block of one level: when its divisors are not zero, the level's
    own shares are percentages; 'pct rebound' is the share of the perfect
    and the deep rebounds counted together, it is at least each of 'pct
    perfect rebound' and 'pct deep rebound', and 'pct rebound' + 'pct no
    rebound' = 100; the distances the block stores are those of the deep
    rebounds whose 'No perfect rebound' cell names the level, as many as
    the deep touches counted for the level. *)
Theorem level_breakdown (df : dataframe) (tl : touches) (point : string) :
  touch_lists df = inr tl ->
  count_perfect_rebound df <> 0%nat ->
  count_deep_rebound df <> 0%nat ->
  count_no_rebound df <> 0%nat ->
  count_total tl point <> 0%nat ->
  exists st,
    level_stats df tl point = inr st /\
    Level.pct_rebound st
    == 100 * of_nat (count_str (point_perfect_rebound tl) point
                     + count_str (point_deep_rebound tl) point)
       / of_nat (count_total tl point) /\
    Level.pct_perfect_rebound st <= Level.pct_rebound st /\
    Level.pct_deep_rebound st <= Level.pct_rebound st /\
    Level.pct_rebound st + Level.pct_no_rebound st == 100 /\
    Forall percentage
      [ Level.pct_point st; Level.pct_perfect_rebound st; Level.pct_deep_rebound st;
        Level.pct_rebound st; Level.pct_no_rebound st;
        Level.pct_level_perfect_rebound st; Level.pct_level_deep_rebound st;
        Level.pct_level_rebound st; Level.pct_level_no_rebound st ] /\
    Level.pt_deep_rebound st = deep_distances_at df point /\
    length (Level.pt_deep_rebound st) = count_str (point_deep_rebound tl) point.
Proof.
  intros Htl Hp Hd Hn Ht.
  destruct (touch_lengths df tl Htl) as (Lp & Ld & Ln).
  assert (Bp := count_str_bound (point_perfect_rebound tl) point).
  assert (Bd := count_str_bound (point_deep_rebound tl) point).
  assert (Bn := count_str_bound (point_no_rebound tl) point).
  rewrite Lp in Bp. rewrite Ld in Bd. rewrite Ln in Bn.
  eexists. split; [ apply level_stats_eq; assumption | ].
  cbn [Level.pct_point Level.pct_perfect_rebound Level.pct_deep_rebound Level.pct_rebound
       Level.pct_no_rebound Level.pct_level_perfect_rebound Level.pct_level_deep_rebound
       Level.pct_level_rebound Level.pct_level_no_rebound Level.pt_deep_rebound].
  assert (T : count_total tl point
              = (count_str (point_perfect_rebound tl) point
                 + count_str (point_deep_rebound tl) point
                 + count_str (point_no_rebound tl) point)%nat) by reflexivity.
  split; [ reflexivity | ].
  split; [ apply share_mono; [ lia | exact Ht ] | ].
  split; [ apply share_mono; [ lia | exact Ht ] | ].
  split; [ apply share2; [ symmetry; exact T | exact Ht ] | ].
  split; [ | split; [ reflexivity | ] ].
  - repeat (apply Forall_cons;
            [ apply pct_bounds; unfold count_points, count_rebound in *; lia | ]).
    apply Forall_nil.
  - rewrite touch_lists_eq in Htl. inversion Htl; subst tl.
    unfold touch_values, deep_distances_at. cbn [point_deep_rebound].
    rewrite count_str_map, !length_map. reflexivity.
Qed.

Lemma level_breakdown_witness :
  exists st,
    level_stats pivot_table (touch_values pivot_table) "R" = inr st /\
    Level.pct_rebound st
    == 100 * of_nat (count_str (point_perfect_rebound (touch_values pivot_table)) "R"
                     + count_str (point_deep_rebound (touch_values pivot_table)) "R")
       / of_nat (count_total (touch_values pivot_table) "R") /\
    Level.pct_perfect_rebound st <= Level.pct_rebound st /\
    Level.pct_deep_rebound st <= Level.pct_rebound st /\
    Level.pct_rebound st + Level.pct_no_rebound st == 100 /\
    Forall percentage
      [ Level.pct_point st; Level.pct_perfect_rebound st; Level.pct_deep_rebound st;
        Level.pct_rebound st; Level.pct_no_rebound st;
        Level.pct_level_perfect_rebound st; Level.pct_level_deep_rebound st;
        Level.pct_level_rebound st; Level.pct_level_no_rebound st ] /\
    Level.pt_deep_rebound st = deep_distances_at pivot_table "R" /\
    length (Level.pt_deep_rebound st)
    = count_str (point_deep_rebound (touch_values pivot_table)) "R".
Proof.
  apply (level_breakdown pivot_table (touch_values pivot_table) "R").
  - apply touch_lists_eq.
  - discriminate.
  - discriminate.
  - discriminate.
  - discriminate.
Defined.

Lemma count_int_trend (l : list (cell Z)) :
  (count_int l 1 + count_int l (-1) + count_int l 0 <= length l)%nat.
Proof.
  unfold count_int. induction l as [ | c l IH ]; simpl; [ lia | ].
  destruct c as [ v | ]; simpl; [ | lia ].
  destruct (Z.eqb_spec v 1), (Z.eqb_spec v (-1)), (Z.eqb_spec v 0); simpl; lia.
Qed.

Lemma count_int_codes (l : list (cell Z)) :
  (count_int l 0 + count_int l 2 + (count_int l 1 + count_int l (-1)) <= length l)%nat.
Proof.
  unfold count_int. induction l as [ | c l IH ]; simpl; [ lia | ].
  destruct c as [ v | ]; simpl; [ | lia ].
  destruct (Z.eqb_spec v 0), (Z.eqb_spec v 2), (Z.eqb_spec v 1), (Z.eqb_spec v (-1));
    simpl; lia.
Qed.

Lemma count_str_levels_le (l : list (cell string)) :
  (count_str l "R" + count_str l "PP" + count_str l "S" <= length l)%nat.
Proof.
  unfold count_str. induction l as [ | c l IH ]; simpl; [ lia | ].
  destruct c as [ v | ]; simpl; [ | lia ].
  destruct (String.eqb_spec v "R"), (String.eqb_spec v "PP"), (String.eqb_spec v "S");
    simpl; try lia; congruence.
Qed.

Lemma share_sum2_le (a b n : nat) :
  (a + b <= n)%nat -> n <> 0%nat ->
  100 * of_nat a / of_nat n + 100 * of_nat b / of_nat n <= 100.
Proof.
  intros L N. rewrite share_add by exact N. apply pct_bounds; assumption.
Qed.

Lemma column_at_no_rebound {A : Type} (df : dataframe) (col : row -> A) :
  column_at df col (rows_no_rebound df) = inr (map col (failed_rows df)).
Proof.
  rewrite rows_no_rebound_mask. apply column_at_index.
Qed.

Lemma length_failed_rows (df : dataframe) : length (failed_rows df) = count_no_rebound df.
Proof.
  unfold count_no_rebound. rewrite rows_no_rebound_mask, length_index_where. reflexivity.
Qed.

(** X8.  The no-rebound breakdown at the end of [__analyze_pivot_points]:
    without a failed rebound it divides by zero; otherwise it is computed
    and every entry is a percentage.  The trend shares and the level shares
    are 100 * count / (failed rebounds) for counts that add up to at most
    the number of failed rebounds, the level counts to exactly that number
    when every failed rebound names PP, S or R; the two open-versus-pivot
    shares add up to at most 100. *)
Theorem no_rebound_breakdown (df : dataframe) (tl : touches) :
  touch_lists df = inr tl ->
  (count_no_rebound df = 0%nat -> no_rebound_stats df tl = inl ZeroDivisionError) /\
  (count_no_rebound df <> 0%nat ->
   exists st,
     no_rebound_stats df tl = inr st /\
     Forall2 (fun share k => share == 100 * of_nat k / of_nat (count_no_rebound df))
       [ NoRebound.pct_uptrend st; NoRebound.pct_downtrend st; NoRebound.pct_range st ]
       [ count_int (map Trend_since_830 (failed_rows df)) 1;
         count_int (map Trend_since_830 (failed_rows df)) (-1);
         count_int (map Trend_since_830 (failed_rows df)) 0 ] /\
     (count_int (map Trend_since_830 (failed_rows df)) 1
      + count_int (map Trend_since_830 (failed_rows df)) (-1)
      + count_int (map Trend_since_830 (failed_rows df)) 0
      <= count_no_rebound df)%nat /\
     NoRebound.pct_es_lt_pp st + NoRebound.pct_es_gt_pp st <= 100 /\
     Forall2 (fun share k => share == 100 * of_nat k / of_nat (count_no_rebound df))
       [ NoRebound.pct_resistance st; NoRebound.pct_pivot st; NoRebound.pct_support st ]
       [ count_str (point_no_rebound tl) "R"; count_str (point_no_rebound tl) "PP";
         count_str (point_no_rebound tl) "S" ] /\
     (count_str (point_no_rebound tl) "R" + count_str (point_no_rebound tl) "PP"
      + count_str (point_no_rebound tl) "S" <= count_no_rebound df)%nat /\
     (Forall is_level (point_no_rebound tl) ->
      (count_str (point_no_rebound tl) "R" + count_str (point_no_rebound tl) "PP"
       + count_str (point_no_rebound tl) "S" = count_no_rebound df)%nat) /\
     Forall percentage
       [ NoRebound.pct_uptrend st; NoRebound.pct_downtrend st; NoRebound.pct_range st;
         NoRebound.pct_es_lt_pp st; NoRebound.pct_es_gt_pp st;
         NoRebound.pct_resistance st; NoRebound.pct_pivot st; NoRebound.pct_support st ]).
Proof.
  intros Htl.
  destruct (touch_lengths df tl Htl) as (_ & _ & Ln).
  unfold no_rebound_stats. rewrite !column_at_no_rebound.
  cbn [bind ret Monad_either]. cbn zeta.
  fold (count_no_rebound df). split.
  - intros ->. reflexivity.
  - intros N. rewrite !pct100_ok by exact N.
    eexists. split; [ reflexivity | ].
    cbn [NoRebound.pct_uptrend NoRebound.pct_downtrend NoRebound.pct_range
         NoRebound.pct_es_lt_pp NoRebound.pct_es_gt_pp NoRebound.pct_resistance
         NoRebound.pct_pivot NoRebound.pct_support].
    assert (Lr : forall (A : Type) (col : row -> A),
               length (map col (failed_rows df)) = count_no_rebound df).
    { intros A col. rewrite length_map. apply length_failed_rows. }
    pose proof (count_int_trend (map Trend_since_830 (failed_rows df))) as Ct.
    rewrite Lr in Ct.
    pose proof (count_int_codes (map ES_PP (failed_rows df))) as Cc.
    rewrite Lr in Cc.
    pose proof (count_str_levels_le (point_no_rebound tl)) as Cl.
    rewrite Ln in Cl.
    split; [ repeat constructor; reflexivity | ].
    split; [ exact Ct | ].
    split; [ apply share_sum2_le; [ lia | exact N ] | ].
    split; [ repeat constructor; reflexivity | ].
    split; [ exact Cl | ].
    split.
    + intros F. apply count_levels in F. lia.
    + repeat (apply Forall_cons; [ apply pct_bounds; [ lia | exact N ] | ]).
      apply Forall_nil.
Qed.

Lemma no_rebound_breakdown_witness :
  (count_no_rebound pivot_table = 0%nat ->
   no_rebound_stats pivot_table (touch_values pivot_table) = inl ZeroDivisionError) /\
  (count_no_rebound pivot_table <> 0%nat ->
   exists st,
     no_rebound_stats pivot_table (touch_values pivot_table) = inr st /\
     Forall2 (fun share k => share == 100 * of_nat k / of_nat (count_no_rebound pivot_table))
       [ NoRebound.pct_uptrend st; NoRebound.pct_downtrend st; NoRebound.pct_range st ]
       [ count_int (map Trend_since_830 (failed_rows pivot_table)) 1;
         count_int (map Trend_since_830 (failed_rows pivot_table)) (-1);
         count_int (map Trend_since_830 (failed_rows pivot_table)) 0 ] /\
     (count_int (map Trend_since_830 (failed_rows pivot_table)) 1
      + count_int (map Trend_since_830 (failed_rows pivot_table)) (-1)
      + count_int (map Trend_since_830 (failed_rows pivot_table)) 0
      <= count_no_rebound pivot_table)%nat /\
     NoRebound.pct_es_lt_pp st + NoRebound.pct_es_gt_pp st <= 100 /\
     Forall2 (fun share k => share == 100 * of_nat k / of_nat (count_no_rebound pivot_table))
       [ NoRebound.pct_resistance st; NoRebound.pct_pivot st; NoRebound.pct_support st ]
       [ count_str (point_no_rebound (touch_values pivot_table)) "R"; count_str (point_no_rebound (touch_values pivot_table)) "PP";
         count_str (point_no_rebound (touch_values pivot_table)) "S" ] /\
     (count_str (point_no_rebound (touch_values pivot_table)) "R" + count_str (point_no_rebound (touch_values pivot_table)) "PP"
      + count_str (point_no_rebound (touch_values pivot_table)) "S" <= count_no_rebound pivot_table)%nat /\
     (Forall is_level (point_no_rebound (touch_values pivot_table)) ->
      (count_str (point_no_rebound (touch_values pivot_table)) "R" + count_str (point_no_rebound (touch_values pivot_table)) "PP"
       + count_str (point_no_rebound (touch_values pivot_table)) "S" = count_no_rebound pivot_table)%nat) /\
     Forall percentage
       [ NoRebound.pct_uptrend st; NoRebound.pct_downtrend st; NoRebound.pct_range st;
         NoRebound.pct_es_lt_pp st; NoRebound.pct_es_gt_pp st;
         NoRebound.pct_resistance st; NoRebound.pct_pivot st; NoRebound.pct_support st ]).
Proof.
  apply (no_rebound_breakdown pivot_table (touch_values pivot_table)).
  apply touch_lists_eq.
Defined.

(* ===================================================================== *)
(** ** When the pivot-point analyzer completes *)
(* ===================================================================== *)

Lemma days_with_demark_stats_inl (df : dataframe) (e : exn) :
  days_with_demark_stats df = inl e -> e = ZeroDivisionError.
Proof.
  unfold days_with_demark_stats. cbn zeta. intros H.
  failed H; eapply pct100_inl; eassumption.
Qed.

Lemma days_with_demark_stats_returns (df : dataframe) :
  days_with_demark df <> [] -> exists st, days_with_demark_stats df = inr st.
Proof.
  intros N. unfold days_with_demark_stats. cbn zeta.
  rewrite !pct100_ok by (destruct (days_with_demark df); [ contradiction | discriminate ]).
  eexists. reflexivity.
Qed.

Lemma general_stats_returns (df : dataframe) :
  count_rebound df <> 0%nat -> exists g, general_stats df = inr g.
Proof.
  intros N. destruct (count_rebound_table df N) as (T & P).
  unfold general_stats, pct_days_no_demark, pct_days_with_demark, rows_deep_rebound.
  rewrite column_at_index. rewrite !pct100_ok by assumption.
  eexists. reflexivity.
Qed.

(** X6.  The percentages of ["General"] come after the group ["Days with
    demark"]: they are computed exactly when some day has an interaction
    and some rebound (perfect or deep) is on record, and a failure on the
    way is always a [ZeroDivisionError].  When computed, 'pct rebound' is
    the share of the perfect and the deep rebounds counted together, it is
    at least 'pct perfect rebound' and 'pct deep rebound', 'pct rebound' +
    'pct no rebound' = 100, the days with a rebound are at most the days
    with an interaction, and the stored distances are those of the rows
    with a deep rebound. *)
Theorem general_stats_shares (df : dataframe) :
  (days_with_demark df <> [] /\ count_rebound df <> 0%nat
   <-> exists g, (days <- days_with_demark_stats df ;; general_stats df) = inr g) /\
  (forall e, (days <- days_with_demark_stats df ;; general_stats df) = inl e ->
             e = ZeroDivisionError) /\
  (forall g,
      (days <- days_with_demark_stats df ;; general_stats df) = inr g ->
      General.pct_rebound g
      == 100 * of_nat (count_perfect_rebound df + count_deep_rebound df)
         / of_nat (count_points df) /\
      General.pct_perfect_rebound g <= General.pct_rebound g /\
      General.pct_deep_rebound g <= General.pct_rebound g /\
      General.pct_rebound g + General.pct_no_rebound g == 100 /\
      General.pct_days_with_rebound g <= General.pct_days_with_demark g /\
      percentage (General.pct_perfect_rebound_if_rebound g) /\
      General.pt_deep_rebound g = map Pt_deep_rebound (deep_rows df)).
Proof.
  assert (V : forall g, general_stats df = inr g ->
              count_rebound df <> 0%nat /\
              g = General.mk
                    (100 * of_nat (length (days_with_rebound df)) / of_nat (total_days df))
                    (100 * of_nat (length (days_with_no_demark df)) / of_nat (total_days df))
                    (100 * of_nat (length (days_with_demark df)) / of_nat (total_days df))
                    (100 * of_nat (count_rebound df) / of_nat (count_points df))
                    (100 * of_nat (count_no_rebound df) / of_nat (count_points df))
                    (100 * of_nat (count_perfect_rebound df) / of_nat (count_points df))
                    (100 * of_nat (count_deep_rebound df) / of_nat (count_points df))
                    (100 * of_nat (count_perfect_rebound df) / of_nat (count_rebound df))
                    (map Pt_deep_rebound (deep_rows df))).
  { intros g H. pose proof (general_stats_inr df g H) as N. split; [ exact N | ].
    destruct (count_rebound_table df N) as (T & P).
    unfold general_stats, pct_days_no_demark, pct_days_with_demark, rows_deep_rebound in H.
    rewrite column_at_index in H. rewrite !pct100_ok in H by assumption.
    inversion H. reflexivity. }
  split; [ split | split ].
  - intros (D & N). destruct (days_with_demark_stats_returns df D) as (st & ->).
    cbn [bind ret Monad_either].
    destruct (general_stats df) as [ e | g ] eqn:E; [ | exists g; reflexivity ].
    exfalso. destruct (count_rebound_table df N) as (T & P).
    unfold general_stats, pct_days_no_demark, pct_days_with_demark, rows_deep_rebound in E.
    rewrite column_at_index in E. rewrite !pct100_ok in E by assumption. discriminate.
  - intros (g & H). cbn [bind ret Monad_either] in H.
    destruct (days_with_demark_stats df) as [ e | st ] eqn:E; [ discriminate | ].
    split; [ | apply (V g H) ].
    intros Z. unfold days_with_demark_stats in E. rewrite Z in E. discriminate.
  - intros e H. cbn [bind ret Monad_either] in H.
    destruct (days_with_demark_stats df) as [ e' | st ] eqn:E.
    + inversion H; subst e'. eapply days_with_demark_stats_inl. exact E.
    + eapply general_stats_inl. exact H.
  - intros g H. cbn [bind ret Monad_either] in H.
    destruct (days_with_demark_stats df) as [ e' | st ] eqn:E; [ discriminate | ].
    destruct (V g H) as (N & ->). destruct (count_rebound_table df N) as (T & P).
    cbn [General.pct_rebound General.pct_no_rebound General.pct_perfect_rebound
         General.pct_deep_rebound General.pct_days_with_rebound
         General.pct_days_with_demark General.pct_perfect_rebound_if_rebound
         General.pt_deep_rebound].
    split; [ reflexivity | ].
    split; [ apply share_mono; [ unfold count_rebound; lia | exact P ] | ].
    split; [ apply share_mono; [ unfold count_rebound; lia | exact P ] | ].
    split; [ apply share2; [ reflexivity | exact P ] | ].
    split; [ | split; [ | reflexivity ] ].
    + apply share_mono; [ | exact T ].
      apply NoDup_incl_length; [ apply NoDup_nodup | ].
      intros i Hi. apply In_days_with_demark. auto.
    + apply pct_bounds; [ unfold count_rebound; lia | exact N ].
Qed.

Lemma level_stats_inl (df : dataframe) (tl : touches) (point : string) (e : exn) :
  level_stats df tl point = inl e -> e = ZeroDivisionError.
Proof.
  unfold level_stats, count_point, rows_deep_rebound. cbn beta iota zeta.
  rewrite column_at_if_index. intros H.
  failed H; eapply pct100_inl; eassumption.
Qed.

Lemma level_stats_inr (df : dataframe) (tl : touches) (point : string) (st : Level.t) :
  level_stats df tl point = inr st ->
  count_perfect_rebound df <> 0%nat /\ count_deep_rebound df <> 0%nat /\
  count_no_rebound df <> 0%nat.
Proof.
  unfold level_stats, count_point. cbn beta iota zeta. intros H. returned H.
  repeat match goal with
         | E : pct100 _ _ = inr _ |- _ => apply pct100_inv in E; destruct E as (E & _)
         end.
  auto.
Qed.

Lemma no_rebound_stats_inl (df : dataframe) (tl : touches) (e : exn) :
  no_rebound_stats df tl = inl e -> e = ZeroDivisionError.
Proof.
  unfold no_rebound_stats. rewrite !column_at_no_rebound.
  cbn [bind ret Monad_either]. cbn zeta. intros H.
  failed H; eapply pct100_inl; eassumption.
Qed.

Lemma no_rebound_stats_returns (df : dataframe) (tl : touches) :
  count_no_rebound df <> 0%nat -> exists st, no_rebound_stats df tl = inr st.
Proof.
  intros N. unfold no_rebound_stats. rewrite !column_at_no_rebound.
  cbn [bind ret Monad_either]. cbn zeta. fold (count_no_rebound df).
  rewrite !pct100_ok by exact N. eexists. reflexivity.
Qed.

(** The distances of the deep rebounds are numbers. *)
Lemma deep_values_numeric (df : dataframe) :
  exists obs, map Pt_deep_rebound (deep_rows df) = map Some obs.
Proof.
  apply cells_all_some. intros I. apply in_map_iff in I.
  destruct I as (r & E & Hr). unfold deep_rows, select in Hr.
  apply filter_In in Hr. destruct Hr as (_ & Hr). rewrite E in Hr. discriminate.
Qed.

Lemma length_deep_rows (df : dataframe) : length (deep_rows df) = count_deep_rebound df.
Proof.
  unfold count_deep_rebound, rows_deep_rebound. rewrite length_index_where. reflexivity.
Qed.

Lemma deep_max (df : dataframe) :
  count_deep_rebound df <> 0%nat ->
  exists m, Py.max (map Pt_deep_rebound (deep_rows df)) = inr (Some m).
Proof.
  intros N. destruct (deep_values_numeric df) as (obs & E). rewrite E.
  destruct (max_numeric obs) as (m & Hm & _).
  - intros ->. apply N. rewrite <- length_deep_rows.
    rewrite <- (length_map Pt_deep_rebound), E. reflexivity.
  - exists m. exact Hm.
Qed.

Lemma calc_cpf_default_outcome (data : list number) (bin_max : Z) :
  (data = [] -> calc_cpf_default data bin_max = inl ZeroDivisionError) /\
  (data <> [] -> exists c, calc_cpf_default data bin_max = inr c).
Proof.
  unfold calc_cpf_default. split.
  - intros ->. apply calc_cpf_empty. discriminate.
  - intros N. destruct (range_total 2 bin_max 2) as (r & Hr); [ discriminate | ].
    eexists. apply calc_cpf_returns; eassumption.
Qed.

Lemma deep_rebound_level_outcome (tl : touches) (l : list number) (m : Q) :
  Py.max (pt_deep_rebound tl) = inr (Some m) ->
  pt_deep_rebound tl <> [] ->
  (l = [] -> deep_rebound_level tl l = inl ZeroDivisionError) /\
  (l <> [] -> exists d, deep_rebound_level tl l = inr d).
Proof.
  intros Hm N. unfold deep_rebound_level. rewrite Hm.
  cbn [bind ret Monad_either int_of_number].
  destruct (calc_cpf_default_outcome l (Py.int m)) as (A & B). split.
  - intros E. rewrite (A E). reflexivity.
  - intros E. destruct (B E) as (c & ->). cbn [bind ret Monad_either].
    rewrite pct100_ok by (destruct (pt_deep_rebound tl); [ contradiction | discriminate ]).
    eexists. reflexivity.
Qed.

Lemma deep_rebound_stats_outcome (df : dataframe) :
  count_deep_rebound df <> 0%nat ->
  (deep_distances_at df "PP" <> [] /\ deep_distances_at df "S" <> []
   /\ deep_distances_at df "R" <> [] ->
   exists d, deep_rebound_stats (touch_values df) = inr d) /\
  (forall d, deep_rebound_stats (touch_values df) = inr d ->
             deep_distances_at df "PP" <> [] /\ deep_distances_at df "S" <> []
             /\ deep_distances_at df "R" <> []) /\
  (forall e, deep_rebound_stats (touch_values df) = inl e -> e = ZeroDivisionError).
Proof.
  intros N. destruct (deep_max df N) as (m & Hm).
  assert (Ne : pt_deep_rebound (touch_values df) <> []).
  { cbn [touch_values pt_deep_rebound]. intros E. apply N.
    rewrite <- length_deep_rows, <- (length_map Pt_deep_rebound), E. reflexivity. }
  assert (Ep : pt_deep_rebound_pivot (touch_values df) = deep_distances_at df "PP")
    by reflexivity.
  assert (Es : pt_deep_rebound_support (touch_values df) = deep_distances_at df "S")
    by reflexivity.
  assert (Er : pt_deep_rebound_resistance (touch_values df) = deep_distances_at df "R")
    by reflexivity.
  change (map Pt_deep_rebound (deep_rows df))
    with (pt_deep_rebound (touch_values df)) in Hm.
  remember (touch_values df) as tl eqn:Etl. clear Etl.
  assert (L := fun l => deep_rebound_level_outcome tl l m Hm Ne).
  destruct (calc_cpf_default_outcome (pt_deep_rebound tl) (Py.int m)) as (_ & G).
  destruct (G Ne) as (c & Hc).
  unfold deep_rebound_stats. rewrite Hm.
  cbn [bind ret Monad_either int_of_number]. rewrite Hc.
  cbn [bind ret Monad_either]. rewrite Ep, Es, Er.
  destruct (L (deep_distances_at df "PP")) as (Ap & Bp).
  destruct (L (deep_distances_at df "S")) as (As & Bs).
  destruct (L (deep_distances_at df "R")) as (Ar & Br).
  destruct (deep_distances_at df "PP") as [ | ap lp ].
  { rewrite (Ap eq_refl). cbn [bind ret Monad_either].
    split; [ intros (C & _); contradiction | split; [ discriminate | ] ].
    intros e E. inversion E. reflexivity. }
  destruct Bp as (dp & ->); [ discriminate | ]. cbn [bind ret Monad_either].
  destruct (deep_distances_at df "S") as [ | as' ls ].
  { rewrite (As eq_refl). cbn [bind ret Monad_either].
    split; [ intros (_ & C & _); contradiction | split; [ discriminate | ] ].
    intros e E. inversion E. reflexivity. }
  destruct Bs as (ds & ->); [ discriminate | ]. cbn [bind ret Monad_either].
  destruct (deep_distances_at df "R") as [ | ar lr ].
  { rewrite (Ar eq_refl). cbn [bind ret Monad_either].
    split; [ intros (_ & _ & C); contradiction | split; [ discriminate | ] ].
    intros e E. inversion E. reflexivity. }
  destruct Br as (dr & ->); [ discriminate | ]. cbn [bind ret Monad_either].
  split; [ intros _; eexists; reflexivity | split; [ | discriminate ] ].
  intros d _. repeat split; discriminate.
Qed.

Lemma deep_count_at (df : dataframe) (point : string) :
  count_str (point_deep_rebound (touch_values df)) point
  = length (deep_distances_at df point).
Proof.
  cbn [touch_values point_deep_rebound]. unfold deep_distances_at.
  rewrite count_str_map, length_map. reflexivity.
Qed.

Lemma deep_at_nonempty (df : dataframe) (point : string) :
  deep_distances_at df point <> [] ->
  count_deep_rebound df <> 0%nat /\ count_total (touch_values df) point <> 0%nat.
Proof.
  intros N.
  assert (P : length (deep_distances_at df point) <> 0%nat)
    by (destruct (deep_distances_at df point); [ contradiction | discriminate ]).
  split.
  - rewrite <- length_deep_rows. intros Z. apply P.
    unfold deep_distances_at. rewrite length_map.
    assert (B := filter_length_le
                   (fun r => cell_eq_str (No_perfect_rebound r) point) (deep_rows df)).
    lia.
  - unfold count_total, count_point. cbn beta iota zeta.
    rewrite deep_count_at. lia.
Qed.

(** X9.  [__analyze_pivot_points] completes exactly when the table has a
    perfect rebound, a failed rebound, and a deep rebound at each of the
    three levels PP, S and R; in every other case it stops with a
    [ZeroDivisionError], never with another exception. *)
Theorem analyze_pivot_points_completes (df : dataframe) :
  (count_perfect_rebound df <> 0%nat /\ count_no_rebound df <> 0%nat /\
   deep_distances_at df "PP" <> [] /\ deep_distances_at df "S" <> [] /\
   deep_distances_at df "R" <> []
   <-> exists st, analyze_pivot_points df = inr st) /\
  (forall e, analyze_pivot_points df = inl e -> e = ZeroDivisionError).
Proof.
  split; [ split | ].
  - intros (Hp & Hn & Dp & Ds & Dr).
    destruct (deep_at_nonempty df "PP" Dp) as (Hd & Tp).
    destruct (deep_at_nonempty df "S" Ds) as (_ & Ts).
    destruct (deep_at_nonempty df "R" Dr) as (_ & Tr).
    unfold analyze_pivot_points. rewrite touch_lists_eq. cbn [bind ret Monad_either].
    destruct (days_with_demark_stats_returns df) as (d & ->).
    { intros E. assert (I : In (hd 0%nat (rows_no_rebound df)) (days_with_demark df)).
      { apply In_days_with_demark. right.
        unfold count_no_rebound in Hn.
        destruct (rows_no_rebound df); [ contradiction | left; reflexivity ]. }
      rewrite E in I. destruct I. }
    cbn [bind ret Monad_either].
    destruct (general_stats_returns df) as (g & ->);
      [ unfold count_rebound; lia | ].
    cbn [bind ret Monad_either].
    rewrite !level_stats_eq by assumption. cbn [bind ret Monad_either].
    destruct (deep_rebound_stats_outcome df Hd) as (A & _).
    destruct A as (ds & ->); [ auto | ]. cbn [bind ret Monad_either].
    destruct (no_rebound_stats_returns df (touch_values df) Hn) as (nr & ->).
    eexists. reflexivity.
  - intros (st & H). unfold analyze_pivot_points in H.
    rewrite touch_lists_eq in H. returned H.
    match goal with
    | L : level_stats df _ "PP" = inr _, D : deep_rebound_stats _ = inr _ |- _ =>
        apply level_stats_inr in L; destruct L as (Hp & Hd & Hn);
        apply (deep_rebound_stats_outcome df Hd) in D
    end.
    tauto.
  - intros e H. unfold analyze_pivot_points in H. rewrite touch_lists_eq in H.
    failed H.
    + eapply days_with_demark_stats_inl; eassumption.
    + eapply general_stats_inl; eassumption.
    + eapply level_stats_inl; eassumption.
    + eapply level_stats_inl; eassumption.
    + eapply level_stats_inl; eassumption.
    + match goal with
      | L : level_stats df _ "PP" = inr _, D : deep_rebound_stats _ = inl _ |- _ =>
          apply level_stats_inr in L; destruct L as (_ & Hd & _);
          apply (deep_rebound_stats_outcome df Hd) in D; exact D
      end.
    + eapply no_rebound_stats_inl; eassumption.
Qed.

Lemma calc_cpf_inr (data : list number) (bin_max bin_span : Z) (c : cpf_result Z) :
  calc_cpf data bin_max bin_span = inr c ->
  data <> [] /\
  exists r,
    Py.range bin_span bin_max bin_span = inr r /\
    c = mk_cpf (map (fun t => 100 * of_nat (count_le data t) / of_nat (length data))
                    (r ++ [bin_max]))
               (r ++ [bin_max]).
Proof.
  intros H.
  assert (W : bin_span <> 0%Z).
  { intros ->. discriminate H. }
  assert (N : data <> []).
  { intros ->. rewrite calc_cpf_empty in H by exact W. discriminate. }
  split; [ exact N | ].
  destruct (range_total bin_span bin_max bin_span W) as (r & Hr).
  exists r. split; [ exact Hr | ].
  rewrite (calc_cpf_returns data bin_max bin_span r N Hr) in H.
  inversion H. reflexivity.
Qed.

(** Two CPFs on the same edge and width have the same thresholds, and the
    table of a CPF lists exactly its thresholds. *)
Lemma calc_cpf_same_x (d d' : list number) (bin_max bin_span : Z) (c c' : cpf_result Z) :
  calc_cpf d bin_max bin_span = inr c -> calc_cpf d' bin_max bin_span = inr c' ->
  x c = x c' /\ length (cpf c) = length (x c) /\ length (cpf c') = length (x c).
Proof.
  intros H H'. apply calc_cpf_inr in H, H'.
  destruct H as (_ & r & Hr & ->). destruct H' as (_ & r' & Hr' & ->).
  rewrite Hr in Hr'. inversion Hr'; subst r'. cbn [x cpf].
  rewrite !length_map. auto.
Qed.

Lemma combine_fst {A B : Type} (l : list A) (k : list B) :
  length k = length l -> map fst (combine l k) = l.
Proof.
  revert k. induction l as [ | a l IH ]; intros [ | b k ] H; simpl in *;
    try reflexivity; try discriminate.
  f_equal. apply IH. lia.
Qed.

Lemma deep_rebound_level_inr (tl : touches) (l : list number) (d : Deep.t) :
  deep_rebound_level tl l = inr d ->
  exists m bin_max c,
    Py.max (pt_deep_rebound tl) = inr m /\
    int_of_number m = inr bin_max /\
    calc_cpf l bin_max 2 = inr c /\
    Deep.pct_of_deep_rebounds d
    = 100 * of_nat (length l) / of_nat (length (pt_deep_rebound tl)) /\
    Deep.mean d = Py.mean l /\
    Deep.table d = cpf_table c.
Proof.
  unfold deep_rebound_level, calc_cpf_default. intros H.
  cbn [bind ret Monad_either] in H.
  destruct (Py.max (pt_deep_rebound tl)) as [ | m ] eqn:Em; [ discriminate | ].
  cbn [bind ret Monad_either] in H.
  destruct (int_of_number m) as [ | bin_max ] eqn:Ei; [ discriminate | ].
  cbn [bind ret Monad_either] in H.
  destruct (calc_cpf l bin_max 2) as [ | c ] eqn:Ec; [ discriminate | ].
  cbn [bind ret Monad_either] in H.
  destruct (pct100 (length l) (length (pt_deep_rebound tl))) as [ | p ] eqn:E;
    [ discriminate | ].
  apply pct100_inv in E. destruct E as (_ & ->).
  inversion H; subst d; clear H.
  exists m, bin_max, c. repeat split; try reflexivity; assumption.
Qed.

(** X10.  When the pivot-point analysis completes, its groups agree: each
    level's '% of deep rebounds' in the deep-rebound table equals that
    level's 'pct ... deep rebound' share; the mean of a level is the mean of
    the distances stored in the level's group; and the four deep-rebound
    CPF rows (Demark, pivot, support, resistance) carry the same thresholds,
    so they line up as the columns of one table. *)
Theorem pivot_groups_agree (df : dataframe) (st : PivotPoints.t) :
  analyze_pivot_points df = inr st ->
  let deep := PivotPoints.deep st in
  Deep.pct_of_deep_rebounds (DeepRebound.Pivot deep)
  == Level.pct_level_deep_rebound (PivotPoints.pivot st) /\
  Deep.pct_of_deep_rebounds (DeepRebound.Support deep)
  == Level.pct_level_deep_rebound (PivotPoints.support st) /\
  Deep.pct_of_deep_rebounds (DeepRebound.Resistance deep)
  == Level.pct_level_deep_rebound (PivotPoints.resistance st) /\
  Deep.mean (DeepRebound.Pivot deep) = Py.mean (Level.pt_deep_rebound (PivotPoints.pivot st)) /\
  Deep.mean (DeepRebound.Support deep)
  = Py.mean (Level.pt_deep_rebound (PivotPoints.support st)) /\
  Deep.mean (DeepRebound.Resistance deep)
  = Py.mean (Level.pt_deep_rebound (PivotPoints.resistance st)) /\
  Deep.mean (DeepRebound.General deep)
  = Py.mean (General.pt_deep_rebound (PivotPoints.general st)) /\
  map fst (Deep.table (DeepRebound.Pivot deep))
  = map fst (Deep.table (DeepRebound.General deep)) /\
  map fst (Deep.table (DeepRebound.Support deep))
  = map fst (Deep.table (DeepRebound.General deep)) /\
  map fst (Deep.table (DeepRebound.Resistance deep))
  = map fst (Deep.table (DeepRebound.General deep)).
Proof.
  intros H. unfold analyze_pivot_points in H. rewrite touch_lists_eq in H.
  cbn [bind ret Monad_either] in H.
  destruct (days_with_demark_stats df) as [ | days ]; [ discriminate | ].
  cbn [bind ret Monad_either] in H.
  destruct (general_stats df) as [ | g ] eqn:Eg; [ discriminate | ].
  cbn [bind ret Monad_either] in H.
  destruct (level_stats df (touch_values df) "PP") as [ | pv ] eqn:Ep; [ discriminate | ].
  cbn [bind ret Monad_either] in H.
  destruct (level_stats df (touch_values df) "S") as [ | su ] eqn:Es; [ discriminate | ].
  cbn [bind ret Monad_either] in H.
  destruct (level_stats df (touch_values df) "R") as [ | re ] eqn:Er; [ discriminate | ].
  cbn [bind ret Monad_either] in H.
  destruct (deep_rebound_stats (touch_values df)) as [ | ds ] eqn:Ed; [ discriminate | ].
  cbn [bind ret Monad_either] in H.
  destruct (no_rebound_stats df (touch_values df)) as [ | nr ]; [ discriminate | ].
  inversion H; subst st; clear H.
  cbn [PivotPoints.deep PivotPoints.pivot PivotPoints.support PivotPoints.resistance
       PivotPoints.general]. cbn zeta.
  (* the level groups *)
  assert (Np := level_stats_inr _ _ _ _ Ep). destruct Np as (Hp & Hd & Hn).
  assert (Tot : forall point st', level_stats df (touch_values df) point = inr st' ->
                                  count_total (touch_values df) point <> 0%nat).
  { intros point st' E. unfold level_stats, count_total, count_point in *.
    cbn beta iota zeta in E |- *. returned E.
    match goal with
    | Q : pct100 ?a (?b + ?c + ?d) = inr _ |- _ => apply pct100_inv in Q; apply Q
    end. }
  rewrite (level_stats_eq df _ "PP" Hp Hd Hn (Tot _ _ Ep)) in Ep.
  rewrite (level_stats_eq df _ "S" Hp Hd Hn (Tot _ _ Es)) in Es.
  rewrite (level_stats_eq df _ "R" Hp Hd Hn (Tot _ _ Er)) in Er.
  inversion Ep; subst pv; clear Ep. inversion Es; subst su; clear Es.
  inversion Er; subst re; clear Er.
  cbn [Level.pct_level_deep_rebound Level.pt_deep_rebound].
  (* the general group *)
  assert (Gd : General.pt_deep_rebound g = map Pt_deep_rebound (deep_rows df)).
  { unfold general_stats, rows_deep_rebound in Eg. rewrite column_at_index in Eg.
    returned Eg. inversion Eg. reflexivity. }
  rewrite Gd.
  (* the deep-rebound section *)
  unfold deep_rebound_stats, calc_cpf_default in Ed. cbn [bind ret Monad_either] in Ed.
  destruct (Py.max (pt_deep_rebound (touch_values df))) as [ | m ] eqn:Em;
    [ discriminate | ].
  cbn [bind ret Monad_either] in Ed.
  destruct (int_of_number m) as [ | bin_max ] eqn:Ei; [ discriminate | ].
  cbn [bind ret Monad_either] in Ed.
  destruct (calc_cpf (pt_deep_rebound (touch_values df)) bin_max 2) as [ | c ] eqn:Ec;
    [ discriminate | ].
  cbn [bind ret Monad_either] in Ed.
  destruct (deep_rebound_level (touch_values df) (pt_deep_rebound_pivot (touch_values df)))
    as [ | dp ] eqn:Dp; [ discriminate | ].
  cbn [bind ret Monad_either] in Ed.
  destruct (deep_rebound_level (touch_values df) (pt_deep_rebound_support (touch_values df)))
    as [ | dsu ] eqn:Ds; [ discriminate | ].
  cbn [bind ret Monad_either] in Ed.
  destruct (deep_rebound_level (touch_values df)
                               (pt_deep_rebound_resistance (touch_values df)))
    as [ | dr ] eqn:Dr; [ discriminate | ].
  inversion Ed; subst ds; clear Ed.
  cbn [DeepRebound.Pivot DeepRebound.Support DeepRebound.Resistance DeepRebound.General
       Deep.mean Deep.table].
  apply deep_rebound_level_inr in Dp, Ds, Dr.
  destruct Dp as (m1 & b1 & c1 & M1 & I1 & C1 & P1 & A1 & T1).
  destruct Ds as (m2 & b2 & c2 & M2 & I2 & C2 & P2 & A2 & T2).
  destruct Dr as (m3 & b3 & c3 & M3 & I3 & C3 & P3 & A3 & T3).
  rewrite Em in M1, M2, M3. inversion M1; subst m1. inversion M2; subst m2.
  inversion M3; subst m3. rewrite Ei in I1, I2, I3.
  inversion I1; subst b1. inversion I2; subst b2. inversion I3; subst b3.
  rewrite P1, P2, P3, A1, A2, A3, T1, T2, T3.
  assert (Ld : length (pt_deep_rebound (touch_values df)) = count_deep_rebound df).
  { cbn [touch_values pt_deep_rebound]. rewrite length_map. apply length_deep_rows. }
  rewrite Ld, !count_str_map.
  change (pt_deep_rebound_pivot (touch_values df)) with (deep_distances_at df "PP") in *.
  change (pt_deep_rebound_support (touch_values df)) with (deep_distances_at df "S") in *.
  change (pt_deep_rebound_resistance (touch_values df))
    with (deep_distances_at df "R") in *.
  assert (Lv : forall point,
             length (deep_distances_at df point)
             = length (filter (fun r => cell_eq_str (No_perfect_rebound r) point)
                              (deep_rows df)))
    by (intros point; apply length_map).
  rewrite !Lv.
  destruct (calc_cpf_same_x _ _ _ _ _ _ Ec C1) as (X1 & L0 & L1).
  destruct (calc_cpf_same_x _ _ _ _ _ _ Ec C2) as (X2 & _ & L2).
  destruct (calc_cpf_same_x _ _ _ _ _ _ Ec C3) as (X3 & _ & L3).
  unfold cpf_table. rewrite <- X1, <- X2, <- X3.
  rewrite !combine_fst by assumption.
  repeat split; reflexivity.
Qed.

Lemma pivot_groups_agree_witness :
  exists st,
    analyze_pivot_points full_pivot_table = inr st /\
    let deep := PivotPoints.deep st in
    Deep.pct_of_deep_rebounds (DeepRebound.Pivot deep)
    == Level.pct_level_deep_rebound (PivotPoints.pivot st) /\
    Deep.pct_of_deep_rebounds (DeepRebound.Support deep)
    == Level.pct_level_deep_rebound (PivotPoints.support st) /\
    Deep.pct_of_deep_rebounds (DeepRebound.Resistance deep)
    == Level.pct_level_deep_rebound (PivotPoints.resistance st) /\
    Deep.mean (DeepRebound.Pivot deep)
    = Py.mean (Level.pt_deep_rebound (PivotPoints.pivot st)) /\
    Deep.mean (DeepRebound.Support deep)
    = Py.mean (Level.pt_deep_rebound (PivotPoints.support st)) /\
    Deep.mean (DeepRebound.Resistance deep)
    = Py.mean (Level.pt_deep_rebound (PivotPoints.resistance st)) /\
    Deep.mean (DeepRebound.General deep)
    = Py.mean (General.pt_deep_rebound (PivotPoints.general st)) /\
    map fst (Deep.table (DeepRebound.Pivot deep))
    = map fst (Deep.table (DeepRebound.General deep)) /\
    map fst (Deep.table (DeepRebound.Support deep))
    = map fst (Deep.table (DeepRebound.General deep)) /\
    map fst (Deep.table (DeepRebound.Resistance deep))
    = map fst (Deep.table (DeepRebound.General deep)).
Proof.
  eexists. split; [ vm_compute; reflexivity | ].
  apply (pivot_groups_agree full_pivot_table). vm_compute. reflexivity.
Defined.

(* ===================================================================== *)
(** ** When the trend-reversal analyzer completes *)
(* ===================================================================== *)

Lemma invariant_select (df : dataframe) (p : row -> bool) :
  reversal_invariant df -> reversal_invariant (select p df).
Proof.
  intros I r Hr. apply I. unfold select in Hr. apply filter_In in Hr. apply Hr.
Qed.

Lemma new_trend_rows (d : dataframe) :
  reversal_invariant d ->
  select (fun r => notnull (New_trend r)) d = then_reversal d.
Proof.
  intros I. unfold then_reversal, select. apply filter_ext_in. intros r Hr. apply I, Hr.
Qed.

Lemma hours_numeric (d : dataframe) :
  reversal_invariant d ->
  exists obs, hours_of_new_trend d = map Some obs /\ length obs = length (then_reversal d).
Proof.
  intros I. unfold hours_of_new_trend. rewrite (new_trend_rows d I).
  destruct (cells_all_some (map Hour_trend_change (then_reversal d))) as (obs & E).
  - intros H. apply in_map_iff in H. destruct H as (r & E & Hr).
    unfold then_reversal, select in Hr. apply filter_In in Hr.
    destruct Hr as (_ & Hr). rewrite E in Hr. discriminate.
  - exists obs. split; [ exact E | ].
    rewrite <- (length_map Some obs), <- E. apply length_map.
Qed.

Lemma hours_cpf_outcome (d : dataframe) :
  reversal_invariant d ->
  (then_reversal d = [] -> calc_cpf_time (hours_of_new_trend d) = inl ZeroDivisionError) /\
  (then_reversal d <> [] -> exists c, calc_cpf_time (hours_of_new_trend d) = inr c).
Proof.
  intros I. destruct (hours_numeric d I) as (obs & -> & L). split.
  - intros E. rewrite E in L. destruct obs; [ reflexivity | discriminate ].
  - intros N. eexists. apply calc_cpf_time_returns.
    intros ->. apply N. destruct (then_reversal d); [ reflexivity | discriminate ].
Qed.

Lemma hours_cpf_inl (d : dataframe) (e : exn) :
  reversal_invariant d ->
  calc_cpf_time (hours_of_new_trend d) = inl e -> e = ZeroDivisionError.
Proof.
  intros I H. destruct (hours_cpf_outcome d I) as (A & B).
  destruct (then_reversal d) as [ | r l ].
  - rewrite A in H by reflexivity. inversion H. reflexivity.
  - destruct B as (c & E); [ discriminate | ]. rewrite E in H. discriminate.
Qed.

Lemma hours_cpf_null (d : dataframe) :
  In None (hours_of_new_trend d) ->
  calc_cpf_time (hours_of_new_trend d) = inl TypeError.
Proof.
  intros H. unfold calc_cpf_time, x_cpf_time. cbn [mapM].
  rewrite (sum_le_time_null _ _ H). reflexivity.
Qed.

Lemma nonempty_length {A : Type} (l : list A) : l <> [] <-> length l <> 0%nat.
Proof.
  destruct l; simpl; split; intros H; try congruence; discriminate.
Qed.

Lemma then_reversal_class (d : dataframe) : then_reversal d <> [] -> d <> [].
Proof.
  intros H ->. apply H. reflexivity.
Qed.

Lemma trend_day_returns (d : dataframe) :
  reversal_invariant d -> then_reversal d <> [] -> exists t, trend_day d = inr t.
Proof.
  intros I N. unfold trend_day, pct_with_reversal. cbn zeta.
  rewrite !pct100_ok
    by (apply nonempty_length; auto using then_reversal_class).
  cbn [bind ret Monad_either].
  destruct (hours_cpf_outcome d I) as (_ & B). destruct (B N) as (c & ->).
  eexists. reflexivity.
Qed.

Lemma trend_day_inl (d : dataframe) (e : exn) :
  reversal_invariant d -> trend_day d = inl e -> e = ZeroDivisionError.
Proof.
  intros I H. unfold trend_day, pct_with_reversal in H. cbn zeta in H.
  failed H; try (eapply pct100_inl; eassumption).
  eapply hours_cpf_inl; eassumption.
Qed.

Lemma trend_day_inr (d : dataframe) (t : TrendDay.t) :
  trend_day d = inr t -> then_reversal d <> [].
Proof.
  intros H. unfold trend_day in H. cbn zeta in H. returned H.
  match goal with
  | E : pct100 _ (length (then_reversal d)) = inr _ |- _ =>
      apply pct100_inv in E; destruct E as (E & _); apply nonempty_length; exact E
  end.
Qed.

Lemma range_with_reversal_count (df : dataframe) :
  reversal_invariant df ->
  length (range_of (fun r => notnull (New_trend r)) (es_range_df df))
  = length (es_range_then_reversal_df df).
Proof.
  intros I. unfold range_of. rewrite length_map.
  rewrite (new_trend_rows (es_range_df df)); [ reflexivity | ].
  apply invariant_select. exact I.
Qed.

Lemma range_then_reversal_returns (df : dataframe) :
  reversal_invariant df -> es_range_then_reversal_df df <> [] ->
  exists t, range_then_reversal df = inr t.
Proof.
  intros I N. unfold range_then_reversal. cbn zeta.
  rewrite (range_with_reversal_count df I).
  rewrite !pct100_ok by (apply nonempty_length; exact N).
  eexists. reflexivity.
Qed.

Lemma range_then_reversal_inl (df : dataframe) (e : exn) :
  range_then_reversal df = inl e -> e = ZeroDivisionError.
Proof.
  intros H. unfold range_then_reversal in H. cbn zeta in H.
  failed H; eapply pct100_inl; eassumption.
Qed.

Lemma range_day_returns (df : dataframe) :
  reversal_invariant df ->
  es_downtrend_then_reversal_df df <> [] -> es_range_then_reversal_df df <> [] ->
  exists t, range_day df = inr t.
Proof.
  intros I Nd Nr. unfold range_day, pct_with_reversal. cbn zeta.
  rewrite !pct100_ok
    by (apply nonempty_length; auto using then_reversal_class).
  cbn [bind ret Monad_either].
  destruct (hours_cpf_outcome (es_range_df df)) as (_ & B);
    [ apply invariant_select; exact I | ].
  destruct (B Nr) as (c & ->). eexists. reflexivity.
Qed.

Lemma range_day_inl (df : dataframe) (e : exn) :
  reversal_invariant df -> range_day df = inl e -> e = ZeroDivisionError.
Proof.
  intros I H. unfold range_day, pct_with_reversal in H. cbn zeta in H.
  failed H; try (eapply pct100_inl; eassumption).
  eapply hours_cpf_inl; [ | eassumption ]. apply invariant_select. exact I.
Qed.

Lemma range_day_inr (df : dataframe) (t : TrendDay.t) :
  range_day df = inr t -> es_range_then_reversal_df df <> [].
Proof.
  intros H. unfold range_day in H. cbn zeta in H. returned H.
  match goal with
  | E : pct100 _ (length (es_range_then_reversal_df df)) = inr _ |- _ =>
      apply pct100_inv in E; destruct E as (E & _); apply nonempty_length; exact E
  end.
Qed.

Lemma reversal_days_nonempty (df : dataframe) (p : row -> bool) :
  then_reversal (select p df) <> [] -> count_days_with_reversal df <> 0%nat.
Proof.
  intros N. apply nonempty_length in N.
  assert (L : (length (then_reversal (select p df))
               <= length (es_price_with_reversal_df df))%nat).
  { unfold then_reversal, es_price_with_reversal_df, select.
    rewrite filter_filter. apply filter_length_mono.
    intros r H. apply andb_true_iff in H. apply H. }
  unfold count_days_with_reversal. lia.
Qed.

Lemma each_trend_outcome (df : dataframe) :
  reversal_invariant df ->
  (es_uptrend_then_reversal_df df <> [] /\ es_downtrend_then_reversal_df df <> []
   /\ es_range_then_reversal_df df <> []
   <-> exists st, analyze_reversal_each_trend df = inr st) /\
  (forall e, analyze_reversal_each_trend df = inl e -> e = ZeroDivisionError).
Proof.
  intros I.
  assert (Iu : reversal_invariant (es_uptrend_df df))
    by (apply invariant_select; exact I).
  assert (Id : reversal_invariant (es_downtrend_df df))
    by (apply invariant_select; exact I).
  assert (Ir : reversal_invariant (es_range_df df))
    by (apply invariant_select; exact I).
  split; [ split | ].
  - intros (Nu & Nd & Nr).
    assert (C : count_days_with_reversal df <> 0%nat)
      by (eapply reversal_days_nonempty; exact Nu).
    unfold analyze_reversal_each_trend.
    destruct (hours_cpf_outcome df I) as (_ & B). destruct B as (c & ->).
    { intros E. apply C. unfold count_days_with_reversal, es_price_with_reversal_df.
      unfold then_reversal in E. rewrite E. reflexivity. }
    cbn [bind ret Monad_either]. unfold pct_with_reversal.
    rewrite !pct100_ok
      by (try exact C; apply nonempty_length; auto using then_reversal_class).
    cbn [bind ret Monad_either].
    destruct (trend_day_returns _ Iu Nu) as (tu & ->).
    destruct (trend_day_returns _ Id Nd) as (td & ->).
    destruct (range_then_reversal_returns df I Nr) as (rr & ->).
    destruct (range_day_returns df I Nd Nr) as (rd & ->).
    eexists. reflexivity.
  - intros (st & H). unfold analyze_reversal_each_trend in H. returned H.
    repeat match goal with
           | E : trend_day _ = inr _ |- _ => apply trend_day_inr in E
           | E : range_day _ = inr _ |- _ => apply range_day_inr in E
           end.
    auto.
  - intros e H. unfold analyze_reversal_each_trend, pct_with_reversal in H.
    failed H; try (eapply pct100_inl; eassumption).
    + eapply hours_cpf_inl; [ | eassumption ]; assumption.
    + eapply trend_day_inl; [ | eassumption ]; assumption.
    + eapply trend_day_inl; [ | eassumption ]; assumption.
    + eapply range_then_reversal_inl; eassumption.
    + eapply range_day_inl; [ | eassumption ]; assumption.
Qed.

(** X11.  [__analyze_reversal_each_trend]: a row with a new trend but no
    reversal hour makes the very first CPF raise a [TypeError].  On a table
    that keeps 'New trend is non-null iff Hour trend change is non-null'
    the analyzer completes exactly when each of the three trend classes has
    at least one session with a reversal, and otherwise stops with a
    [ZeroDivisionError]. *)
Theorem analyze_reversal_each_trend_completes (df : dataframe) :
  (In None (hours_of_new_trend df) ->
   analyze_reversal_each_trend df = inl TypeError) /\
  (reversal_invariant df ->
   (es_uptrend_then_reversal_df df <> [] /\ es_downtrend_then_reversal_df df <> []
    /\ es_range_then_reversal_df df <> []
    <-> exists st, analyze_reversal_each_trend df = inr st) /\
   (forall e, analyze_reversal_each_trend df = inl e -> e = ZeroDivisionError)).
Proof.
  split.
  - intros H. unfold analyze_reversal_each_trend.
    rewrite (hours_cpf_null df H). reflexivity.
  - apply each_trend_outcome.
Qed.






(* ===================================================================== *)
(** ** Shares of the trend-reversal analyzer *)
(* ===================================================================== *)

(** Cohorts that exclude one another inside a larger one. *)
Lemma filter4_le {A : Type} (p1 p2 p3 p4 q : A -> bool) (l : list A) :
  (forall a, (Nat.b2n (p1 a) + Nat.b2n (p2 a) + Nat.b2n (p3 a) + Nat.b2n (p4 a)
              <= Nat.b2n (q a))%nat) ->
  (length (filter p1 l) + length (filter p2 l) + length (filter p3 l)
   + length (filter p4 l) <= length (filter q l))%nat.
Proof.
  intros H. induction l as [ | a l IH ]; simpl; [ lia | ].
  specialize (H a).
  destruct (p1 a), (p2 a), (p3 a), (p4 a), (q a); simpl in *; lia.
Qed.

Lemma filter2_within {A : Type} (p1 p2 q : A -> bool) (l : list A) :
  (forall a, (Nat.b2n (p1 a) + Nat.b2n (p2 a) <= Nat.b2n (q a))%nat) ->
  (length (filter p1 l) + length (filter p2 l) <= length (filter q l))%nat.
Proof.
  intros H. induction l as [ | a l IH ]; simpl; [ lia | ].
  specialize (H a). destruct (p1 a), (p2 a), (q a); simpl in *; lia.
Qed.

Lemma filter2_le {A : Type} (p1 p2 : A -> bool) (l : list A) :
  (forall a, (Nat.b2n (p1 a) + Nat.b2n (p2 a) <= 1)%nat) ->
  (length (filter p1 l) + length (filter p2 l) <= length l)%nat.
Proof.
  intros H. induction l as [ | a l IH ]; simpl; [ lia | ].
  specialize (H a). destruct (p1 a), (p2 a); simpl in *; lia.
Qed.

Lemma filter2_eq {A : Type} (p1 p2 : A -> bool) (l : list A) :
  (forall a, (Nat.b2n (p1 a) + Nat.b2n (p2 a) <= 1)%nat) ->
  forallb (fun a => p1 a || p2 a) l = true ->
  (length (filter p1 l) + length (filter p2 l) = length l)%nat.
Proof.
  intros H F. induction l as [ | a l IH ]; simpl in *; [ lia | ].
  apply andb_true_iff in F. destruct F as (Fa & F). specialize (IH F).
  specialize (H a). destruct (p1 a), (p2 a); simpl in *; lia || discriminate.
Qed.

Lemma forallb_same {A : Type} (f g : A -> bool) (l : list A) :
  (forall a, f a = g a) -> forallb f l = forallb g l.
Proof.
  intros H. induction l as [ | a l IH ]; simpl; [ reflexivity | ].
  rewrite H, IH. reflexivity.
Qed.

Lemma es_buckets_exclusive (r : row) :
  (Nat.b2n (es_lower_pp r) + Nat.b2n (es_higher_pp r) <= 1)%nat.
Proof.
  unfold es_lower_pp, es_higher_pp, cell_eq_int. destruct (ES_PP r) as [ v | ]; simpl;
    [ | lia ].
  destruct (Z.eqb_spec v 0), (Z.eqb_spec v 2), (Z.eqb_spec v 1), (Z.eqb_spec v (-1));
    simpl; lia.
Qed.

Lemma new_trend_exclusive (r : row) :
  (Nat.b2n (cell_eq_int (New_trend r) 1) + Nat.b2n (cell_eq_int (New_trend r) (-1))
   <= Nat.b2n (notnull (New_trend r)))%nat.
Proof.
  unfold cell_eq_int. destruct (New_trend r) as [ v | ]; simpl; [ | lia ].
  destruct (Z.eqb_spec v 1), (Z.eqb_spec v (-1)); simpl; lia.
Qed.

Lemma reversal_cohorts_le (df : dataframe) :
  (length (select (fun r => cell_eq_int (New_trend r) 1) (es_downtrend_then_reversal_df df))
   + length (select (fun r => cell_eq_int (New_trend r) (-1))
                    (es_uptrend_then_reversal_df df))
   + length (select (fun r => cell_eq_int (New_trend r) 1) (es_range_then_reversal_df df))
   + length (select (fun r => cell_eq_int (New_trend r) (-1))
                    (es_range_then_reversal_df df))
   <= count_days_with_reversal df)%nat.
Proof.
  unfold es_downtrend_then_reversal_df, es_uptrend_then_reversal_df,
    es_range_then_reversal_df, then_reversal, es_downtrend_df, es_uptrend_df,
    es_range_df, count_days_with_reversal, es_price_with_reversal_df, select.
  rewrite !filter_filter. apply filter4_le. intros r.
  unfold cell_eq_int, notnull.
  destruct (Trend_since_830 r) as [ v | ], (New_trend r) as [ w | ],
    (Hour_trend_change r) as [ h | ]; simpl;
    repeat match goal with
           | |- context [ Z.eqb ?a ?b ] => destruct (Z.eqb_spec a b); simpl
           end;
    lia.
Qed.

Lemma trend_day_fields (d : dataframe) (t : TrendDay.t) :
  trend_day d = inr t ->
  then_reversal d <> [] /\
  TrendDay.count_days t = length d /\
  TrendDay.pct_with_reversal t
  = 100 * of_nat (length (then_reversal d)) / of_nat (length d) /\
  TrendDay.pct_reversal_es_lt_pp t
  = 100 * of_nat (length (select es_lower_pp (then_reversal d)))
    / of_nat (length (then_reversal d)) /\
  TrendDay.pct_reversal_es_gt_pp t
  = 100 * of_nat (length (select es_higher_pp (then_reversal d)))
    / of_nat (length (then_reversal d)).
Proof.
  intros H. assert (N := trend_day_inr d t H).
  unfold trend_day, pct_with_reversal in H. cbn zeta in H. returned H.
  repeat match goal with
         | E : pct100 _ _ = inr _ |- _ => apply pct100_inv in E; destruct E as (_ & ->)
         end.
  inversion H; subst t; clear H. repeat split; try reflexivity. exact N.
Qed.

(** X12.  When [__analyze_reversal_each_trend] completes: the four shares of
    the 'reversal day' row are percentages, each 100 * count / (days with a
    reversal) for four counts that add up to at most the days with a
    reversal (reversals into a range are not listed); for the uptrend and
    the downtrend day the shares '% reversal when ES<PP' and '% reversal
    when ES>PP' add up to at most 100, and to 100 when every session of the
    reversal cohort carries one of the codes 0, 1, 2, -1; the two shares of
    the range-with-reversal row add up to at most 100; and the percentage
    with reversal kept as an attribute equals the one stored in the table
    of each class. *)
Theorem reversal_shares (df : dataframe) (st : Reversal.t) :
  analyze_reversal_each_trend df = inr st ->
  Forall2 (fun share k => share == 100 * of_nat k / of_nat (count_days_with_reversal df))
    [ ReversalDay.pct_down_then_up (Reversal.reversal_day st);
      ReversalDay.pct_up_then_down (Reversal.reversal_day st);
      ReversalDay.pct_range_then_up (Reversal.reversal_day st);
      ReversalDay.pct_range_then_down (Reversal.reversal_day st) ]
    [ length (select (fun r => cell_eq_int (New_trend r) 1)
                     (es_downtrend_then_reversal_df df));
      length (select (fun r => cell_eq_int (New_trend r) (-1))
                     (es_uptrend_then_reversal_df df));
      length (select (fun r => cell_eq_int (New_trend r) 1)
                     (es_range_then_reversal_df df));
      length (select (fun r => cell_eq_int (New_trend r) (-1))
                     (es_range_then_reversal_df df)) ] /\
  (length (select (fun r => cell_eq_int (New_trend r) 1) (es_downtrend_then_reversal_df df))
   + length (select (fun r => cell_eq_int (New_trend r) (-1))
                    (es_uptrend_then_reversal_df df))
   + length (select (fun r => cell_eq_int (New_trend r) 1) (es_range_then_reversal_df df))
   + length (select (fun r => cell_eq_int (New_trend r) (-1))
                    (es_range_then_reversal_df df))
   <= count_days_with_reversal df)%nat /\
  Forall percentage
    [ ReversalDay.pct_down_then_up (Reversal.reversal_day st);
      ReversalDay.pct_up_then_down (Reversal.reversal_day st);
      ReversalDay.pct_range_then_up (Reversal.reversal_day st);
      ReversalDay.pct_range_then_down (Reversal.reversal_day st) ] /\
  TrendDay.pct_reversal_es_lt_pp (Reversal.uptrend_day st)
  + TrendDay.pct_reversal_es_gt_pp (Reversal.uptrend_day st) <= 100 /\
  TrendDay.pct_reversal_es_lt_pp (Reversal.downtrend_day st)
  + TrendDay.pct_reversal_es_gt_pp (Reversal.downtrend_day st) <= 100 /\
  (forallb valid_code (es_uptrend_then_reversal_df df) = true ->
   TrendDay.pct_reversal_es_lt_pp (Reversal.uptrend_day st)
   + TrendDay.pct_reversal_es_gt_pp (Reversal.uptrend_day st) == 100) /\
  (forallb valid_code (es_downtrend_then_reversal_df df) = true ->
   TrendDay.pct_reversal_es_lt_pp (Reversal.downtrend_day st)
   + TrendDay.pct_reversal_es_gt_pp (Reversal.downtrend_day st) == 100) /\
  RangeThenReversal.pct_uptrend_reversal (Reversal.range_reversal st)
  + RangeThenReversal.pct_downtrend_reversal (Reversal.range_reversal st) <= 100 /\
  Reversal.pct_uptrend_then_reversal st
  = TrendDay.pct_with_reversal (Reversal.uptrend_day st) /\
  Reversal.pct_downtrend_then_reversal st
  = TrendDay.pct_with_reversal (Reversal.downtrend_day st) /\
  Reversal.pct_range_then_reversal st
  = TrendDay.pct_with_reversal (Reversal.range_day st).
Proof.
  intros H. unfold analyze_reversal_each_trend in H. returned H.
  inversion H; subst st; clear H.
  cbn [Reversal.reversal_day Reversal.uptrend_day Reversal.downtrend_day
       Reversal.range_reversal Reversal.range_day Reversal.pct_uptrend_then_reversal
       Reversal.pct_downtrend_then_reversal Reversal.pct_range_then_reversal
       ReversalDay.pct_down_then_up ReversalDay.pct_up_then_down
       ReversalDay.pct_range_then_up ReversalDay.pct_range_then_down].
  match goal with
  | U : trend_day (es_uptrend_df df) = inr ?u,
    D : trend_day (es_downtrend_df df) = inr ?d,
    R : range_day df = inr ?r,
    RR : range_then_reversal df = inr ?rr |- _ =>
      apply trend_day_fields in U; destruct U as (Nu & _ & Wu & Lu & Gu);
      apply trend_day_fields in D; destruct D as (Nd & _ & Wd & Ld & Gd);
      apply range_day_entry in R; destruct R as (Wr & _);
      unfold range_then_reversal in RR; cbn zeta in RR; returned RR;
      inversion RR; subst rr; clear RR
  end.
  cbn [RangeThenReversal.pct_uptrend_reversal RangeThenReversal.pct_downtrend_reversal].
  rewrite Lu, Gu, Ld, Gd, Wu, Wd.
  repeat match goal with
         | E : pct100 _ _ = inr _ |- _ =>
             apply pct100_inv in E; let N := fresh "N" in destruct E as (N & ->)
         | E : pct_with_reversal _ = inr _ |- _ =>
             unfold pct_with_reversal in E
         end.
  apply nonempty_length in Nu, Nd.
  pose proof (reversal_cohorts_le df) as Co.
  assert (C : count_days_with_reversal df <> 0%nat) by assumption.
  split; [ repeat constructor; reflexivity | ].
  split; [ exact Co | ].
  split; [ repeat (apply Forall_cons; [ apply pct_bounds; [ lia | exact C ] | ]);
           apply Forall_nil | ].
  split; [ | split; [ | split; [ | split; [ | split ] ] ] ].
  - apply share_sum2_le; [ | exact Nu ]. apply filter2_le, es_buckets_exclusive.
  - apply share_sum2_le; [ | exact Nd ]. apply filter2_le, es_buckets_exclusive.
  - intros F. apply share2; [ | exact Nu ].
    apply filter2_eq; [ apply es_buckets_exclusive | ].
    rewrite <- F. apply forallb_same. intros r. apply orb_comm.
  - intros F. apply share2; [ | exact Nd ].
    apply filter2_eq; [ apply es_buckets_exclusive | ].
    rewrite <- F. apply forallb_same. intros r. apply orb_comm.
  - match goal with
    | |- _ / of_nat ?n + _ <= _ =>
        assert (C' : n <> 0%nat) by assumption;
        apply share_sum2_le; [ | exact C' ]
    end.
    unfold range_of. rewrite length_map. unfold select.
    apply filter2_within. apply new_trend_exclusive.
  - repeat split; reflexivity.
Qed.

Lemma reversal_shares_witness :
  exists st,
    analyze_reversal_each_trend session_table = inr st /\
    (Forall2 (fun share k => share == 100 * of_nat k / of_nat (count_days_with_reversal session_table))
    [ ReversalDay.pct_down_then_up (Reversal.reversal_day st);
      ReversalDay.pct_up_then_down (Reversal.reversal_day st);
      ReversalDay.pct_range_then_up (Reversal.reversal_day st);
      ReversalDay.pct_range_then_down (Reversal.reversal_day st) ]
    [ length (select (fun r => cell_eq_int (New_trend r) 1)
                     (es_downtrend_then_reversal_df session_table));
      length (select (fun r => cell_eq_int (New_trend r) (-1))
                     (es_uptrend_then_reversal_df session_table));
      length (select (fun r => cell_eq_int (New_trend r) 1)
                     (es_range_then_reversal_df session_table));
      length (select (fun r => cell_eq_int (New_trend r) (-1))
                     (es_range_then_reversal_df session_table)) ] /\
  (length (select (fun r => cell_eq_int (New_trend r) 1) (es_downtrend_then_reversal_df session_table))
   + length (select (fun r => cell_eq_int (New_trend r) (-1))
                    (es_uptrend_then_reversal_df session_table))
   + length (select (fun r => cell_eq_int (New_trend r) 1) (es_range_then_reversal_df session_table))
   + length (select (fun r => cell_eq_int (New_trend r) (-1))
                    (es_range_then_reversal_df session_table))
   <= count_days_with_reversal session_table)%nat /\
  Forall percentage
    [ ReversalDay.pct_down_then_up (Reversal.reversal_day st);
      ReversalDay.pct_up_then_down (Reversal.reversal_day st);
      ReversalDay.pct_range_then_up (Reversal.reversal_day st);
      ReversalDay.pct_range_then_down (Reversal.reversal_day st) ] /\
  TrendDay.pct_reversal_es_lt_pp (Reversal.uptrend_day st)
  + TrendDay.pct_reversal_es_gt_pp (Reversal.uptrend_day st) <= 100 /\
  TrendDay.pct_reversal_es_lt_pp (Reversal.downtrend_day st)
  + TrendDay.pct_reversal_es_gt_pp (Reversal.downtrend_day st) <= 100 /\
  (forallb valid_code (es_uptrend_then_reversal_df session_table) = true ->
   TrendDay.pct_reversal_es_lt_pp (Reversal.uptrend_day st)
   + TrendDay.pct_reversal_es_gt_pp (Reversal.uptrend_day st) == 100) /\
  (forallb valid_code (es_downtrend_then_reversal_df session_table) = true ->
   TrendDay.pct_reversal_es_lt_pp (Reversal.downtrend_day st)
   + TrendDay.pct_reversal_es_gt_pp (Reversal.downtrend_day st) == 100) /\
  RangeThenReversal.pct_uptrend_reversal (Reversal.range_reversal st)
  + RangeThenReversal.pct_downtrend_reversal (Reversal.range_reversal st) <= 100 /\
  Reversal.pct_uptrend_then_reversal st
  = TrendDay.pct_with_reversal (Reversal.uptrend_day st) /\
  Reversal.pct_downtrend_then_reversal st
  = TrendDay.pct_with_reversal (Reversal.downtrend_day st) /\
  Reversal.pct_range_then_reversal st
  = TrendDay.pct_with_reversal (Reversal.range_day st)).
Proof.
  eexists. split; [ vm_compute; reflexivity | ].
  apply (reversal_shares session_table). vm_compute. reflexivity.
Defined.

Lemma start_pivot_outcome (df : dataframe) :
  (es_higher_pp_start df <> [] /\ es_lower_pp_start df <> []
   <-> exists out, analyze_reversal_es_start_pivot df = inr out) /\
  (forall e, analyze_reversal_es_start_pivot df = inl e -> e = ZeroDivisionError) /\
  (forall a b, analyze_reversal_es_start_pivot df = inr (a, b) ->
               percentage a /\ percentage b).
Proof.
  split; [ split | split ].
  - intros (Nh & Nl). unfold analyze_reversal_es_start_pivot.
    rewrite !pct100_ok by (apply nonempty_length; assumption).
    eexists. reflexivity.
  - intros (out & H). unfold analyze_reversal_es_start_pivot in H. returned H.
    repeat match goal with
           | E : pct100 _ _ = inr _ |- _ => apply pct100_inv in E; destruct E as (E & _)
           end.
    split; apply nonempty_length; assumption.
  - intros e H. unfold analyze_reversal_es_start_pivot in H.
    failed H; eapply pct100_inl; eassumption.
  - intros a b H. unfold analyze_reversal_es_start_pivot in H. returned H.
    inversion H; subst; clear H.
    repeat match goal with
           | E : pct100 _ _ = inr _ |- _ =>
               apply pct100_inv in E; let N := fresh "N" in destruct E as (N & ->)
           end.
    split; (apply pct_bounds; [ apply filter_length_le | assumption ]).
Qed.

(** X13.  [__analyze_reversal] as a whole, on a table that keeps the
    invariant of the reversal columns: the three steps complete exactly when
    each trend class has a session with a reversal and both open-versus-pivot
    cohorts (codes 1/-1 and codes 0/2) are non-empty; any failure is a
    [ZeroDivisionError]; and the general percentage of days with a reversal
    and the two cohort percentages are percentages. *)
Theorem analyze_reversal_completes (df : dataframe) :
  reversal_invariant df ->
  (es_uptrend_then_reversal_df df <> [] /\ es_downtrend_then_reversal_df df <> []
   /\ es_range_then_reversal_df df <> []
   /\ es_higher_pp_start df <> [] /\ es_lower_pp_start df <> []
   <-> exists out, analyze_reversal df = inr out) /\
  (forall e, analyze_reversal df = inl e -> e = ZeroDivisionError) /\
  (forall g t a b,
      analyze_reversal df = inr (g, t, (a, b)) ->
      g == 100 * of_nat (count_days_with_reversal df) / of_nat (length df) /\
      percentage g /\ percentage a /\ percentage b).
Proof.
  intros I.
  split; [ split | split ].
  - intros (Nu & Nd & Nr & Nh & Nl).
    destruct (each_trend_outcome df I) as (T & _).
    destruct (start_pivot_outcome df) as (S & _).
    assert (Ndf : df <> []) by (intros ->; apply Nu; reflexivity).
    unfold analyze_reversal, analyze_general_reversal.
    rewrite pct100_ok by (apply nonempty_length; exact Ndf).
    cbn [bind ret Monad_either].
    destruct (proj1 T) as (st & ->); [ auto | ]. cbn [bind ret Monad_either].
    destruct (proj1 S) as (out & ->); [ auto | ]. eexists. reflexivity.
  - intros (out & H). unfold analyze_reversal in H. returned H.
    destruct (each_trend_outcome df I) as (T & _).
    destruct (start_pivot_outcome df) as (S & _).
    match goal with
    | A : analyze_reversal_each_trend df = inr _,
      B : analyze_reversal_es_start_pivot df = inr _ |- _ =>
        assert (X := proj2 T (ex_intro _ _ A)); assert (Y := proj2 S (ex_intro _ _ B))
    end.
    tauto.
  - intros e H. unfold analyze_reversal, analyze_general_reversal in H.
    failed H.
    + eapply pct100_inl; eassumption.
    + destruct (each_trend_outcome df I) as (_ & Te). apply Te. assumption.
    + destruct (start_pivot_outcome df) as (_ & Se & _). apply Se. assumption.
  - intros g t a b H. unfold analyze_reversal, analyze_general_reversal in H.
    returned H. inversion H; subst; clear H.
    destruct (start_pivot_outcome df) as (_ & _ & Sp).
    match goal with
    | E : pct100 _ _ = inr _ |- _ =>
        apply pct100_inv in E; let N := fresh "N" in destruct E as (N & ->);
        split; [ reflexivity | split ];
        [ apply pct_bounds; [ apply filter_length_le | exact N ] | ]
    end.
    apply Sp. assumption.
Qed.

Lemma analyze_reversal_completes_witness :
  (es_uptrend_then_reversal_df session_table <> [] /\ es_downtrend_then_reversal_df session_table <> []
   /\ es_range_then_reversal_df session_table <> []
   /\ es_higher_pp_start session_table <> [] /\ es_lower_pp_start session_table <> []
   <-> exists out, analyze_reversal session_table = inr out) /\
  (forall e, analyze_reversal session_table = inl e -> e = ZeroDivisionError) /\
  (forall g t a b,
      analyze_reversal session_table = inr (g, t, (a, b)) ->
      g == 100 * of_nat (count_days_with_reversal session_table) / of_nat (length session_table) /\
      percentage g /\ percentage a /\ percentage b).
Proof.
  apply (analyze_reversal_completes session_table session_table_invariant).
Defined.

(* ===================================================================== *)
(** ** The bin edge [int(max(values))] and the range analyzer *)
(* ===================================================================== *)

(** The running maximum skips every [nan] after the first value. *)
Lemma fold_max_numbers (l : list number) (a : Q) :
  exists m,
    fold_left (fun m i => if Py.gt i m then i else m) l (Some a) = Some m /\
    a <= m /\
    (forall q, In (Some q) l -> q <= m) /\
    (m = a \/ In (Some m) l).
Proof.
  revert a. induction l as [ | i l IH ]; intros a.
  - exists a. simpl. split; [ reflexivity | split; [ apply Qle_refl | split ] ].
    + intros q [].
    + left. reflexivity.
  - simpl. destruct i as [ b | ]; simpl.
    + destruct (Qle_bool b a) eqn:E; simpl.
      * destruct (IH a) as (m & Hm & Am & Um & Im). exists m.
        split; [ exact Hm | split; [ exact Am | split ] ].
        -- intros q [ Eq | Hq ]; [ | apply Um; exact Hq ].
           inversion Eq; subst q. apply Qle_bool_iff in E.
           eapply Qle_trans; eassumption.
        -- destruct Im; auto.
      * assert (L : a <= b).
        { apply Qlt_le_weak. apply Qnot_le_lt. intros C.
          apply Qle_bool_iff in C. congruence. }
        destruct (IH b) as (m & Hm & Am & Um & Im). exists m.
        split; [ exact Hm | split; [ eapply Qle_trans; eassumption | split ] ].
        -- intros q [ Eq | Hq ]; [ | apply Um; exact Hq ].
           inversion Eq; subst q. exact Am.
        -- right. destruct Im as [ -> | Im ]; auto.
    + destruct (IH a) as (m & Hm & Am & Um & Im). exists m.
      split; [ exact Hm | split; [ exact Am | split ] ].
      * intros q [ Eq | Hq ]; [ discriminate | apply Um; exact Hq ].
      * destruct Im; auto.
Qed.

Lemma fold_max_nan (l : list number) :
  fold_left (fun m i => if Py.gt i m then i else m) l None = None.
Proof.
  induction l as [ | i l IH ]; simpl; [ reflexivity | ].
  destruct i; simpl; exact IH.
Qed.

(** X3.  The bin edge that the analyzers pass is [int(max(values))].  On a
    column whose first value is a number the CPF is computed, and it ends
    at 100 exactly when the column has no [nan] and its greatest number is
    at most its own truncation; with a [nan] in the column, or with a
    greatest number that is non-negative and not an integer, the last value
    stays below 100. *)
Theorem cpf_at_truncated_max (values : list number) (a : Q) (bin_span : Z) :
  hd_error values = Some (Some a) -> bin_span <> 0%Z ->
  exists m r,
    Py.max values = inr (Some m) /\
    In (Some m) values /\ (forall q, In (Some q) values -> q <= m) /\
    int_of_number (Some m) = inr (Py.int m) /\
    calc_cpf values (Py.int m) bin_span = inr r /\
    (last (cpf r) 0 == 100 <-> ~ In None values /\ m <= inject_Z (Py.int m)) /\
    (In None values -> last (cpf r) 0 < 100) /\
    (0 <= m -> ~ m == inject_Z (Py.int m) -> last (cpf r) 0 < 100).
Proof.
  intros H W. destruct values as [ | v l ]; simpl in H; [ discriminate | ].
  inversion H; subst v; clear H.
  destruct (fold_max_numbers l a) as (m & Hm & Am & Um & Im).
  assert (In_m : In (Some m) (Some a :: l)).
  { destruct Im as [ -> | Im ]; [ left; reflexivity | right; exact Im ]. }
  assert (Up : forall q, In (Some q) (Some a :: l) -> q <= m).
  { intros q [ E | Hq ]; [ inversion E; subst q; exact Am | apply Um; exact Hq ]. }
  destruct (range_total bin_span (Py.int m) bin_span W) as (pre & Hpre).
  assert (Nd : Some a :: l <> []) by discriminate.
  destruct (share_complete (Some a :: l) (Py.int m) Nd) as (I & B).
  assert (F : Forall (fun v => le_int v (Py.int m) = true) (Some a :: l)
              <-> ~ In None (Some a :: l) /\ m <= inject_Z (Py.int m)).
  { rewrite Forall_forall. split.
    - intros A. split.
      + intros Hn. specialize (A None Hn). discriminate.
      + specialize (A (Some m) In_m). simpl in A. apply Qle_bool_iff. exact A.
    - intros (Nn & Le) [ q | ] Hv; [ | contradiction ].
      simpl. apply Qle_bool_iff. eapply Qle_trans; [ apply Up; exact Hv | exact Le ]. }
  exists m. eexists.
  split; [ simpl; rewrite Hm; reflexivity | ].
  split; [ exact In_m | ]. split; [ exact Up | ]. split; [ reflexivity | ].
  split; [ apply calc_cpf_returns; eassumption | ].
  cbn [cpf]. rewrite last_map_snoc.
  split; [ rewrite I; exact F | ]. split.
  - intros Hn. apply B. rewrite F. tauto.
  - intros P Ni. apply B. rewrite F. intros (_ & Le). apply Ni.
    apply Qle_antisym; [ exact Le | ].
    rewrite int_nonneg_floor by exact P. apply Qfloor_le.
Qed.

Lemma cpf_at_truncated_max_witness :
  exists m r,
    Py.max [Some 3; None; Some (21 # 2); Some 7] = inr (Some m) /\
    In (Some m) [Some 3; None; Some (21 # 2); Some 7] /\
    (forall q, In (Some q) [Some 3; None; Some (21 # 2); Some 7] -> q <= m) /\
    int_of_number (Some m) = inr (Py.int m) /\
    calc_cpf [Some 3; None; Some (21 # 2); Some 7] (Py.int m) 5 = inr r /\
    (last (cpf r) 0 == 100
     <-> ~ In None [Some 3; None; Some (21 # 2); Some 7] /\ m <= inject_Z (Py.int m)) /\
    (In None [Some 3; None; Some (21 # 2); Some 7] -> last (cpf r) 0 < 100) /\
    (0 <= m -> ~ m == inject_Z (Py.int m) -> last (cpf r) 0 < 100).
Proof.
  apply (cpf_at_truncated_max [Some 3; None; Some (21 # 2); Some 7] 3 5);
    [ reflexivity | discriminate ].
Defined.

(** X14.  The bin edge [int(max(values))] that every numeric CPF receives:
    an empty column and a column whose first value is [nan] raise a
    [ValueError]; when the first value is a number, the edge is the
    truncation of the greatest number of the column, and a [nan] further
    down is skipped. *)
Theorem bin_edge_outcomes (values : list number) :
  (values = [] -> Py.max values = inl ValueError) /\
  (hd_error values = Some None ->
   (m <- Py.max values ;; int_of_number m) = inl ValueError) /\
  (forall a, hd_error values = Some (Some a) ->
             exists m,
               (m <- Py.max values ;; int_of_number m) = inr (Py.int m) /\
               In (Some m) values /\
               forall q, In (Some q) values -> q <= m).
Proof.
  split; [ | split ].
  - intros ->. reflexivity.
  - destruct values as [ | v l ]; simpl; [ discriminate | ].
    intros H. inversion H; subst v. rewrite fold_max_nan. reflexivity.
  - intros a H. destruct values as [ | v l ]; simpl in H; [ discriminate | ].
    inversion H; subst v.
    destruct (fold_max_numbers l a) as (m & Hm & Am & Um & Im).
    exists m. simpl. rewrite Hm. simpl. split; [ reflexivity | split ].
    + destruct Im as [ -> | Im ]; auto.
    + intros q [ Eq | Hq ]; [ inversion Eq; subst q; exact Am | apply Um; exact Hq ].
Qed.

Lemma bin_edge_numeric (values : list number) (a : Q) :
  hd_error values = Some (Some a) ->
  exists m, Py.max values = inr (Some m).
Proof.
  destruct values as [ | v l ]; simpl; [ discriminate | ].
  intros H. inversion H; subst v.
  destruct (fold_max_numbers l a) as (m & Hm & _). exists m. rewrite Hm. reflexivity.
Qed.

Lemma bin_edge_inr (values : list number) (m : number) (bin_max : Z) :
  Py.max values = inr m -> int_of_number m = inr bin_max ->
  exists a, hd_error values = Some (Some a).
Proof.
  destruct values as [ | v l ]; simpl; [ discriminate | ].
  intros H I. destruct v as [ a | ]; [ exists a; reflexivity | ].
  rewrite fold_max_nan in H. inversion H; subst m. discriminate.
Qed.

Lemma calc_cpf_cases (data : list number) (bin_max bin_span : Z) :
  bin_span <> 0%Z ->
  (data = [] /\ calc_cpf data bin_max bin_span = inl ZeroDivisionError) \/
  (data <> [] /\ exists c, calc_cpf data bin_max bin_span = inr c).
Proof.
  intros W. destruct data as [ | v l ].
  - left. split; [ reflexivity | apply calc_cpf_empty; exact W ].
  - right. split; [ discriminate | ].
    destruct (range_total bin_span bin_max bin_span W) as (r & Hr).
    eexists. apply calc_cpf_returns; [ discriminate | exact Hr ].
Qed.

Lemma range_of_nonempty (p : row -> bool) (d : dataframe) :
  range_of p d = [] <-> select p d = [].
Proof.
  unfold range_of. destruct (select p d); simpl; split; congruence.
Qed.

Lemma range_block_cases (class_df : dataframe) (bin_span : Z) :
  bin_span <> 0%Z ->
  (class_df = [] -> range_block class_df bin_span = inl ValueError) /\
  (hd_error (map Max_Range class_df) = Some None ->
   range_block class_df bin_span = inl ValueError) /\
  (forall a, hd_error (map Max_Range class_df) = Some (Some a) ->
             (select es_higher_pp class_df = [] \/ select es_lower_pp class_df = [] ->
              range_block class_df bin_span = inl ZeroDivisionError) /\
             (select es_higher_pp class_df <> [] -> select es_lower_pp class_df <> [] ->
              exists st,
                range_block class_df bin_span = inr st /\
                map fst (RangeCpf.es_lt_pp st) = map fst (RangeCpf.all_days st) /\
                map fst (RangeCpf.es_gt_pp st) = map fst (RangeCpf.all_days st))) /\
  (forall st, range_block class_df bin_span = inr st ->
              (exists a, hd_error (map Max_Range class_df) = Some (Some a)) /\
              select es_higher_pp class_df <> [] /\ select es_lower_pp class_df <> []).
Proof.
  intros W. split; [ | split; [ | split ] ].
  - intros ->. reflexivity.
  - intros H. unfold range_block.
    destruct (map Max_Range class_df) as [ | v l ]; [ discriminate | ].
    simpl in H. inversion H; subst v. simpl. rewrite fold_max_nan. reflexivity.
  - intros a H. destruct (bin_edge_numeric _ a H) as (m & Hm).
    assert (Nall : map Max_Range class_df <> [])
      by (destruct (map Max_Range class_df); [ discriminate | discriminate ]).
    destruct (calc_cpf_cases (map Max_Range class_df) (Py.int m) bin_span W)
      as [ (E & _) | (_ & call & Hall) ]; [ contradiction | ].
    unfold range_block. rewrite Hm. cbn [bind ret Monad_either int_of_number].
    rewrite Hall. cbn [bind ret Monad_either].
    fold es_higher_pp. fold es_lower_pp.
    destruct (calc_cpf_cases (range_of es_higher_pp class_df) (Py.int m) bin_span W)
      as [ (Eh & Hh) | (Nh & ch & Hh) ]; rewrite Hh; cbn [bind ret Monad_either].
    + apply range_of_nonempty in Eh. split; [ reflexivity | ].
      intros C. contradiction.
    + destruct (calc_cpf_cases (range_of es_lower_pp class_df) (Py.int m) bin_span W)
        as [ (El & Hl) | (Nl & cl & Hl) ]; rewrite Hl; cbn [bind ret Monad_either].
      * apply range_of_nonempty in El. split; [ reflexivity | ].
        intros _ C. contradiction.
      * split.
        -- intros [ C | C ]; apply range_of_nonempty in C; contradiction.
        -- intros _ _. eexists. split; [ reflexivity | ].
           cbn [RangeCpf.es_lt_pp RangeCpf.es_gt_pp RangeCpf.all_days].
           destruct (calc_cpf_same_x _ _ _ _ _ _ Hall Hh) as (_ & L0 & L1).
           destruct (calc_cpf_same_x _ _ _ _ _ _ Hall Hl) as (_ & _ & L2).
           rewrite !combine_fst by assumption. auto.
  - intros st H. assert (H' := H). apply range_block_labels in H'.
    destruct H' as (bin_max & call & above & below & _ & Ha & Hb & _).
    apply calc_cpf_inr in Ha, Hb. destruct Ha as (Na & _). destruct Hb as (Nb & _).
    split; [ | split ].
    + unfold range_block in H. cbn [bind ret Monad_either] in H.
      destruct (Py.max (map Max_Range class_df)) as [ | m ] eqn:Em; [ discriminate | ].
      cbn [bind ret Monad_either] in H.
      destruct (int_of_number m) as [ | b ] eqn:Ei; [ discriminate | ].
      exact (bin_edge_inr _ _ _ Em Ei).
    + intros C. apply Na. apply range_of_nonempty. exact C.
    + intros C. apply Nb. apply range_of_nonempty. exact C.
Qed.

(** X15.  One block of [__analyze_range] (non-zero bin width): an empty
    class, or a class whose first session has no maximum range, is a
    [ValueError]; otherwise the block is computed exactly when the class
    has a session with code 1 or -1 and a session with code 0 or 2, and
    stops with a [ZeroDivisionError] when one of the two cohorts is empty.
    The three CPF rows of a computed block carry the same thresholds. *)
Theorem range_block_outcomes (class_df : dataframe) (bin_span : Z) :
  bin_span <> 0%Z ->
  (class_df = [] -> range_block class_df bin_span = inl ValueError) /\
  (hd_error (map Max_Range class_df) = Some None ->
   range_block class_df bin_span = inl ValueError) /\
  (forall a, hd_error (map Max_Range class_df) = Some (Some a) ->
             (select es_higher_pp class_df = [] \/ select es_lower_pp class_df = [] ->
              range_block class_df bin_span = inl ZeroDivisionError) /\
             (select es_higher_pp class_df <> [] -> select es_lower_pp class_df <> [] ->
              exists st,
                range_block class_df bin_span = inr st /\
                map fst (RangeCpf.es_lt_pp st) = map fst (RangeCpf.all_days st) /\
                map fst (RangeCpf.es_gt_pp st) = map fst (RangeCpf.all_days st))) /\
  (forall st, range_block class_df bin_span = inr st ->
              (exists a, hd_error (map Max_Range class_df) = Some (Some a)) /\
              select es_higher_pp class_df <> [] /\ select es_lower_pp class_df <> []).
Proof.
  apply range_block_cases.
Qed.

Lemma range_block_outcomes_witness :
  ((es_range_df session_table) = [] -> range_block (es_range_df session_table) BIN_RANGE_CPF = inl ValueError) /\
  (hd_error (map Max_Range (es_range_df session_table)) = Some None ->
   range_block (es_range_df session_table) BIN_RANGE_CPF = inl ValueError) /\
  (forall a, hd_error (map Max_Range (es_range_df session_table)) = Some (Some a) ->
             (select es_higher_pp (es_range_df session_table) = [] \/ select es_lower_pp (es_range_df session_table) = [] ->
              range_block (es_range_df session_table) BIN_RANGE_CPF = inl ZeroDivisionError) /\
             (select es_higher_pp (es_range_df session_table) <> [] -> select es_lower_pp (es_range_df session_table) <> [] ->
              exists st,
                range_block (es_range_df session_table) BIN_RANGE_CPF = inr st /\
                map fst (RangeCpf.es_lt_pp st) = map fst (RangeCpf.all_days st) /\
                map fst (RangeCpf.es_gt_pp st) = map fst (RangeCpf.all_days st))) /\
  (forall st, range_block (es_range_df session_table) BIN_RANGE_CPF = inr st ->
              (exists a, hd_error (map Max_Range (es_range_df session_table)) = Some (Some a)) /\
              select es_higher_pp (es_range_df session_table) <> [] /\ select es_lower_pp (es_range_df session_table) <> []).
Proof.
  apply (range_block_outcomes (es_range_df session_table) BIN_RANGE_CPF). discriminate.
Defined.

Lemma range_block_inl (class_df : dataframe) (bin_span : Z) (e : exn) :
  range_block class_df bin_span = inl e -> e = ValueError \/ e = ZeroDivisionError.
Proof.
  intros H. unfold range_block in H.
  failed H;
    try (match goal with
         | E : Py.max _ = inl _ |- _ => apply max_inl in E
         | E : int_of_number _ = inl _ |- _ => apply int_of_number_inl in E
         | E : calc_cpf _ _ _ = inl _ |- _ => apply calc_cpf_inl in E
         end; tauto).
Qed.

Lemma range_block_ready (class_df : dataframe) (bin_span : Z) :
  bin_span <> 0%Z ->
  (range_ready class_df <-> exists st, range_block class_df bin_span = inr st).
Proof.
  intros W. destruct (range_block_cases class_df bin_span W) as (_ & _ & A & B).
  split.
  - intros ((a & Ha) & Nh & Nl). destruct (A a Ha) as (_ & R).
    destruct (R Nh Nl) as (st & Hst & _). exists st. exact Hst.
  - intros (st & H). apply B in H. exact H.
Qed.

(** X16.  [__analyze_range] runs the block on the range class with width 5
    and on the uptrend and downtrend classes with width 10.  It completes
    exactly when each of the three classes is ready (its first session has a
    maximum range and both open-versus-pivot cohorts have a session), and
    otherwise stops with a [ValueError] or a [ZeroDivisionError]; an empty
    range class is a [ValueError]. *)
Theorem analyze_range_completes (df : dataframe) :
  (range_ready (es_range_df df) /\ range_ready (es_uptrend_df df)
   /\ range_ready (es_downtrend_df df)
   <-> exists st, analyze_range df = inr st) /\
  (forall e, analyze_range df = inl e -> e = ValueError \/ e = ZeroDivisionError) /\
  (es_range_df df = [] -> analyze_range df = inl ValueError).
Proof.
  assert (W5 : BIN_RANGE_CPF <> 0%Z) by discriminate.
  assert (W10 : BIN_TREND_CPF <> 0%Z) by discriminate.
  split; [ split | split ].
  - intros (Rr & Ru & Rd).
    apply (range_block_ready _ _ W5) in Rr. apply (range_block_ready _ _ W10) in Ru, Rd.
    destruct Rr as (r & Hr). destruct Ru as (u & Hu). destruct Rd as (d & Hd).
    unfold analyze_range. rewrite Hr, Hu, Hd. eexists. reflexivity.
  - intros (st & H). unfold analyze_range in H. cbn [bind ret Monad_either] in H.
    destruct (range_block (es_range_df df) BIN_RANGE_CPF) as [ | r ] eqn:Er;
      [ discriminate | ].
    cbn [bind ret Monad_either] in H.
    destruct (range_block (es_uptrend_df df) BIN_TREND_CPF) as [ | u ] eqn:Eu;
      [ discriminate | ].
    cbn [bind ret Monad_either] in H.
    destruct (range_block (es_downtrend_df df) BIN_TREND_CPF) as [ | d ] eqn:Ed;
      [ discriminate | ].
    split; [ | split ].
    + apply (range_block_ready _ _ W5). exists r. exact Er.
    + apply (range_block_ready _ _ W10). exists u. exact Eu.
    + apply (range_block_ready _ _ W10). exists d. exact Ed.
  - intros e H. unfold analyze_range in H. failed H; eapply range_block_inl; eassumption.
  - intros E. unfold analyze_range. rewrite E. reflexivity.
Qed.

(* ===================================================================== *)
(** ** The no-rebound analyzer *)
(* ===================================================================== *)

Lemma null_cell_dec {A : Type} (data : list (cell A)) : In None data \/ ~ In None data.
Proof.
  induction data as [ | c data IH ]; [ right; intros [] | ].
  destruct c as [ a | ]; [ | left; left; reflexivity ].
  destruct IH as [ H | H ]; [ left; right; exact H | right ].
  intros [ E | I ]; [ discriminate | contradiction ].
Qed.

Lemma calc_cpf_time_cases (data : list (cell time)) :
  (data = [] /\ calc_cpf_time data = inl ZeroDivisionError) \/
  (In None data /\ calc_cpf_time data = inl TypeError) \/
  (data <> [] /\ ~ In None data /\
   exists c, calc_cpf_time data = inr c /\ x c = x_cpf_time /\ length (cpf c) = 12%nat).
Proof.
  destruct data as [ | v l ] eqn:E; [ left; split; reflexivity | ]. rewrite <- E.
  assert (N : data <> []) by (rewrite E; discriminate).
  destruct (null_cell_dec data) as [ H | H ].
  - right. left. split; [ exact H | ].
    unfold calc_cpf_time, x_cpf_time. cbn [mapM].
    rewrite (sum_le_time_null data _ H). reflexivity.
  - right. right. split; [ exact N | split; [ exact H | ] ].
    destruct (cells_all_some data H) as (obs & ->).
    eexists. split; [ apply calc_cpf_time_returns; intros ->; apply N; reflexivity | ].
    split; reflexivity.
Qed.

Lemma body_cpf_cases (j level_df : journal) :
  (forall a, hd_error (map body_candle_of (no_rebounds_df j)) = Some (Some a) ->
             (body_candles level_df = [] /\ body_cpf j level_df = inl ZeroDivisionError)
             \/ (body_candles level_df <> [] /\ exists c, body_cpf j level_df = inr c)) /\
  (forall c, body_cpf j level_df = inr c ->
             (exists a, hd_error (map body_candle_of (no_rebounds_df j)) = Some (Some a))
             /\ body_candles level_df <> []) /\
  (forall e, body_cpf j level_df = inl e -> e = ValueError \/ e = ZeroDivisionError).
Proof.
  split; [ | split ].
  - intros a H. destruct (bin_edge_numeric _ a H) as (m & Hm).
    unfold body_cpf. cbn zeta. rewrite Hm. cbn [bind ret Monad_either int_of_number].
    destruct (calc_cpf_cases (body_candles level_df) (Py.int m) 5) as [ C | C ];
      [ discriminate | left; exact C | right; exact C ].
  - intros c H. unfold body_cpf in H. cbn zeta in H. cbn [bind ret Monad_either] in H.
    destruct (Py.max (map body_candle_of (no_rebounds_df j))) as [ | m ] eqn:Em;
      [ discriminate | ].
    cbn [bind ret Monad_either] in H.
    destruct (int_of_number m) as [ | b ] eqn:Ei; [ discriminate | ].
    cbn [bind ret Monad_either] in H.
    split; [ exact (bin_edge_inr _ _ _ Em Ei) | ].
    apply calc_cpf_inr in H. apply H.
  - intros e H. unfold body_cpf in H. cbn zeta in H.
    failed H;
      match goal with
      | E : Py.max _ = inl _ |- _ => apply max_inl in E
      | E : int_of_number _ = inl _ |- _ => apply int_of_number_inl in E
      | E : calc_cpf _ _ _ = inl _ |- _ => apply calc_cpf_inl in E
      end; tauto.
Qed.

Lemma body_cpf_same_x (j l1 l2 : journal) (c1 c2 : cpf_result Z) :
  body_cpf j l1 = inr c1 -> body_cpf j l2 = inr c2 ->
  x c1 = x c2 /\ length (cpf c1) = length (x c1) /\ length (cpf c2) = length (x c1).
Proof.
  unfold body_cpf. cbn zeta. cbn [bind ret Monad_either].
  destruct (Py.max (map body_candle_of (no_rebounds_df j))) as [ | m ]; [ discriminate | ].
  cbn [bind ret Monad_either].
  destruct (int_of_number m) as [ | b ]; [ discriminate | ].
  cbn [bind ret Monad_either]. apply calc_cpf_same_x.
Qed.

(** X17.  [__analyze_no_rebound]: it completes exactly when each of the
    levels PP, S, R is ready (a failed rebound on record, a crossing time on
    each of them, a candle with a positive body on one of them) and the
    first failed rebound of the sheet has a candle body; the first CPF raises
    a [ZeroDivisionError] when the pivot has no failed rebound and a
    [TypeError] when one of them lacks its crossing time.  When it
    completes, the three time rows carry the twelve time thresholds and the
    three body rows carry the same thresholds. *)
Theorem analyze_no_rebound_completes (j : journal) :
  (crossing_ready "PP" j /\ crossing_ready "S" j /\ crossing_ready "R" j /\
   (exists a, hd_error (map body_candle_of (no_rebounds_df j)) = Some (Some a))
   <-> exists st, analyze_no_rebound j = inr st) /\
  (no_rebounds_at "PP" j = [] -> analyze_no_rebound j = inl ZeroDivisionError) /\
  (In None (map time_cross_of (no_rebounds_at "PP" j)) ->
   analyze_no_rebound j = inl TypeError) /\
  (forall st, analyze_no_rebound j = inr st ->
              map fst (NoReboundCpf.time_pivot st) = x_cpf_time /\
              map fst (NoReboundCpf.time_support st) = x_cpf_time /\
              map fst (NoReboundCpf.time_resistance st) = x_cpf_time /\
              map fst (NoReboundCpf.body_pivot st)
              = map fst (NoReboundCpf.body_resistance st) /\
              map fst (NoReboundCpf.body_support st)
              = map fst (NoReboundCpf.body_resistance st)).
Proof.
  split; [ split | split; [ | split ] ].
  - intros ((_ & Tp & Bp) & (_ & Ts & Bs) & (_ & Tr & Br) & (a & Ha)).
    unfold analyze_no_rebound. cbn zeta.
    destruct (calc_cpf_time_cases (map time_cross_of (no_rebounds_at "PP" j)))
      as [ (E & _) | [ (I & _) | (_ & _ & cp & -> & _) ] ];
      [ exfalso; apply Bp; unfold body_candles;
        apply map_eq_nil in E; rewrite E; reflexivity
      | contradiction | ].
    cbn [bind ret Monad_either].
    destruct (calc_cpf_time_cases (map time_cross_of (no_rebounds_at "S" j)))
      as [ (E & _) | [ (I & _) | (_ & _ & cs & -> & _) ] ];
      [ exfalso; apply Bs; unfold body_candles;
        apply map_eq_nil in E; rewrite E; reflexivity
      | contradiction | ].
    cbn [bind ret Monad_either].
    destruct (calc_cpf_time_cases (map time_cross_of (no_rebounds_at "R" j)))
      as [ (E & _) | [ (I & _) | (_ & _ & cr & -> & _) ] ];
      [ exfalso; apply Br; unfold body_candles;
        apply map_eq_nil in E; rewrite E; reflexivity
      | contradiction | ].
    cbn [bind ret Monad_either].
    destruct (proj1 (body_cpf_cases j (no_rebounds_at "PP" j)) a Ha)
      as [ (E & _) | (_ & bp & ->) ]; [ contradiction | ].
    cbn [bind ret Monad_either].
    destruct (proj1 (body_cpf_cases j (no_rebounds_at "S" j)) a Ha)
      as [ (E & _) | (_ & bs & ->) ]; [ contradiction | ].
    cbn [bind ret Monad_either].
    destruct (proj1 (body_cpf_cases j (no_rebounds_at "R" j)) a Ha)
      as [ (E & _) | (_ & br & ->) ]; [ contradiction | ].
    eexists. reflexivity.
  - intros (st & H). unfold analyze_no_rebound in H. cbn zeta in H. returned H.
    assert (T : forall point tbl,
               calc_cpf_time (map time_cross_of (no_rebounds_at point j)) = inr tbl ->
               no_rebounds_at point j <> []
               /\ ~ In None (map time_cross_of (no_rebounds_at point j))).
    { intros point tbl Hc.
      destruct (calc_cpf_time_cases (map time_cross_of (no_rebounds_at point j)))
        as [ (_ & Fz) | [ (_ & Fz) | (Nz & Iz & _) ] ]; try congruence.
      split; [ | exact Iz ]. intros Z. apply Nz. rewrite Z. reflexivity. }
    assert (B : forall l tbl,
               body_cpf j l = inr tbl ->
               (exists a, hd_error (map body_candle_of (no_rebounds_df j)) = Some (Some a))
               /\ body_candles l <> [])
      by (intros l tbl; apply body_cpf_cases).
    repeat match goal with
           | E : calc_cpf_time _ = inr _ |- _ => apply T in E
           | E : body_cpf _ _ = inr _ |- _ => apply B in E
           end.
    unfold crossing_ready. tauto.
  - intros E. unfold analyze_no_rebound. cbn zeta. rewrite E. reflexivity.
  - intros I. unfold analyze_no_rebound. cbn zeta.
    destruct (calc_cpf_time_cases (map time_cross_of (no_rebounds_at "PP" j)))
      as [ (E & _) | [ (_ & ->) | (_ & N & _) ] ];
      [ rewrite E in I; destruct I | reflexivity | contradiction ].
  - intros st H. unfold analyze_no_rebound in H. cbn zeta in H.
    cbn [bind ret Monad_either] in H.
    destruct (calc_cpf_time_cases (map time_cross_of (no_rebounds_at "PP" j)))
      as [ (_ & E) | [ (_ & E) | (_ & _ & cp & E & Xp & Lp) ] ];
      rewrite E in H; try discriminate.
    cbn [bind ret Monad_either] in H.
    destruct (calc_cpf_time_cases (map time_cross_of (no_rebounds_at "S" j)))
      as [ (_ & E') | [ (_ & E') | (_ & _ & cs & E' & Xs & Ls) ] ];
      rewrite E' in H; try discriminate.
    cbn [bind ret Monad_either] in H.
    destruct (calc_cpf_time_cases (map time_cross_of (no_rebounds_at "R" j)))
      as [ (_ & E'') | [ (_ & E'') | (_ & _ & cr & E'' & Xr & Lr) ] ];
      rewrite E'' in H; try discriminate.
    cbn [bind ret Monad_either] in H.
    destruct (body_cpf j (no_rebounds_at "PP" j)) as [ | bp ] eqn:Bp; [ discriminate | ].
    cbn [bind ret Monad_either] in H.
    destruct (body_cpf j (no_rebounds_at "S" j)) as [ | bs ] eqn:Bs; [ discriminate | ].
    cbn [bind ret Monad_either] in H.
    destruct (body_cpf j (no_rebounds_at "R" j)) as [ | br ] eqn:Br; [ discriminate | ].
    inversion H; subst st; clear H.
    cbn [NoReboundCpf.time_pivot NoReboundCpf.time_support NoReboundCpf.time_resistance
         NoReboundCpf.body_pivot NoReboundCpf.body_support NoReboundCpf.body_resistance].
    destruct (body_cpf_same_x _ _ _ _ _ Br Bp) as (_ & L0 & L1).
    destruct (body_cpf_same_x _ _ _ _ _ Br Bs) as (_ & _ & L2).
    rewrite Xp. rewrite !combine_fst by (try assumption; rewrite ?Lp, ?Ls, ?Lr; reflexivity).
    auto.
Qed.

Lemma analyze_no_rebound_completes_witness :
  exists st, analyze_no_rebound crossing_table = inr st.
Proof.
  apply (proj1 (analyze_no_rebound_completes crossing_table)).
  unfold crossing_ready.
  repeat split; try (vm_compute; discriminate);
    try (vm_compute; intros H; repeat destruct H as [ H | H ]; try discriminate; exact H).
  eexists. vm_compute. reflexivity.
Defined.
